(** * Sky client manager: a shallow embedding of [manage_clients.py]

    The program keeps one JSON file per client in the directory
    [sky_clientes], next to a counter file, and drives them from a text menu.
    This file embeds its functions as Rocq definitions over an explicit
    program state (directory, in-memory dictionary, counter, clock, standard
    input and output, log) and proves the properties of the specification
    about them.

    Conventions of the model.
    - Text is ASCII: a Python [str] is a [string], and the string operations
      below are Python's on code points below 128 ([PyStr.es_ascii]).  A
      property whose conclusion depends on what such an operation computes
      is stated for ASCII text.
    - Python values are those that [json] reads and writes, with integers for
      numbers; operations on a value of the wrong kind raise the exception
      that Python raises ([KeyError], [AttributeError], [TypeError]).
    - [M A] is a state and exception monad: a computation takes the program
      state and returns a value or a raised exception, with the new state.
    - The directory is a flat finite map from file names to file contents.
      A file is seen through [json.load]: a JSON document, given by the
      value it decodes to; text that is not one, on which [json.load] raises
      [JSONDecodeError]; or a file that [json.load] gives up on with another
      exception (bytes that are not text, a numeral or a nesting beyond the
      limits of the interpreter).  That [json.load] returns what
      [json.dump] was given is a property of the library that the model
      takes as it is.  Directory listings come in the order of the
      map, which, like that of [os.listdir], is not chosen by the program.
    - The file system fails only where the path decides it: a name with a
      slash, a NUL or more than [NAME_MAX] characters cannot be created, and
      a missing file cannot be read or removed.
    - [salida] records the lines that [print] writes (not the prompts of
      [input]), [bitacora] the records that [info] and [error] append to the
      log file.
    - A loop of the program runs on fuel that its caller gives in full: one
      test more than there are files for the loop of [generate_unique_id],
      one round more than there are lines waiting on the input for the loop
      of the menu. *)

From Stdlib Require Import Ascii NArith ZArith.
From stdpp Require Import base option list strings pretty gmap fin_maps.

Local Open Scope Z_scope.

(** ** Python strings *)

Module PyStr.

Definition codigo (c : ascii) : N := N_of_ascii c.

(** [c.isdigit()] and the class [\d], on ASCII: among the code points below
    128 the decimal digits are [0] to [9]. *)
Definition es_digito (c : ascii) : bool :=
  let n := codigo c in ((48 <=? n) && (n <=? 57))%N.

Definition es_mayuscula (c : ascii) : bool :=
  let n := codigo c in ((65 <=? n) && (n <=? 90))%N.

Definition es_minuscula (c : ascii) : bool :=
  let n := codigo c in ((97 <=? n) && (n <=? 122))%N.

(** [c.isspace()], on ASCII: tab, line feed, vertical tab, form feed,
    carriage return, the four separators 28..31 and the space.  This is the
    white space that [str.strip] removes. *)
Definition es_espacio (c : ascii) : bool :=
  let n := codigo c in
  (((9 <=? n) && (n <=? 13)) || ((28 <=? n) && (n <=? 31)) || (n =? 32))%N.

(** The case mappings of [str.lower] and [str.upper], on ASCII. *)
Definition lower_char (c : ascii) : ascii :=
  if es_mayuscula c then ascii_of_N (codigo c + 32) else c.

Definition upper_char (c : ascii) : ascii :=
  if es_minuscula c then ascii_of_N (codigo c - 32) else c.

Fixpoint mapa (f : ascii → ascii) (s : string) : string :=
  match s with
  | EmptyString => EmptyString
  | String c s' => String (f c) (mapa f s')
  end.

(** [s.lower()] and [s.upper()]. *)
Definition lower (s : string) : string := mapa lower_char s.
Definition upper (s : string) : string := mapa upper_char s.

(** [s.capitalize()]: first character upper-cased, the rest lower-cased. *)
Definition capitalize (s : string) : string :=
  match s with
  | EmptyString => EmptyString
  | String c s' => String (upper_char c) (lower s')
  end.

Fixpoint lstrip (s : string) : string :=
  match s with
  | EmptyString => EmptyString
  | String c s' => if es_espacio c then lstrip s' else s
  end.

Fixpoint rstrip (s : string) : string :=
  match s with
  | EmptyString => EmptyString
  | String c s' =>
      match rstrip s' with
      | EmptyString => if es_espacio c then EmptyString else String c EmptyString
      | r => String c r
      end
  end.

(** [s.strip()]. *)
Definition strip (s : string) : string := rstrip (lstrip s).

(** [s.startswith(p)]. *)
Fixpoint startswith (p s : string) : bool :=
  match p, s with
  | EmptyString, _ => true
  | String a p', String b s' => if decide (a = b) then startswith p' s' else false
  | String _ _, EmptyString => false
  end.

(** [s.endswith(p)]. *)
Fixpoint endswith (p s : string) : bool :=
  match s with
  | EmptyString => bool_decide (p = EmptyString)
  | String _ s' => bool_decide (p = s) || endswith p s'
  end.

(** [sub in s] for two strings. *)
Fixpoint contiene (sub s : string) : bool :=
  startswith sub s ||
  match s with
  | EmptyString => false
  | String _ s' => contiene sub s'
  end.

(** [s.replace(old, new)] for a non-empty [old] (the program only passes
    literals): occurrences are replaced from left to right without overlap;
    [saltar] counts the characters of the current occurrence still to skip. *)
Fixpoint replace_desde (old new : string) (saltar : nat) (s : string) : string :=
  match s with
  | EmptyString => EmptyString
  | String c s' =>
      match saltar with
      | S n => replace_desde old new n s'
      | O =>
          if startswith old s
          then new +:+ replace_desde old new (String.length old - 1) s'
          else String c (replace_desde old new 0 s')
      end
  end.

Definition replace (old new s : string) : string := replace_desde old new 0 s.

(** [s[0]], [None] standing for [IndexError]; the first character of ASCII
    text. *)
Definition primero (s : string) : option ascii :=
  match s with
  | EmptyString => None
  | String c _ => Some c
  end.

Fixpoint todos (p : ascii → bool) (s : string) : bool :=
  match s with
  | EmptyString => true
  | String c s' => p c && todos p s'
  end.

(** A code point below 128, and text made of such: the text on which the
    operations of this module are those of Python. *)
Definition es_ascii_char (c : ascii) : bool := (codigo c <? 128)%N.
Definition es_ascii (s : string) : bool := todos es_ascii_char s.

Fixpoint repetir (n : nat) (c : ascii) : string :=
  match n with
  | O => EmptyString
  | S n' => String c (repetir n' c)
  end.

(** Left padding with zeros up to [ancho] characters. *)
Definition rellenar (ancho : nat) (s : string) : string :=
  repetir (ancho - String.length s) "0"%char +:+ s.

(** [str(n)] of an integer. *)
Definition str_int (n : Z) : string := pretty n.

(** [format(n, "03d")]: zero padding to width 3, the sign counted in the
    width and written first. *)
Definition format_03d (n : Z) : string :=
  if n <? 0 then "-" +:+ rellenar 2 (pretty (Z.abs_N n))
  else rellenar 3 (pretty (Z.abs_N n)).

(** Value of a run of decimal digits, most significant first. *)
Fixpoint valor_digitos (acc : N) (s : string) : option N :=
  match s with
  | EmptyString => Some acc
  | String c s' =>
      if es_digito c then valor_digitos (acc * 10 + (codigo c - 48))%N s'
      else if decide (c = "_"%char) then
        match s' with
        | String d _ => if es_digito d then valor_digitos acc s' else None
        | EmptyString => None
        end
      else None
  end.

Definition entero_sin_signo (s : string) : option N :=
  match s with
  | String c _ => if es_digito c then valor_digitos 0 s else None
  | EmptyString => None
  end.

(** The white space that [int] skips around the numeral in ASCII text: that
    of C's [isspace], which has not the separators 28..31. *)
Definition es_espacio_c (c : ascii) : bool :=
  let n := codigo c in (((9 <=? n) && (n <=? 13)) || (n =? 32))%N.

Fixpoint lstrip_c (s : string) : string :=
  match s with
  | EmptyString => EmptyString
  | String c s' => if es_espacio_c c then lstrip_c s' else s
  end.

Fixpoint rstrip_c (s : string) : string :=
  match s with
  | EmptyString => EmptyString
  | String c s' =>
      match rstrip_c s' with
      | EmptyString => if es_espacio_c c then EmptyString else String c EmptyString
      | r => String c r
      end
  end.

(** [int(s)] in base 10, on ASCII text: surrounding white space, an optional
    sign, digits with single underscores between them; [None] stands for
    [ValueError]. *)
Definition int (s : string) : option Z :=
  match rstrip_c (lstrip_c s) with
  | String "-" r => (λ n, - Z.of_N n) <$> entero_sin_signo r
  | String "+" r => Z.of_N <$> entero_sin_signo r
  | r => Z.of_N <$> entero_sin_signo r
  end.

(** Character classes used to state where [strip] and [replace] change
    nothing. *)
Definition no_espacio (c : ascii) : bool := negb (es_espacio c).
Definition no_espacio_c (c : ascii) : bool := negb (es_espacio_c c).
Definition no_C (c : ascii) : bool := negb (bool_decide (c = "C"%char)).

End PyStr.

(** ** Regular expressions (module [re])

    Only the boolean outcome of [re.match] is used, so a pattern is matched
    by derivatives. *)

Module Re.

Inductive regex : Type :=
| Nada
| Eps
| Clase (p : ascii → bool)
| Cat (r1 r2 : regex)
| Alt (r1 r2 : regex)
| Estrella (r : regex).

Definition Mas (r : regex) : regex := Cat r (Estrella r).

Fixpoint Veces (n : nat) (r : regex) : regex :=
  match n with
  | O => Eps
  | S n' => Cat r (Veces n' r)
  end.

Fixpoint anulable (r : regex) : bool :=
  match r with
  | Nada => false
  | Eps => true
  | Clase _ => false
  | Cat r1 r2 => anulable r1 && anulable r2
  | Alt r1 r2 => anulable r1 || anulable r2
  | Estrella _ => true
  end.

Fixpoint derivada (c : ascii) (r : regex) : regex :=
  match r with
  | Nada => Nada
  | Eps => Nada
  | Clase p => if p c then Eps else Nada
  | Cat r1 r2 =>
      if anulable r1 then Alt (Cat (derivada c r1) r2) (derivada c r2)
      else Cat (derivada c r1) r2
  | Alt r1 r2 => Alt (derivada c r1) (derivada c r2)
  | Estrella r1 => Cat (derivada c r1) (Estrella r1)
  end.

(** The whole of [s] is a word of [r]. *)
Fixpoint coincide (r : regex) (s : string) : bool :=
  match s with
  | EmptyString => anulable r
  | String c s' => coincide (derivada c r) s'
  end.

Definition salto : ascii := "010"%char.

(** [s] without its last character when that is a line feed. *)
Fixpoint sin_salto_final (s : string) : option string :=
  match s with
  | EmptyString => None
  | String c EmptyString => if decide (c = salto) then Some EmptyString else None
  | String c s' => String c <$> sin_salto_final s'
  end.

(** [bool(re.match("^" r "$", s))]: the match starts at the beginning, and
    [$] holds at the end of [s] and also just before a line feed that ends
    [s]. *)
Definition match_anclado (r : regex) (s : string) : bool :=
  coincide r s ||
  match sin_salto_final s with
  | Some s' => coincide r s'
  | None => false
  end.

End Re.

(** ** Python values

    What [json.load] returns and [json.dump] accepts: [None], booleans,
    integers, strings, lists and dictionaries with string keys (kept in
    insertion order).  Numbers with a fraction or an exponent are left
    out. *)

#[local] Set Warnings "-register-all".

Inductive json : Type :=
| JNull
| JBool (b : bool)
| JNum (n : Z)
| JStr (s : string)
| JList (l : list json)
| JObj (d : list (string * json)).

Inductive excepcion : Type :=
| OSError            (* also raised under its alias IOError *)
| JSONDecodeError
| ValueError
| KeyError
| AttributeError
| TypeError
| IndexError
| EOFError
| UnicodeDecodeError (* a [ValueError] in Python; no clause of the program names either *)
| RecursionError
| SinCombustible.    (* no Python exception: a loop of the model ran out of fuel *)

Inductive resultado (A : Type) : Type :=
| Ok (a : A)
| Raise (e : excepcion).
Arguments Ok {A} a.
Arguments Raise {A} e.

Module Py.

(** [bool(v)]. *)
Definition truth (v : json) : bool :=
  match v with
  | JNull => false
  | JBool b => b
  | JNum n => negb (n =? 0)
  | JStr s => negb (bool_decide (s = ""))
  | JList l => negb (bool_decide (l = []))
  | JObj d => negb (bool_decide (d = []))
  end.

Fixpoint dict_get (k : string) (d : list (string * json)) : option json :=
  match d with
  | [] => None
  | (k', v) :: d' => if decide (k = k') then Some v else dict_get k d'
  end.

(** [d[k] = v] on a dictionary that has the key [k]. *)
Fixpoint dict_set (k : string) (v : json) (d : list (string * json))
  : list (string * json) :=
  match d with
  | [] => [(k, v)]
  | (k', v') :: d' =>
      if decide (k = k') then (k, v) :: d' else (k', v') :: dict_set k v d'
  end.

(** [v.get(k, "")]. *)
Definition get_o_vacio (k : string) (v : json) : resultado json :=
  match v with
  | JObj d => Ok (default (JStr "") (dict_get k d))
  | _ => Raise AttributeError
  end.

(** [v[k]] for a string [k]. *)
Definition item (k : string) (v : json) : resultado json :=
  match v with
  | JObj d => match dict_get k d with Some x => Ok x | None => Raise KeyError end
  | _ => Raise TypeError
  end.

(** [v.lower()]. *)
Definition lower (v : json) : resultado string :=
  match v with
  | JStr s => Ok (PyStr.lower s)
  | _ => Raise AttributeError
  end.

(** [v.replace(old, new)]. *)
Definition replace (old new : string) (v : json) : resultado string :=
  match v with
  | JStr s => Ok (PyStr.replace old new s)
  | _ => Raise AttributeError
  end.

(** [k in v] for a string [k]. *)
Definition contiene_clave (k : string) (v : json) : resultado bool :=
  match v with
  | JObj d => Ok (bool_decide (is_Some (dict_get k d)))
  | JList l =>
      Ok (existsb (λ x, match x with JStr s => bool_decide (s = k) | _ => false end) l)
  | JStr s => Ok (PyStr.contiene k s)
  | _ => Raise TypeError
  end.

(** [v[k].append(x)]: the list under [k] grows at its end, in place. *)
Definition append_en (k : string) (x : json) (v : json) : resultado json :=
  match v with
  | JObj d =>
      match dict_get k d with
      | Some (JList l) => Ok (JObj (dict_set k (JList (l ++ [x])) d))
      | Some _ => Raise AttributeError
      | None => Raise KeyError
      end
  | _ => Raise TypeError
  end.

Definition hex_digito (n : N) : ascii :=
  if (n <? 10)%N then ascii_of_N (48 + n) else ascii_of_N (87 + n).

(** One character of [repr(s)] inside the quotes [q], on ASCII: of the code
    points below 128 those under 32 and 127 are not printable. *)
Definition repr_char (q c : ascii) : string :=
  let n := PyStr.codigo c in
  if decide (c = "\"%char) then "\\"
  else if decide (c = q) then String "\" (String q "")
  else if decide (c = "009"%char) then "\t"
  else if decide (c = "010"%char) then "\n"
  else if decide (c = "013"%char) then "\r"
  else if ((n <? 32) || (127 <=? n))%N
       then String "\" (String "x" (String (hex_digito (n / 16)) (String (hex_digito (n mod 16)) "")))
  else String c "".

Fixpoint repr_cuerpo (q : ascii) (s : string) : string :=
  match s with
  | EmptyString => EmptyString
  | String c s' => repr_char q c +:+ repr_cuerpo q s'
  end.

(** [repr(s)] of a string: single quotes, unless the string has a single
    quote and no double quote. *)
Definition repr_str (s : string) : string :=
  let q := if PyStr.contiene "'" s && negb (PyStr.contiene (String "034" "") s)
           then "034"%char else "'"%char in
  String q (repr_cuerpo q s +:+ String q "").

(** [repr(v)]. *)
Fixpoint repr (v : json) : string :=
  match v with
  | JNull => "None"
  | JBool true => "True"
  | JBool false => "False"
  | JNum n => PyStr.str_int n
  | JStr s => repr_str s
  | JList l =>
      "[" +:+
      (fix elementos (l : list json) : string :=
         match l with
         | [] => ""
         | x :: l' =>
             match l' with
             | [] => repr x
             | _ :: _ => repr x +:+ ", " +:+ elementos l'
             end
         end) l +:+ "]"
  | JObj d =>
      "{" +:+
      (fix pares (d : list (string * json)) : string :=
         match d with
         | [] => ""
         | (k, x) :: d' =>
             match d' with
             | [] => repr_str k +:+ ": " +:+ repr x
             | _ :: _ => repr_str k +:+ ": " +:+ repr x +:+ ", " +:+ pares d'
             end
         end) d +:+ "}"
  end.

(** [str(v)], which is what an f-string puts in place of [{v}]. *)
Definition str (v : json) : string :=
  match v with
  | JStr s => s
  | _ => repr v
  end.

End Py.

(** ** The program state *)

(** A reading of the clock. *)
Record datetime : Type := Datetime {
  anno : N; mes : N; dia : N; hora : N; minuto : N; segundo : N
}.

Definition dos (n : N) : string := PyStr.rellenar 2 (pretty n).

(** [t.strftime("%Y%m%d")]. *)
Definition strftime_Ymd (t : datetime) : string :=
  PyStr.rellenar 4 (pretty (anno t)) +:+ dos (mes t) +:+ dos (dia t).

(** [t.strftime("%Y-%m-%d %H:%M:%S")]. *)
Definition strftime_Ymd_HMS (t : datetime) : string :=
  PyStr.rellenar 4 (pretty (anno t)) +:+ "-" +:+ dos (mes t) +:+ "-" +:+ dos (dia t)
  +:+ " " +:+ dos (hora t) +:+ ":" +:+ dos (minuto t) +:+ ":" +:+ dos (segundo t).

(** What makes [json.load] give up on a file with an exception other than
    [JSONDecodeError]. *)
Inductive fallo_de_lectura : Type :=
| NoEsTexto      (* bytes that [f.read()] cannot decode: [UnicodeDecodeError] *)
| EnteroLargo    (* a numeral beyond the digit limit of [int]: [ValueError] *)
| MuyAnidado.    (* brackets nested beyond the recursion limit: [RecursionError] *)

Definition excepcion_de (i : fallo_de_lectura) : excepcion :=
  match i with
  | NoEsTexto => UnicodeDecodeError
  | EnteroLargo => ValueError
  | MuyAnidado => RecursionError
  end.

(** A file, as [json.load] sees it: the document it returns, the text on
    which it raises [JSONDecodeError], or the reason why it raises
    something else.  The decimal numeral that [f.write(str(n))] leaves is
    the JSON document of the number [n]. *)
Inductive contenido : Type :=
| Json (v : json)
| NoJson (texto : string)
| Ilegible (i : fallo_de_lectura).

(** A line written by [print]; the text of an exception is left symbolic. *)
Inductive linea : Type :=
| Linea (s : string)
| LineaError (prefijo : string) (e : excepcion).

(** A record of the log [gestion_clientes.log]. *)
Inductive apunte : Type :=
| Info (s : string)
| Error (prefijo : string) (e : excepcion).

Record estado : Type := Estado {
  archivos : gmap string contenido;   (* the directory CLIENTES_DIR *)
  clientes : gmap string json;        (* the dictionary [clientes] *)
  CONTADOR_CLIENTE : Z;
  ahora : datetime;                   (* what [datetime.now()] returns *)
  entrada : list string;              (* lines waiting on standard input *)
  salida : list linea;                (* lines printed so far *)
  bitacora : list apunte              (* log records so far *)
}.

Definition con_archivos (f : gmap string contenido) (st : estado) : estado :=
  Estado f (clientes st) (CONTADOR_CLIENTE st) (ahora st) (entrada st) (salida st) (bitacora st).
Definition con_clientes (c : gmap string json) (st : estado) : estado :=
  Estado (archivos st) c (CONTADOR_CLIENTE st) (ahora st) (entrada st) (salida st) (bitacora st).
Definition con_contador (n : Z) (st : estado) : estado :=
  Estado (archivos st) (clientes st) n (ahora st) (entrada st) (salida st) (bitacora st).
Definition con_entrada (e : list string) (st : estado) : estado :=
  Estado (archivos st) (clientes st) (CONTADOR_CLIENTE st) (ahora st) e (salida st) (bitacora st).
Definition con_salida (s : list linea) (st : estado) : estado :=
  Estado (archivos st) (clientes st) (CONTADOR_CLIENTE st) (ahora st) (entrada st) s (bitacora st).
Definition con_bitacora (b : list apunte) (st : estado) : estado :=
  Estado (archivos st) (clientes st) (CONTADOR_CLIENTE st) (ahora st) (entrada st) (salida st) b.

(** ** The monad of the program *)

Definition M (A : Type) : Type := estado → resultado A * estado.

Global Instance M_ret : MRet M := λ A a st, (Ok a, st).
Global Instance M_bind : MBind M := λ A B k m st,
  match m st with
  | (Ok a, st') => k a st'
  | (Raise e, st') => (Raise e, st')
  end.

Definition raise {A : Type} (e : excepcion) : M A := λ st, (Raise e, st).

Definition lift {A : Type} (r : resultado A) : M A := λ st, (r, st).

(** [try: m except ...: h e]; [h e = None] when no clause catches [e]. *)
Definition intentar {A : Type} (m : M A) (h : excepcion → option (M A)) : M A :=
  λ st,
    match m st with
    | (Ok a, st') => (Ok a, st')
    | (Raise e, st') =>
        match h e with
        | Some k => k st'
        | None => (Raise e, st')
        end
    end.

Definition leer_estado : M estado := λ st, (Ok st, st).

(** [input(prompt).strip()] reads one line; the prompt is not recorded. *)
Definition input (prompt : string) : M string := λ st,
  match entrada st with
  | [] => (Raise EOFError, st)
  | l :: resto => (Ok l, con_entrada resto st)
  end.

Definition print (l : linea) : M unit := λ st,
  (Ok (), con_salida (salida st ++ [l]) st).

Definition info (s : string) : M unit := λ st,
  (Ok (), con_bitacora (bitacora st ++ [Info s]) st).

Definition error (prefijo : string) (e : excepcion) : M unit := λ st,
  (Ok (), con_bitacora (bitacora st ++ [Error prefijo e]) st).

Definition now : M datetime := λ st, (Ok (ahora st), st).

(** ** The directory *)

Definition NAME_MAX : nat := 255.

Definition NUL : string := String "000" "".

Definition nombre_valido (nombre : string) : bool :=
  negb (PyStr.contiene "/" nombre) && negb (PyStr.contiene NUL nombre)
  && bool_decide (String.length nombre ≤ NAME_MAX)%nat.

(** [path.exists(path.join(CLIENTES_DIR, nombre))]. *)
Definition existe (fs : gmap string contenido) (nombre : string) : bool :=
  nombre_valido nombre && bool_decide (is_Some (fs !! nombre)).

Definition path_exists (nombre : string) : M bool := λ st,
  (Ok (existe (archivos st) nombre), st).

(** The exception of [open] and [remove] on a name that cannot be a file of
    the directory. *)
Definition error_de_nombre (nombre : string) : excepcion :=
  if PyStr.contiene NUL nombre then ValueError else OSError.

(** [with open(path, "w") as f:] followed by writing [c]. *)
Definition escribir (nombre : string) (c : contenido) : M unit := λ st,
  if nombre_valido nombre
  then (Ok (), con_archivos (<[nombre := c]> (archivos st)) st)
  else (Raise (error_de_nombre nombre), st).

(** [with open(path, "r") as f:], giving the content. *)
Definition leer (nombre : string) : M contenido := λ st,
  if nombre_valido nombre
  then match archivos st !! nombre with
       | Some c => (Ok c, st)
       | None => (Raise OSError, st)
       end
  else (Raise (error_de_nombre nombre), st).

(** [remove(path)]. *)
Definition remove (nombre : string) : M unit := λ st,
  if nombre_valido nombre
  then match archivos st !! nombre with
       | Some _ => (Ok (), con_archivos (delete nombre (archivos st)) st)
       | None => (Raise OSError, st)
       end
  else (Raise (error_de_nombre nombre), st).

(** [listdir(CLIENTES_DIR)]. *)
Definition listdir : M (list string) := λ st,
  (Ok ((map_to_list (archivos st)).*1), st).

(** [json.dump(v, f, indent=4)] into a file just opened for writing: the
    file then holds the document that [json.load] reads back as [v]. *)
Definition dump (v : json) : contenido := Json v.

(** [f.write(str(n))] into a file just opened for writing. *)
Definition write_str_int (n : Z) : contenido := Json (JNum n).

(** [json.load(f)]. *)
Definition load (c : contenido) : M json :=
  match c with
  | Json v => mret v
  | NoJson _ => raise JSONDecodeError
  | Ilegible i => raise (excepcion_de i)
  end.

(** [int(f.read().strip())]: the text of a JSON document is a numeral only
    when the document is a number.  Bytes that are not text stop [f.read()];
    a text with a numeral or a nesting beyond the limits is no numeral that
    [int] takes. *)
Definition leer_int (c : contenido) : M Z :=
  match c with
  | Json (JNum n) => mret n
  | Json _ => raise ValueError
  | NoJson s =>
      match PyStr.int (PyStr.strip s) with
      | Some n => mret n
      | None => raise ValueError
      end
  | Ilegible NoEsTexto => raise UnicodeDecodeError
  | Ilegible _ => raise ValueError
  end.

Definition modificar_estado (f : estado → estado) : M unit := λ st, (Ok (), f st).

(** ** The program *)

Definition CLIENTES_DIR : string := "sky_clientes".
Definition CONTADOR_FILE : string := "contador.txt".

(** The file name [f"cliente_{cliente_id}.json"] inside [CLIENTES_DIR]. *)
Definition archivo_de (cliente_id : string) : string :=
  "cliente_" +:+ cliente_id +:+ ".json".

(** [path.join(CLIENTES_DIR, nombre)]. *)
Definition ruta (nombre : string) : string := CLIENTES_DIR +:+ "/" +:+ nombre.

Definition es_letra (c : ascii) : bool := PyStr.es_minuscula c || PyStr.es_mayuscula c.

Definition es_uno_de (s : string) (c : ascii) : bool := PyStr.contiene (String c "") s.

(** The pattern [\d{10}] between [^] and [$]. *)
Definition patron_telefono : Re.regex := Re.Veces 10 (Re.Clase PyStr.es_digito).

Definition validate_phone (phone : string) : bool :=
  Re.match_anclado patron_telefono phone.

(** The pattern [[a-zA-Z0-9_.+-]+@[a-zA-Z0-9-]+\.[a-zA-Z0-9-.]+]. *)
Definition patron_email : Re.regex :=
  Re.Cat (Re.Mas (Re.Clase (λ c, es_letra c || PyStr.es_digito c || es_uno_de "_.+-" c)))
 (Re.Cat (Re.Clase (λ c, bool_decide (c = "@"%char)))
 (Re.Cat (Re.Mas (Re.Clase (λ c, es_letra c || PyStr.es_digito c || es_uno_de "-" c)))
 (Re.Cat (Re.Clase (λ c, bool_decide (c = "."%char)))
         (Re.Mas (Re.Clase (λ c, es_letra c || PyStr.es_digito c || es_uno_de "-." c)))))).

Definition validate_email (email : string) : bool :=
  Re.match_anclado patron_email email.

(** The loop of [generate_unique_id]: while the file of [unique_id] exists,
    try the next suffix.  [fuel] bounds the number of tests; the caller gives
    one more than the number of files, which is never used up
    ([generate_unique_id_run]). *)
Fixpoint mientras_existe (fuel : nat) (base_id : string) (counter : Z)
    (unique_id : string) : M string :=
  match fuel with
  | O => raise SinCombustible
  | S fuel' =>
      ocupado ← path_exists (archivo_de unique_id);
      if ocupado : bool
      then mientras_existe fuel' base_id (counter + 1)
             (base_id +:+ "_" +:+ PyStr.str_int counter)
      else mret unique_id
  end.

(** The initials of [generate_unique_id], before upper-casing. *)
Definition iniciales_de (n0 : ascii) (apellido : string) : string :=
  String n0 (match PyStr.primero apellido with
             | Some a0 => String a0 ""
             | None => ""
             end).

Definition generate_unique_id (nombre apellido : string) : M string :=
  match PyStr.primero nombre with
  | None => raise IndexError
  | Some n0 =>
      let iniciales := PyStr.upper (iniciales_de n0 apellido) in
      t ← now;
      let fecha := strftime_Ymd t in
      let base_id := iniciales +:+ "_" +:+ fecha in
      st ← leer_estado;
      mientras_existe (S (size (archivos st))) base_id 1 base_id
  end.

Definition generate_cliente_number : M string :=
  st ← leer_estado;
  modificar_estado (con_contador (CONTADOR_CLIENTE st + 1));;
  st ← leer_estado;
  escribir CONTADOR_FILE (write_str_int (CONTADOR_CLIENTE st));;
  st ← leer_estado;
  mret ("C" +:+ PyStr.format_03d (CONTADOR_CLIENTE st)).

Definition guardar_cliente (cliente_id : string) (cliente_data : json) : M unit :=
  intentar
    (let archivo := archivo_de cliente_id in
     escribir archivo (dump cliente_data);;
     info ("Cliente " +:+ cliente_id +:+ " guardado exitosamente en " +:+ ruta archivo);;
     print (Linea ("Cliente " +:+ cliente_id +:+ " guardado exitosamente.")))
    (λ e, match e with
          | OSError =>
              Some (error ("Error al guardar cliente " +:+ cliente_id +:+ ": ") e;;
                    print (LineaError "Error al guadar al cliente: " e))
          | _ => None
          end).

(** [None], the result for a missing file and for text that is not JSON,
    is [JNull]; what [json.load] raises otherwise passes the [except]
    clause. *)
Definition cargar_cliente (cliente_id : string) : M json :=
  intentar
    (let archivo := archivo_de cliente_id in
     hay ← path_exists archivo;
     if hay : bool then c ← leer archivo; load c else mret JNull)
    (λ e, match e with
          | OSError | JSONDecodeError =>
              Some (error ("Error al cargar cliente " +:+ cliente_id +:+ ": ") e;;
                    mret JNull)
          | _ => None
          end).

(** [archivo.startswith("cliente_") and archivo.endswith(".json")]. *)
Definition es_archivo_cliente (archivo : string) : bool :=
  PyStr.startswith "cliente_" archivo && PyStr.endswith ".json" archivo.

(** [archivo.replace("cliente_", "").replace(".json", "")]. *)
Definition id_de_archivo (archivo : string) : string :=
  PyStr.replace ".json" "" (PyStr.replace "cliente_" "" archivo).

(** The three tests of [buscar_clientes], each an [and] that evaluates its
    right operand only when the criterion is the one named. *)
Definition prueba_numero (criterio valor : string) (cliente : json) : M bool :=
  if decide (criterio = "numero") then
    n ← lift (Py.get_o_vacio "numero_cliente" cliente);
    l ← lift (Py.lower n);
    mret (bool_decide (l = PyStr.lower valor))
  else mret false.

Definition prueba_id (criterio valor cliente_id : string) : M bool :=
  mret (bool_decide (criterio = "id") && bool_decide (cliente_id = valor)).

Definition prueba_nombre (criterio valor : string) (cliente : json) : M bool :=
  if decide (criterio = "nombre") then
    n ← lift (Py.item "nombre" cliente);
    a ← lift (Py.item "apellido" cliente);
    mret (PyStr.contiene (PyStr.lower valor)
            (PyStr.lower (Py.str n +:+ " " +:+ Py.str a)))
  else mret false.

(** The [for] loop of [buscar_clientes] over the rest of the listing. *)
Fixpoint buscar_en (criterio valor : string) (dir : list string)
    (resultados : list (string * json)) : M (list (string * json)) :=
  match dir with
  | [] => mret resultados
  | archivo :: resto =>
      if es_archivo_cliente archivo then
        let cliente_id := id_de_archivo archivo in
        cliente ← cargar_cliente cliente_id;
        if Py.truth cliente then
          b1 ← prueba_numero criterio valor cliente;
          if b1 : bool then buscar_en criterio valor resto (resultados ++ [(cliente_id, cliente)])
          else
            b2 ← prueba_id criterio valor cliente_id;
            if b2 : bool then buscar_en criterio valor resto (resultados ++ [(cliente_id, cliente)])
            else
              b3 ← prueba_nombre criterio valor cliente;
              if b3 : bool then buscar_en criterio valor resto (resultados ++ [(cliente_id, cliente)])
              else buscar_en criterio valor resto resultados
        else buscar_en criterio valor resto resultados
      else buscar_en criterio valor resto resultados
  end.

Definition buscar_clientes (criterio valor : string) : M (list (string * json)) :=
  dir ← listdir;
  buscar_en criterio valor dir [].

(** [cliente[k]] inside an f-string. *)
Definition campo (k : string) (cliente : json) : M string :=
  v ← lift (Py.item k cliente);
  mret (Py.str v).

(** [except Exception] catches every Python exception. *)
Definition es_Exception (e : excepcion) : bool :=
  match e with
  | SinCombustible => false
  | _ => true
  end.

Definition crear_cliente : M unit :=
  intentar
    (l ← input "Ingresa el nombre: ";
     let nombre := PyStr.strip l in
     if decide (nombre = "") then print (Linea "El nombre no puede estar vacío.")
     else
       l ← input "Ingrese el apellido: ";
       let apellido := PyStr.strip l in
       if decide (apellido = "") then print (Linea "El apellido no puede estar vacío.")
       else
         cliente_id ← generate_unique_id nombre apellido;
         l ← input "Ingrese el tipo (Persona/Negocio): ";
         let tipo := PyStr.capitalize (PyStr.strip l) in
         if negb (bool_decide (tipo ∈ ["Persona"; "Negocio"]))
         then print (Linea "Tipo inválido. Debe ser 'Persona' o 'Negocio'.")
         else
           l ← input "Ingrese el contacto (teléfono o email): ";
           let contacto := PyStr.strip l in
           valido ←
             (if validate_phone contacto
              then info ("Contacto validado como teléfono: " +:+ contacto);; mret true
              else if validate_email contacto
              then info ("Contacto validado como email: " +:+ contacto);; mret true
              else mret false);
           if negb valido
           then print (Linea "Contacto inválido. El teléfono de tener 10 dígitos o el email debe ser válido.")
           else
             numero_cliente ← generate_cliente_number;
             t ← now;
             let registro :=
               JObj [("nombre", JStr nombre);
                     ("apellido", JStr apellido);
                     ("tipo", JStr tipo);
                     ("contacto", JStr contacto);
                     ("servicios", JList []);
                     ("fecha_registro", JStr (strftime_Ymd_HMS t));
                     ("numero_cliente", JStr numero_cliente)] in
             st ← leer_estado;
             modificar_estado (con_clientes (<[cliente_id := registro]> (clientes st)));;
             guardar_cliente cliente_id registro;;
             print (Linea ("Cliente creado con ID: " +:+ cliente_id
                           +:+ " y Número de Cliente: " +:+ numero_cliente)))
    (λ e, if es_Exception e
          then Some (error "Error al crear cliente: " e;;
                     print (LineaError "Error al crear el cliente: " e))
          else None).

(** The search that opens read, update and delete: [None] when the selector
    is none of 1, 2, 3. *)
Definition buscar_por (criterio : string) (p1 p2 p3 : string)
  : M (option (list (string * json))) :=
  if decide (criterio = "1") then
    l ← input p1;
    r ← buscar_clientes "numero" (PyStr.strip l); mret (Some r)
  else if decide (criterio = "2") then
    l ← input p2;
    r ← buscar_clientes "id" (PyStr.strip l); mret (Some r)
  else if decide (criterio = "3") then
    l ← input p3;
    r ← buscar_clientes "nombre" (PyStr.strip l); mret (Some r)
  else mret None.

(** The [for] loops that print one line per found client. *)
Fixpoint por_cada {A : Type} (f : A → M unit) (l : list A) : M unit :=
  match l with
  | [] => mret ()
  | x :: l' => f x;; por_cada f l'
  end.

Definition linea_lectura (p : string * json) : M unit :=
  let '(cliente_id, cliente) := p in
  numero ← campo "numero_cliente" cliente;
  nombre ← campo "nombre" cliente;
  apellido ← campo "apellido" cliente;
  tipo ← campo "tipo" cliente;
  contacto ← campo "contacto" cliente;
  servicios ← campo "servicios" cliente;
  fecha ← campo "fecha_registro" cliente;
  print (Linea ("ID: " +:+ cliente_id +:+ ", Número: " +:+ numero
                +:+ ", Nombre: " +:+ nombre +:+ " " +:+ apellido
                +:+ ", Tipo: " +:+ tipo +:+ ", Contacto: " +:+ contacto
                +:+ ", Servicios: " +:+ servicios
                +:+ ", Fecha Registro: " +:+ fecha)).

Definition leer_cliente : M unit :=
  l ← input "Buscar por (1) Número de Cliente, (2) ID o (3) Nombre (1/2/3): ";
  encontrados ← buscar_por (PyStr.strip l)
    "Ingrese el Número de Cliente (ej. C001): "
    "Ingrese el ID del cliente a consultar: "
    "Ingrese el nombre o parte del nombre a consultar:";
  match encontrados with
  | None => print (Linea "Opción inválida. Use 1 para ID o 2 para nombre.")
  | Some clientes_encontrados =>
      if bool_decide (clientes_encontrados ≠ [])
      then por_cada linea_lectura clientes_encontrados
      else print (Linea "No se encontraron clientes con ese criterio.")
  end.

Definition linea_candidato (p : string * json) : M unit :=
  let '(cliente_id, cliente) := p in
  numero ← campo "numero_cliente" cliente;
  print (Linea ("ID: " +:+ cliente_id +:+ ", Número: " +:+ numero)).

Definition modificar_cliente : M unit :=
  l ← input "Modificar por (1) Número de Cliente, (2) ID O (3) Nombre (1/2/3): ";
  encontrados ← buscar_por (PyStr.strip l)
    "Ingrese el Número de Cliente (ej. C001): "
    "Ingrese el ID del cliente a modificar: "
    "Ingrese el nombre o parte del nombre a modificar: ";
  match encontrados with
  | None => print (Linea "Opción no válida. Use 1 para Número, 2 para ID o 3 para nombre.")
  | Some [] => print (Linea "No se encontraron clientes con ese criterio.")
  | Some [(cliente_id, cliente)] =>
      l ← input "Ingrese el nuevo servicio a agregar: ";
      let servicio := PyStr.strip l in
      if decide (servicio = "") then print (Linea "El servicio no puede estar vacío.")
      else
        cliente ← lift (Py.append_en "servicios" (JStr servicio) cliente);
        guardar_cliente cliente_id cliente;;
        nombre ← campo "nombre" cliente;
        numero ← campo "numero_cliente" cliente;
        print (Linea ("Servicio " +:+ servicio +:+ " agregado al cliente " +:+ cliente_id
                      +:+ " (Nombre y Número: " +:+ nombre +:+ " | " +:+ numero +:+ ".)"))
  | Some clientes_encontrados =>
      print (Linea "Multiples clientes encontrados. Por favor, use el Número de Cliente o ID para mayor precisión:");;
      por_cada linea_candidato clientes_encontrados
  end.

Definition eliminar_cliente : M unit :=
  l ← input "Eliminar por (1) Número de Cliente, (2) ID o (3) Nombre (1/2/3): ";
  encontrados ← buscar_por (PyStr.strip l)
    "Ingrese el Número de Cliente (ej. C001): "
    "Ingrese el ID del cliente a eliminar: "
    "Ingrese el nombre o parte del nombre a eliminar: ";
  match encontrados with
  | None => print (Linea "Opción no válida. Use 1 para Número, 2 para ID o 3 para nombre.")
  | Some [] => print (Linea "No se encontraron clientes con ese criterio.")
  | Some [(cliente_id, cliente)] =>
      let archivo := archivo_de cliente_id in
      hay ← path_exists archivo;
      if hay : bool then
        intentar
          (remove archivo;;
           st ← leer_estado;
           (if bool_decide (is_Some (clientes st !! cliente_id))
            then modificar_estado (con_clientes (delete cliente_id (clientes st)))
            else mret ());;
           st ← leer_estado;
           info ("Cliente " +:+ cliente_id +:+ " eliminado exitosamente. Contador actualizado a "
                 +:+ PyStr.str_int (CONTADOR_CLIENTE st));;
           numero ← campo "numero_cliente" cliente;
           print (Linea ("Cliente " +:+ cliente_id +:+ " (Número: " +:+ numero +:+ ") eliminado.")))
          (λ e, match e with
                | OSError =>
                    Some (error ("Error al eliminar cliente " +:+ cliente_id +:+ ": ") e;;
                          print (LineaError "Error al eliminar el cliente: " e))
                | _ => None
                end)
      else print (Linea "Cliente no encontrado.")
  | Some clientes_encontrados =>
      print (Linea "Múltiples clientes encontrados. Por favor, use el Número de Cliente o ID para mayor precisión:");;
      por_cada linea_candidato clientes_encontrados
  end.

Definition linea_listado (archivo : string) : M unit :=
  if es_archivo_cliente archivo then
    let cliente_id := id_de_archivo archivo in
    cliente ← cargar_cliente cliente_id;
    if Py.truth cliente then
      numero ← campo "numero_cliente" cliente;
      nombre ← campo "nombre" cliente;
      apellido ← campo "apellido" cliente;
      tipo ← campo "tipo" cliente;
      contacto ← campo "contacto" cliente;
      servicios ← campo "servicios" cliente;
      print (Linea ("ID: " +:+ cliente_id +:+ ", Número: " +:+ numero
                    +:+ ", Nombre: " +:+ nombre +:+ " " +:+ apellido
                    +:+ ", Tipo: " +:+ tipo +:+ ", Contacto: " +:+ contacto
                    +:+ ", Servicios: " +:+ servicios))
    else mret ()
  else mret ().

Definition listar_clientes : M unit :=
  dir ← listdir;
  if bool_decide (dir = [])
  then print (Linea "No hay clientes registrados.")
  else
    dir ← listdir;
    por_cada linea_listado dir.

(** The scan of the start-up code for the highest customer number. *)
Fixpoint max_numero (dir : list string) (max_num : Z) : M Z :=
  match dir with
  | [] => mret max_num
  | f :: resto =>
      if es_archivo_cliente f then
        cliente ← cargar_cliente (id_de_archivo f);
        tiene ← (if Py.truth cliente
                 then lift (Py.contiene_clave "numero_cliente" cliente)
                 else mret false);
        if tiene : bool then
          v ← lift (Py.item "numero_cliente" cliente);
          s ← lift (Py.replace "C" "" v);
          match PyStr.int s with
          | Some num => max_numero resto (Z.max max_num num)
          | None => raise ValueError
          end
        else max_numero resto max_num
      else max_numero resto max_num
  end.

(** The module-level code that runs before the menu: the dictionary starts
    empty and the counter is read from its file or rebuilt from the
    records. *)
Definition inicio : M unit :=
  modificar_estado (con_clientes ∅);;
  hay ← path_exists CONTADOR_FILE;
  if hay : bool then
    c ← leer CONTADOR_FILE;
    n ← leer_int c;
    modificar_estado (con_contador n)
  else
    dir ← listdir;
    max_num ← max_numero dir 0;
    modificar_estado (con_contador max_num);;
    escribir CONTADOR_FILE (write_str_int max_num).

(** ** The menu *)

(** The loop of [menu].  Every round reads the option, so one round more
    than there are lines waiting is never used up. *)
Fixpoint menu_bucle (fuel : nat) : M unit :=
  match fuel with
  | O => raise SinCombustible
  | S fuel' =>
      print (Linea (String "010" "=== Gestión de Clientes Sky ==="));;
      print (Linea "1. Crear cliente");;
      print (Linea "2. Leer cliente (por Número, ID o Nombre)");;
      print (Linea "3. Modificar cliente (agregar servicio)");;
      print (Linea "4. Eliminar cliente");;
      print (Linea "5. Listar todos los clientes.");;
      print (Linea "6. Salir");;
      l ← input "Seleccione una opción (1-6): ";
      let opcion := PyStr.strip l in
      if decide (opcion = "1") then crear_cliente;; menu_bucle fuel'
      else if decide (opcion = "2") then leer_cliente;; menu_bucle fuel'
      else if decide (opcion = "3") then modificar_cliente;; menu_bucle fuel'
      else if decide (opcion = "4") then eliminar_cliente;; menu_bucle fuel'
      else if decide (opcion = "5") then listar_clientes;; menu_bucle fuel'
      else if decide (opcion = "6") then print (Linea "Saliendo del sistema...")
      else
        print (Linea "Opción no válida. Por favor, seleccione una opción entre 1 y 5.");;
        menu_bucle fuel'
  end.

Definition menu : M unit :=
  st ← leer_estado;
  menu_bucle (S (length (entrada st))).

(** The program run as a script: the module-level code, then the lines
    under [if __name__ == "__main__"]. *)
Definition principal : M unit :=
  inicio;;
  info "Iniciando la aplicación Gestión de Clientes Sky";;
  menu.

(** ** Notions of the specification *)

(** The field [k] of the dictionary [v] when it is a string. *)
Definition texto (k : string) (v : json) : string :=
  match v with
  | JObj d => match Py.dict_get k d with Some (JStr s) => s | _ => "" end
  | _ => ""
  end.

(** The list under the key [servicios]. *)
Definition servicios_de (v : json) : list json :=
  match v with
  | JObj d => match Py.dict_get "servicios" d with Some (JList l) => l | _ => [] end
  | _ => []
  end.

Definition tiene_texto (k : string) (d : list (string * json)) : bool :=
  match Py.dict_get k d with Some (JStr _) => true | _ => false end.

Definition es_JStr (v : json) : bool :=
  match v with JStr _ => true | _ => false end.

(** A client record: a dictionary with the seven fields, six of them
    strings and [servicios] a list of strings. *)
Definition es_registro (v : json) : bool :=
  match v with
  | JObj d =>
      tiene_texto "nombre" d && tiene_texto "apellido" d && tiene_texto "tipo" d
      && tiene_texto "contacto" d && tiene_texto "fecha_registro" d
      && tiene_texto "numero_cliente" d
      && match Py.dict_get "servicios" d with
         | Some (JList l) => forallb es_JStr l
         | _ => false
         end
  | _ => false
  end.

(** A file that [json.load] gives up on. *)
Definition es_ilegible (c : contenido) : bool :=
  match c with
  | Ilegible _ => true
  | _ => false
  end.

(** [cargar_cliente] returns on the identifier [cliente_id] in the directory
    [fs]: the file of the identifier is not one that [json.load] gives up
    on, unless its name is none that [path.exists] finds. *)
Definition cargable (fs : gmap string contenido) (cliente_id : string) : bool :=
  match fs !! archivo_de cliente_id with
  | Some (Ilegible _) => negb (nombre_valido (archivo_de cliente_id))
  | _ => true
  end.

(** Every load that a loop over the listing [dir] makes returns. *)
Definition se_cargan (fs : gmap string contenido) (dir : list string) : Prop :=
  Forall (λ f, es_archivo_cliente f = true → cargable fs (id_de_archivo f) = true) dir.

(** No client file of the directory is one that [json.load] gives up on. *)
Definition legible (fs : gmap string contenido) : Prop :=
  map_Forall (λ f c, es_archivo_cliente f = true → es_ilegible c = false) fs.

(** Every string of a document is ASCII text. *)
Fixpoint json_ascii (v : json) : bool :=
  match v with
  | JStr s => PyStr.es_ascii s
  | JList l => forallb json_ascii l
  | JObj d =>
      forallb (λ kv, match kv with (k, x) => PyStr.es_ascii k && json_ascii x end) d
  | _ => true
  end.

(** What loading the identifier [cliente_id] gives in the directory [fs]
    when the load returns: the document of its file, and [JNull] when the
    file is missing or is not a JSON document. *)
Definition cargado (fs : gmap string contenido) (cliente_id : string) : json :=
  if existe fs (archivo_de cliente_id) then
    match fs !! archivo_de cliente_id with
    | Some (Json v) => v
    | _ => JNull
    end
  else JNull.

(** What a directory entry contributes to a search: the document loaded
    under the identifier read off its name, paired with that identifier.  A
    name that is not that of a client file contributes nothing, and neither
    does a load that gives [None] or an empty document. *)
Definition registro_de (fs : gmap string contenido) (archivo : string)
  : option (string * json) :=
  if es_archivo_cliente archivo then
    let v := cargado fs (id_de_archivo archivo) in
    if Py.truth v then Some (id_de_archivo archivo, v) else None
  else None.

(** The successfully loaded records of the directory, in listing order. *)
Definition registros_cargados (fs : gmap string contenido) : list (string * json) :=
  omap (registro_de fs) (map_to_list fs).*1.

(** The predicate that a search criterion selects. *)
Definition cumple (criterio valor : string) (p : string * json) : bool :=
  if decide (criterio = "numero") then
    bool_decide (PyStr.lower (texto "numero_cliente" p.2) = PyStr.lower valor)
  else if decide (criterio = "id") then
    bool_decide (p.1 = valor)
  else if decide (criterio = "nombre") then
    PyStr.contiene (PyStr.lower valor)
      (PyStr.lower (texto "nombre" p.2 +:+ " " +:+ texto "apellido" p.2))
  else false.

(** [find] as the specification words it. *)
Definition find (criterio valor : string) (fs : gmap string contenido)
  : list (string * json) :=
  List.filter (cumple criterio valor) (registros_cargados fs).

(** The criterion behind the menu selector of read, update and delete. *)
Definition criterio_de (seleccion : string) : option string :=
  if decide (seleccion = "1") then Some "numero"
  else if decide (seleccion = "2") then Some "id"
  else if decide (seleccion = "3") then Some "nombre"
  else None.

(** Two states that differ at most in their log. *)
Definition salvo_bitacora (st st' : estado) : Prop :=
  ∃ b, st' = con_bitacora (bitacora st ++ b) st.

(** The [k]-th identifier that [generate_unique_id] tries. *)
Definition candidato (base_id : string) (k : nat) : string :=
  match k with
  | O => base_id
  | S _ => base_id +:+ "_" +:+ PyStr.str_int (Z.of_nat k)
  end.

(** A create fails validation on these four answers. *)
Definition validacion_falla (nombre apellido tipo contacto : string) : bool :=
  bool_decide (PyStr.strip nombre = "")
  || bool_decide (PyStr.strip apellido = "")
  || negb (bool_decide (PyStr.capitalize (PyStr.strip tipo) ∈ ["Persona"; "Negocio"]))
  || negb (validate_phone (PyStr.strip contacto) || validate_email (PyStr.strip contacto)).

(** ** States, examples and notions used by the properties *)

(** Exactly ten decimal digits. *)
Definition diez_digitos (s : string) : Prop :=
  String.length s = 10%nat ∧ PyStr.todos PyStr.es_digito s = true.

(** The integer of a customer number, read the way the start-up code reads
    it: [int(numero.replace("C", ""))]. *)
Definition numero_de (numero : string) : option Z :=
  PyStr.int (PyStr.replace "C" "" numero).

(** The state after one call of [generate_cliente_number]. *)
Definition tras_numero (st : estado) : estado :=
  let n := CONTADOR_CLIENTE st + 1 in
  con_archivos (<[CONTADOR_FILE := Json (JNum n)]> (archivos st)) (con_contador n st).

(** The clock of the examples: 2 June 2025, 10:30:05. *)
Definition reloj_ejemplo : datetime := Datetime 2025 6 2 10 30 5.

(** A new, empty directory before the start-up code has run. *)
Definition estado_nuevo : estado := Estado ∅ ∅ 0 reloj_ejemplo [] [] [].

(** The state in which the menu starts on a new directory. *)
Definition estado_inicial : estado :=
  Estado {[CONTADOR_FILE := Json (JNum 0)]} ∅ 0 reloj_ejemplo [] [] [].


(** The upper-cased first character of a name, nothing for the empty name. *)
Definition inicial (s : string) : string :=
  match s with
  | EmptyString => ""
  | String c _ => String (PyStr.upper_char c) ""
  end.

(** The state after a successful [guardar_cliente]. *)
Definition tras_guardar (cliente_id : string) (cliente_data : json) (st : estado) : estado :=
  con_salida (salida st ++ [Linea ("Cliente " +:+ cliente_id +:+ " guardado exitosamente.")])
    (con_bitacora
       (bitacora st ++ [Info ("Cliente " +:+ cliente_id +:+ " guardado exitosamente en "
                              +:+ ruta (archivo_de cliente_id))])
       (con_archivos (<[archivo_de cliente_id := Json cliente_data]> (archivos st)) st)).

(** The state after [cargar_cliente]: a file that is not a JSON document
    leaves an error in the log. *)
Definition tras_cargar (cliente_id : string) (st : estado) : estado :=
  if existe (archivos st) (archivo_de cliente_id) then
    match archivos st !! archivo_de cliente_id with
    | Some (NoJson _) =>
        con_bitacora
          (bitacora st ++ [Error ("Error al cargar cliente " +:+ cliente_id +:+ ": ")
                                 JSONDecodeError]) st
    | _ => st
    end
  else st.

(** A record for the examples. *)
Definition registro_ejemplo : json :=
  JObj [("nombre", JStr "Ana"); ("apellido", JStr "Bravo"); ("tipo", JStr "Persona");
        ("contacto", JStr "5512345678");
        ("servicios", JList [JStr "cable"; JStr "internet"]);
        ("fecha_registro", JStr "2025-06-02 10:30:05");
        ("numero_cliente", JStr "C001")].

(** The six fields of a record that hold a string. *)
Definition campos_de_texto : list string :=
  ["nombre"; "apellido"; "tipo"; "contacto"; "fecha_registro"; "numero_cliente"].


(** A directory whose only client file holds bytes that are not text. *)
Definition estado_ilegible : estado :=
  Estado {[archivo_de "x" := Ilegible NoEsTexto]} ∅ 0 reloj_ejemplo [] [] [].

(** A directory whose only client file holds the empty dictionary. *)
Definition estado_documento_vacio : estado :=
  Estado {[archivo_de "X" := Json (JObj [])]} ∅ 0 reloj_ejemplo [] [] [].

(** A second record for the examples. *)
Definition registro_ejemplo_2 : json :=
  JObj [("nombre", JStr "Carlos"); ("apellido", JStr "Diaz"); ("tipo", JStr "Negocio");
        ("contacto", JStr "carlos@diaz.mx");
        ("servicios", JList []);
        ("fecha_registro", JStr "2025-06-02 10:30:05");
        ("numero_cliente", JStr "C002")].

(** A directory with two client records, a client file that is no JSON
    document, and the counter file. *)
Definition estado_ejemplo : estado :=
  Estado (list_to_map [(CONTADOR_FILE, Json (JNum 2));
                       (archivo_de "AB_20250602", Json registro_ejemplo);
                       (archivo_de "CD_20250602", Json registro_ejemplo_2);
                       (archivo_de "roto", NoJson "{")])
         ∅ 2 reloj_ejemplo [] [] [].

(** The messages that [crear_cliente] prints when a validation fails. *)
Definition mensajes_de_validacion : list string :=
  ["El nombre no puede estar vacío.";
   "El apellido no puede estar vacío.";
   "Tipo inválido. Debe ser 'Persona' o 'Negocio'.";
   "Contacto inválido. El teléfono de tener 10 dígitos o el email debe ser válido."].

(** The line that names a candidate when a search is ambiguous. *)
Definition texto_candidato (p : string * json) : linea :=
  Linea ("ID: " +:+ p.1 +:+ ", Número: " +:+ texto "numero_cliente" p.2).

(** The record [cliente] with one more service at the end of its list. *)
Definition con_servicio (servicio : string) (cliente : json) : json :=
  match cliente with
  | JObj d =>
      JObj (Py.dict_set "servicios"
              (JList (servicios_de cliente ++ [JStr servicio])) d)
  | _ => cliente
  end.

(** The lines that report an ambiguous search. *)
Definition lineas_ambiguedad (aviso : string) (encontrados : list (string * json))
  : list linea :=
  Linea aviso :: (texto_candidato <$> encontrados).

(** The summary line of [listar_clientes] for a record. *)
Definition texto_listado (p : string * json) : linea :=
  Linea ("ID: " +:+ p.1 +:+ ", Número: " +:+ texto "numero_cliente" p.2
         +:+ ", Nombre: " +:+ texto "nombre" p.2 +:+ " " +:+ texto "apellido" p.2
         +:+ ", Tipo: " +:+ texto "tipo" p.2 +:+ ", Contacto: " +:+ texto "contacto" p.2
         +:+ ", Servicios: " +:+ Py.str (JList (servicios_de p.2))).

(** A computation ignores the dictionary when replacing the dictionary
    before it runs changes neither its result nor the rest of the final
    state, and the replacement is still there afterwards. *)
Definition ignora_cache {A : Type} (m : M A) : Prop :=
  ∀ st c, m (con_clientes c st) = ((m st).1, con_clientes c (m st).2).

(** Two runs with the same result and the same effects outside the
    dictionary. *)
Definition mismo_efecto {A : Type} (r1 r2 : resultado A * estado) : Prop :=
  r1.1 = r2.1
  ∧ archivos r1.2 = archivos r2.2
  ∧ salida r1.2 = salida r2.2
  ∧ bitacora r1.2 = bitacora r2.2
  ∧ CONTADOR_CLIENTE r1.2 = CONTADOR_CLIENTE r2.2
  ∧ entrada r1.2 = entrada r2.2
  ∧ ahora r1.2 = ahora r2.2.

(** ** Notions used by the further properties *)

(** The words of a pattern. *)
Inductive palabra : Re.regex → string → Prop :=
| palabra_Eps : palabra Re.Eps ""
| palabra_Clase p c : p c = true → palabra (Re.Clase p) (String c "")
| palabra_Cat r1 r2 s1 s2 :
    palabra r1 s1 → palabra r2 s2 → palabra (Re.Cat r1 r2) (s1 +:+ s2)
| palabra_Alt_l r1 r2 s : palabra r1 s → palabra (Re.Alt r1 r2) s
| palabra_Alt_r r1 r2 s : palabra r2 s → palabra (Re.Alt r1 r2) s
| palabra_Estrella_0 r : palabra (Re.Estrella r) ""
| palabra_Estrella_S r s1 s2 :
    palabra r s1 → palabra (Re.Estrella r) s2 → palabra (Re.Estrella r) (s1 +:+ s2).

(** The three character classes of the e-mail pattern. *)
Definition caracter_local (c : ascii) : bool :=
  es_letra c || PyStr.es_digito c || es_uno_de "_.+-" c.
Definition caracter_dominio (c : ascii) : bool :=
  es_letra c || PyStr.es_digito c || es_uno_de "-" c.
Definition caracter_final (c : ascii) : bool :=
  es_letra c || PyStr.es_digito c || es_uno_de "-." c.

(** [local@dominio.final], each part non-empty and made of its class. *)
Definition forma_email (s : string) : Prop :=
  ∃ l d t,
    s = l +:+ "@" +:+ d +:+ "." +:+ t
    ∧ l ≠ "" ∧ PyStr.todos caracter_local l = true
    ∧ d ≠ "" ∧ PyStr.todos caracter_dominio d = true
    ∧ t ≠ "" ∧ PyStr.todos caracter_final t = true.

(** The counter file holds the numeral of the counter in memory. *)
Definition contador_al_dia (st : estado) : Prop :=
  archivos st !! CONTADOR_FILE = Some (Json (JNum (CONTADOR_CLIENTE st))).

(** What a step of the program may do to the state, whatever it is: the
    counter does not go down and stays in the counter file if it was there,
    lines are only taken from the input and only added to the output and to
    the log, the clock is not touched, and neither is a file that is not the
    counter file or a client file. *)
Definition avanza (st st' : estado) : Prop :=
  CONTADOR_CLIENTE st ≤ CONTADOR_CLIENTE st'
  ∧ (contador_al_dia st → contador_al_dia st')
  ∧ entrada st' `suffix_of` entrada st
  ∧ salida st `prefix_of` salida st'
  ∧ bitacora st `prefix_of` bitacora st'
  ∧ ahora st' = ahora st
  ∧ ∀ f, f ≠ CONTADOR_FILE → es_archivo_cliente f = false →
         archivos st' !! f = archivos st !! f.

(** What a step that only reads may do: the directory, the dictionary and
    the counter stay as they are. *)
Definition solo_lee (st st' : estado) : Prop :=
  archivos st' = archivos st
  ∧ clientes st' = clientes st
  ∧ CONTADOR_CLIENTE st' = CONTADOR_CLIENTE st
  ∧ entrada st' `suffix_of` entrada st
  ∧ salida st `prefix_of` salida st'
  ∧ bitacora st `prefix_of` bitacora st'
  ∧ ahora st' = ahora st.

(** Every step of [m], from any state, is in [R], and [m] never runs out of
    fuel. *)
Definition respeta {A : Type} (R : relation estado) (m : M A) : Prop :=
  ∀ st, R st (m st).2 ∧ (m st).1 ≠ Raise SinCombustible.

(** The record that [crear_cliente] builds. *)
Definition registro_nuevo (nombre apellido tipo contacto fecha numero : string) : json :=
  JObj [("nombre", JStr nombre);
        ("apellido", JStr apellido);
        ("tipo", JStr tipo);
        ("contacto", JStr contacto);
        ("servicios", JList []);
        ("fecha_registro", JStr fecha);
        ("numero_cliente", JStr numero)].

(** The state after a create whose answers, already stripped and
    capitalised, pass the validation and get the identifier [cliente_id]:
    the counter is stepped and the dictionary filled in any case, and the
    record reaches the directory when its file can be created. *)
Definition tras_crear (nombre apellido tipo contacto : string) (resto : list string)
    (cliente_id : string) (st : estado) : estado :=
  let numero := "C" +:+ PyStr.format_03d (CONTADOR_CLIENTE st + 1) in
  let registro :=
    registro_nuevo nombre apellido tipo contacto (strftime_Ymd_HMS (ahora st)) numero in
  let validado :=
    Info (if validate_phone contacto
          then "Contacto validado como teléfono: " +:+ contacto
          else "Contacto validado como email: " +:+ contacto) in
  let creado :=
    Linea ("Cliente creado con ID: " +:+ cliente_id
           +:+ " y Número de Cliente: " +:+ numero) in
  let st1 :=
    con_clientes (<[cliente_id := registro]> (clientes st))
      (tras_numero (con_bitacora (bitacora st ++ [validado]) (con_entrada resto st))) in
  if nombre_valido (archivo_de cliente_id) then
    let st2 := tras_guardar cliente_id registro st1 in
    con_salida (salida st2 ++ [creado]) st2
  else if PyStr.contiene NUL (archivo_de cliente_id) then
    con_salida (salida st ++ [LineaError "Error al crear el cliente: " ValueError])
      (con_bitacora (bitacora st1 ++ [Error "Error al crear cliente: " ValueError]) st1)
  else
    con_salida ((salida st ++ [LineaError "Error al guadar al cliente: " OSError]) ++ [creado])
      (con_bitacora
         (bitacora st1 ++ [Error ("Error al guardar cliente " +:+ cliente_id +:+ ": ") OSError])
         st1).

(** No lower-case letter. *)
Definition no_minuscula (c : ascii) : bool := negb (PyStr.es_minuscula c).

(** A file of the directory is in order when it is no client file, or
    holds text that is not JSON, or holds a document that a search skips
    ([None], an empty dictionary and the like), or holds a client record.  A
    client file that [json.load] gives up on is not in order. *)
Definition documento_sano (f : string) (c : contenido) : bool :=
  negb (es_archivo_cliente f)
  || match c with
     | Json v => negb (Py.truth v) || es_registro v
     | NoJson _ => true
     | Ilegible _ => false
     end.

(** A directory is in order when each of its files is. *)
Definition sano (fs : gmap string contenido) : Prop :=
  map_Forall (λ f c, documento_sano f c = true) fs.

(** The lines waiting on the input are ASCII text. *)
Definition entrada_ascii (st : estado) : Prop :=
  Forall (λ l, PyStr.es_ascii l = true) (entrada st).

(** The records that the directory loads are ASCII text. *)
Definition texto_ascii (fs : gmap string contenido) : Prop :=
  Forall (λ p, json_ascii p.2 = true) (registros_cargados fs).

(** A found client that the operations can work on: a record under an
    identifier whose file name is valid. *)
Definition bueno (p : string * json) : Prop :=
  es_registro p.2 = true ∧ nombre_valido (archivo_de p.1) = true.

(** From a directory in order, [m] leaves a directory in order, returns
    only values in [Q] and raises only exceptions in [E]. *)
Definition seguro {A : Type} (E : excepcion → Prop) (m : M A) (Q : A → Prop) : Prop :=
  ∀ st, sano (archivos st) →
    sano (archivos (m st).2)
    ∧ match (m st).1 with Ok a => Q a | Raise e => E e end.

(** Only the end of the input stops an operation. *)
Definition solo_EOF (e : excepcion) : Prop := e = EOFError.

(** The five operations of the menu. *)
Definition operaciones : list (M unit) :=
  [crear_cliente; leer_cliente; modificar_cliente; eliminar_cliente; listar_clientes].

(** What a run of the menu loop that has fuel left ends with. *)
Definition fin_de_menu (r : resultado unit * estado) : Prop :=
  sano (archivos r.2) ∧ (r.1 = Ok () ∨ r.1 = Raise EOFError).

(** The line of [leer_cliente] for a record. *)
Definition texto_lectura (p : string * json) : linea :=
  Linea ("ID: " +:+ p.1 +:+ ", Número: " +:+ texto "numero_cliente" p.2
         +:+ ", Nombre: " +:+ texto "nombre" p.2 +:+ " " +:+ texto "apellido" p.2
         +:+ ", Tipo: " +:+ texto "tipo" p.2 +:+ ", Contacto: " +:+ texto "contacto" p.2
         +:+ ", Servicios: " +:+ Py.str (JList (servicios_de p.2))
         +:+ ", Fecha Registro: " +:+ texto "fecha_registro" p.2).

(** The integer in the customer number of a found client. *)
Definition numero_del_cliente (p : string * json) : option Z :=
  numero_de (texto "numero_cliente" p.2).

(** The exceptions that end the program on a directory in order:
    [ValueError] and, a [ValueError] too in Python, [UnicodeDecodeError] from
    the start-up code, and [EOFError] from the menu. *)
Definition fin_de_programa (e : excepcion) : Prop :=
  e = ValueError ∨ e = UnicodeDecodeError ∨ e = EOFError.

(** The directory of [estado_ejemplo] after its counter file has been
    lost. *)
Definition estado_sin_contador : estado :=
  con_archivos (delete CONTADOR_FILE (archivos estado_ejemplo)) estado_ejemplo.

(** What a step of an update may do: it leaves the counter and the
    dictionary as they are and removes no file. *)
Definition solo_guarda (st st' : estado) : Prop :=
  CONTADOR_CLIENTE st' = CONTADOR_CLIENTE st
  ∧ clientes st' = clientes st
  ∧ ∀ f, is_Some (archivos st !! f) → is_Some (archivos st' !! f).

(** What a step of a delete may do: it leaves the counter as it is, and
    only takes files out of the directory and entries out of the
    dictionary. *)
Definition solo_quita (st st' : estado) : Prop :=
  CONTADOR_CLIENTE st' = CONTADOR_CLIENTE st
  ∧ archivos st' ⊆ archivos st
  ∧ clientes st' ⊆ clientes st.

(** The files are as they were, or one client file that was there has
    been written again. *)
Definition reescribe_uno (st st' : estado) : Prop :=
  archivos st' = archivos st
  ∨ ∃ cliente_id datos,
      is_Some (archivos st !! archivo_de cliente_id)
      ∧ archivos st' = <[archivo_de cliente_id := Json datos]> (archivos st).

(** Every client file of the directory has the name that its identifier,
    read off the name, gives back. *)
Definition canonico (fs : gmap string contenido) : Prop :=
  ∀ f, is_Some (fs !! f) → es_archivo_cliente f = true →
       archivo_de (id_de_archivo f) = f.

(** * Properties *)

(** ** Strings and numerals *)

Module PyStrFacts.
Import PyStr.

Lemma app_String c s t : String c s +:+ t = String c (s +:+ t).
Proof. reflexivity. Qed.

Lemma app_vacio_l s : "" +:+ s = s.
Proof. reflexivity. Qed.

Lemma app_vacio_r s : s +:+ "" = s.
Proof. induction s as [|c s IH]; [done|]. by rewrite app_String, IH. Qed.

Lemma app_asoc s t u : (s +:+ t) +:+ u = s +:+ (t +:+ u).
Proof. induction s as [|c s IH]; [done|]. by rewrite !app_String, IH. Qed.

Lemma length_app s t : String.length (s +:+ t) = (String.length s + String.length t)%nat.
Proof. induction s as [|c s IH]; [done|]. rewrite app_String. simpl. by rewrite IH. Qed.

Lemma app_inv_l s t u : s +:+ t = s +:+ u → t = u.
Proof. induction s as [|c s IH]; [done|]. rewrite !app_String. intros [= H]. auto. Qed.

Lemma todos_app p s t : todos p (s +:+ t) = todos p s && todos p t.
Proof.
  induction s as [|c s IH]; [done|]. rewrite app_String. simpl.
  rewrite IH. by destruct (p c).
Qed.

Lemma todos_impl (p q : ascii → bool) s :
  (∀ c, p c = true → q c = true) → todos p s = true → todos q s = true.
Proof.
  intros Hpq. induction s as [|c s IH]; [done|]. simpl.
  rewrite !andb_true_iff. intros [??]. auto.
Qed.

Lemma todos_repetir p n c : p c = true → todos p (repetir n c) = true.
Proof. intros Hc. induction n as [|n IH]; [done|]. simpl. by rewrite Hc. Qed.

Lemma length_repetir n c : String.length (repetir n c) = n.
Proof. induction n as [|n IH]; [done|]. simpl. by rewrite IH. Qed.

(** *** Decimal numerals *)

Lemma es_digito_pretty_N_char x : es_digito (pretty_N_char x) = true.
Proof. unfold pretty_N_char. by repeat case_match. Qed.

Lemma codigo_pretty_N_char x :
  (x < 10)%N → (codigo (pretty_N_char x) - 48)%N = x.
Proof.
  intros Hx.
  assert (x = 0 ∨ x = 1 ∨ x = 2 ∨ x = 3 ∨ x = 4 ∨ x = 5
          ∨ x = 6 ∨ x = 7 ∨ x = 8 ∨ x = 9)%N as H by lia.
  repeat (destruct H as [->|H]; [reflexivity|]). by subst.
Qed.

Lemma todos_pretty_N_go x s :
  todos es_digito s = true → todos es_digito (pretty_N_go x s) = true.
Proof.
  revert s. induction (N.lt_wf_0 x) as [x _ IH]; intros s Hs.
  destruct (decide (x = 0)%N) as [->|]; [done|].
  rewrite pretty_N_go_step by lia. apply IH.
  - apply N.div_lt; lia.
  - simpl. by rewrite es_digito_pretty_N_char.
Qed.

Lemma todos_pretty_N (x : N) : todos es_digito (pretty x) = true.
Proof.
  unfold pretty, pretty_N. case_decide; [done|]. by apply todos_pretty_N_go.
Qed.

Lemma pretty_N_no_vacio (x : N) : pretty x ≠ "".
Proof.
  unfold pretty, pretty_N. case_decide; [done|].
  rewrite pretty_N_go_step by lia.
  generalize (x `div` 10)%N (pretty_N_char (x `mod` 10)). intros y c.
  assert (∀ z s, s ≠ "" → pretty_N_go z s ≠ "") as Hgo.
  { intros z. induction (N.lt_wf_0 z) as [z _ IH]; intros s Hs.
    destruct (decide (z = 0)%N) as [->|]; [done|].
    rewrite pretty_N_go_step by lia. apply IH; [apply N.div_lt; lia|done]. }
  by apply Hgo.
Qed.

Lemma pretty_Z_of_N (k : N) : pretty (Z.of_N k) = pretty k.
Proof. by destruct k. Qed.

(** Reading back the digits that [pretty_N_go] writes. *)
Lemma valor_digitos_pretty_N_go x :
  ∃ p : N, ∀ acc s,
    valor_digitos acc (pretty_N_go x s) = valor_digitos (acc * p + x)%N s.
Proof.
  induction (N.lt_wf_0 x) as [x _ IH].
  destruct (decide (x = 0)%N) as [->|Hx].
  - exists 1%N. intros acc s. rewrite pretty_N_go_0. f_equal. lia.
  - destruct (IH (x `div` 10)%N) as [p Hp]; [apply N.div_lt; lia|].
    exists (p * 10)%N. intros acc s.
    rewrite pretty_N_go_step, Hp by lia. simpl.
    rewrite es_digito_pretty_N_char, codigo_pretty_N_char by (apply N.mod_lt; lia).
    f_equal. pose proof (N.div_mod x 10). lia.
Qed.

Lemma valor_digitos_pretty (x : N) : valor_digitos 0 (pretty x) = Some x.
Proof.
  unfold pretty, pretty_N. case_decide as Hx; [by subst|].
  destruct (valor_digitos_pretty_N_go x) as [p Hp]. rewrite Hp. simpl. f_equal; lia.
Qed.

Lemma valor_digitos_ceros n s :
  valor_digitos 0 (repetir n "0" +:+ s) = valor_digitos 0 s.
Proof.
  induction n as [|n IH]; [done|].
  change (repetir (S n) "0" +:+ s) with (String "0" (repetir n "0" +:+ s)).
  simpl. apply IH.
Qed.

(** *** [strip], [replace] and [int] on numerals *)

Lemma es_digito_no_espacio c : es_digito c = true → no_espacio c = true.
Proof. destruct c as [[] [] [] [] [] [] [] []]; by vm_compute. Qed.

Lemma es_digito_no_C c : es_digito c = true → no_C c = true.
Proof. destruct c as [[] [] [] [] [] [] [] []]; by vm_compute. Qed.

Lemma rstrip_sin_espacios s : todos no_espacio s = true → rstrip s = s.
Proof.
  induction s as [|c s IH]; [done|]. simpl. unfold no_espacio at 1.
  rewrite andb_true_iff, negb_true_iff.
  intros [Hc Hs]. rewrite IH by done. destruct s; [by rewrite Hc|done].
Qed.

Lemma strip_sin_espacios s : todos no_espacio s = true → strip s = s.
Proof.
  intros Hs. unfold strip.
  assert (lstrip s = s) as ->.
  { destruct s as [|c s]; [done|]. simpl in *.
    apply andb_true_iff in Hs as [Hc _]. apply negb_true_iff in Hc. by rewrite Hc. }
  by apply rstrip_sin_espacios.
Qed.

Lemma es_digito_no_espacio_c c : es_digito c = true → no_espacio_c c = true.
Proof. destruct c as [[] [] [] [] [] [] [] []]; by vm_compute. Qed.

(** Where there is no white space, [int] has nothing to skip. *)
Lemma strip_c_sin_espacios s :
  todos no_espacio_c s = true → rstrip_c (lstrip_c s) = s.
Proof.
  intros Hs.
  assert (lstrip_c s = s) as ->.
  { destruct s as [|c s]; [done|]. simpl in *.
    apply andb_true_iff in Hs as [Hc _]. apply negb_true_iff in Hc. by rewrite Hc. }
  induction s as [|c s IH]; [done|]. simpl in *.
  apply andb_true_iff in Hs as [Hc Hs]. apply negb_true_iff in Hc.
  rewrite IH by done. destruct s; [by rewrite Hc|done].
Qed.

Lemma replace_sin_C s : todos no_C s = true → replace_desde "C" "" 0 s = s.
Proof.
  induction s as [|c s IH]; [done|]. simpl. rewrite andb_true_iff. intros [Hc Hs].
  case_decide as Hd; [subst; by vm_compute in Hc|].
  by rewrite IH.
Qed.

(** Zero padding keeps the digits and the value, and gives at least the
    asked width. *)
Lemma rellenar_digitos ancho (x : N) :
  todos es_digito (rellenar ancho (pretty x)) = true.
Proof.
  unfold rellenar. rewrite todos_app, todos_pretty_N, todos_repetir; done.
Qed.

Lemma rellenar_no_vacio ancho (x : N) : rellenar ancho (pretty x) ≠ "".
Proof.
  unfold rellenar. intros H. apply (f_equal String.length) in H.
  rewrite length_app in H. simpl in H.
  pose proof (pretty_N_no_vacio x). destruct (pretty x); [done|simpl in H; lia].
Qed.

Lemma entero_sin_signo_rellenar ancho (x : N) :
  entero_sin_signo (rellenar ancho (pretty x)) = Some x.
Proof.
  pose proof (rellenar_digitos ancho x) as Hd.
  pose proof (rellenar_no_vacio ancho x) as Hne.
  unfold entero_sin_signo.
  destruct (rellenar ancho (pretty x)) as [|c s] eqn:E; [done|].
  simpl in Hd. apply andb_true_iff in Hd as [-> _]. rewrite <- E.
  unfold rellenar. by rewrite valor_digitos_ceros, valor_digitos_pretty.
Qed.

Lemma int_rellenar ancho (x : N) :
  int (rellenar ancho (pretty x)) = Some (Z.of_N x).
Proof.
  pose proof (rellenar_digitos ancho x) as Hd.
  pose proof (entero_sin_signo_rellenar ancho x) as He.
  unfold int. rewrite strip_c_sin_espacios
    by (revert Hd; apply todos_impl, es_digito_no_espacio_c).
  destruct (rellenar ancho (pretty x)) as [|c s]; [done|].
  simpl in Hd. apply andb_true_iff in Hd as [Hc _].
  destruct c as [[] [] [] [] [] [] [] []]; try (by vm_compute in Hc);
    (cbn iota beta; by rewrite He).
Qed.

Lemma int_menos_rellenar ancho (x : N) :
  int ("-" +:+ rellenar ancho (pretty x)) = Some (- Z.of_N x).
Proof.
  pose proof (rellenar_digitos ancho x) as Hd.
  unfold int. rewrite strip_c_sin_espacios.
  - rewrite app_String, app_vacio_l. by rewrite entero_sin_signo_rellenar.
  - rewrite app_String, app_vacio_l. simpl.
    revert Hd; apply todos_impl, es_digito_no_espacio_c.
Qed.

Lemma length_rellenar ancho s :
  String.length (rellenar ancho s) = (ancho `max` String.length s)%nat.
Proof. unfold rellenar. rewrite length_app, length_repetir. lia. Qed.

Lemma format_03d_no_negativo (n : Z) :
  0 ≤ n → format_03d n = rellenar 3 (str_int n).
Proof.
  intros Hn. unfold format_03d, str_int.
  destruct (Z.ltb_spec n 0); [lia|].
  by rewrite <- (pretty_Z_of_N (Z.abs_N n)), N2Z.inj_abs_N, Z.abs_eq.
Qed.

(** [int] reads back what [format(n, "03d")] writes. *)
Lemma int_format_03d (n : Z) : int (format_03d n) = Some n.
Proof.
  unfold format_03d. destruct (Z.ltb_spec n 0).
  - rewrite int_menos_rellenar, N2Z.inj_abs_N. f_equal. lia.
  - rewrite int_rellenar, N2Z.inj_abs_N. f_equal. lia.
Qed.

Lemma format_03d_sin_C (n : Z) : todos no_C (format_03d n) = true.
Proof.
  unfold format_03d. destruct (n <? 0).
  - rewrite app_String, app_vacio_l. simpl.
    generalize (rellenar_digitos 2 (Z.abs_N n)). apply todos_impl, es_digito_no_C.
  - generalize (rellenar_digitos 3 (Z.abs_N n)). apply todos_impl, es_digito_no_C.
Qed.

End PyStrFacts.

(** ** Regular expressions *)

Module ReFacts.
Import Re.

Lemma coincide_Nada s : coincide Nada s = false.
Proof. induction s; simpl; auto. Qed.

Lemma coincide_Alt r1 r2 s :
  coincide (Alt r1 r2) s = coincide r1 s || coincide r2 s.
Proof. revert r1 r2; induction s as [|c s IH]; intros; simpl; auto. Qed.

Lemma coincide_Cat_Nada r s : coincide (Cat Nada r) s = false.
Proof. induction s; simpl; auto. Qed.

Lemma coincide_Cat_Eps r s : coincide (Cat Eps r) s = coincide r s.
Proof.
  destruct s as [|c s]; simpl; [done|].
  by rewrite coincide_Alt, coincide_Cat_Nada.
Qed.

Lemma coincide_Cat_Clase p r c s :
  coincide (Cat (Clase p) r) (String c s) = p c && coincide r s.
Proof.
  simpl. destruct (p c); simpl.
  - apply coincide_Cat_Eps.
  - apply coincide_Cat_Nada.
Qed.

Lemma coincide_Veces_Clase p n s :
  coincide (Veces n (Clase p)) s
  = bool_decide (String.length s = n) && PyStr.todos p s.
Proof.
  revert s; induction n as [|n IH]; intros [|c s].
  - done.
  - simpl. apply coincide_Nada.
  - done.
  - change (Veces (S n) (Clase p)) with (Cat (Clase p) (Veces n (Clase p))).
    rewrite coincide_Cat_Clase, IH. simpl.
    rewrite (bool_decide_ext (S (String.length s) = S n) (String.length s = n)) by lia.
    by destruct (p c), (bool_decide _).
Qed.

Lemma sin_salto_final_app s : sin_salto_final (s +:+ String salto "") = Some s.
Proof.
  induction s as [|c s IH]; [done|].
  rewrite PyStrFacts.app_String. simpl. rewrite IH.
  by destruct s.
Qed.

Lemma sin_salto_final_inv s s' :
  sin_salto_final s = Some s' → s = s' +:+ String salto "".
Proof.
  revert s'; induction s as [|c s IH]; intros s'; simpl; [done|].
  destruct s as [|d s].
  - case_decide; [|done]. by intros [= <-]; subst.
  - destruct (sin_salto_final (String d s)) as [t|]; simpl; [|done].
    intros [= <-]. rewrite PyStrFacts.app_String. f_equal. by apply IH.
Qed.

Lemma sin_salto_final_Some s s' :
  sin_salto_final s = Some s' ↔ s = s' +:+ String salto "".
Proof.
  split; [apply sin_salto_final_inv|]. intros ->. apply sin_salto_final_app.
Qed.

End ReFacts.

(** ** Telephone numbers *)

(** What [validate_phone] accepts: ten digits, with or without a line feed
    after them. *)
Lemma validate_phone_acepta s :
  validate_phone s = true ↔
  diez_digitos s ∨ ∃ d, diez_digitos d ∧ s = d +:+ String Re.salto "".
Proof.
  unfold validate_phone, Re.match_anclado, patron_telefono, diez_digitos.
  rewrite orb_true_iff, ReFacts.coincide_Veces_Clase, andb_true_iff, bool_decide_eq_true.
  split.
  - intros [H|H]; [by left|right].
    destruct (Re.sin_salto_final s) as [d|] eqn:E; [|done].
    rewrite ReFacts.coincide_Veces_Clase, andb_true_iff, bool_decide_eq_true in H.
    exists d. split; [done|]. by apply ReFacts.sin_salto_final_Some.
  - intros [H|(d & H & ->)]; [by left|right].
    rewrite (proj2 (ReFacts.sin_salto_final_Some _ d) eq_refl).
    by rewrite ReFacts.coincide_Veces_Clase, andb_true_iff, bool_decide_eq_true.
Qed.

(** C8. [validate_phone] is meant to accept exactly the strings of ten
    decimal digits, but it also accepts ten digits followed by a line feed:
    a string of length 11 whose last character is no digit. *)
Theorem validate_phone_salto_final :
  let s := "1234567890" +:+ String Re.salto "" in
  validate_phone s = true
  ∧ String.length s = 11%nat
  ∧ PyStr.todos PyStr.es_digito s = false
  ∧ ¬ diez_digitos s.
Proof.
  cbv zeta. split; [|split; [|split]]; [by vm_compute..|].
  intros [H _]. vm_compute in H. discriminate.
Qed.

(** ** Running computations *)

Lemma bind_Ok {A B : Type} (m : M A) (k : A → M B) st a st' :
  m st = (Ok a, st') → (m ≫= k) st = k a st'.
Proof. intros H. unfold mbind, M_bind. by rewrite H. Qed.

Lemma bind_Raise {A B : Type} (m : M A) (k : A → M B) st e st' :
  m st = (Raise e, st') → (m ≫= k) st = (Raise e, st').
Proof. intros H. unfold mbind, M_bind. by rewrite H. Qed.

Lemma intentar_Ok {A : Type} (m : M A) h st a st' :
  m st = (Ok a, st') → intentar m h st = (Ok a, st').
Proof. intros H. unfold intentar. by rewrite H. Qed.

#[global] Arguments nombre_valido : simpl never.
#[global] Arguments existe : simpl never.

Lemma nombre_valido_CONTADOR_FILE : nombre_valido CONTADOR_FILE = true.
Proof. by vm_compute. Qed.

(** ** Customer numbers *)

Lemma numero_de_formato (n : Z) :
  numero_de ("C" +:+ PyStr.format_03d n) = Some n.
Proof.
  unfold numero_de.
  change (PyStr.replace "C" "" ("C" +:+ ?s))
    with ("" +:+ PyStr.replace_desde "C" "" 0 s).
  rewrite PyStrFacts.app_vacio_l, PyStrFacts.replace_sin_C
    by apply PyStrFacts.format_03d_sin_C.
  apply PyStrFacts.int_format_03d.
Qed.

Lemma generate_cliente_number_run st :
  generate_cliente_number st
  = (Ok ("C" +:+ PyStr.format_03d (CONTADOR_CLIENTE st + 1)), tras_numero st).
Proof.
  unfold generate_cliente_number, mbind, M_bind, leer_estado, modificar_estado,
    escribir, mret, M_ret.
  reflexivity.
Qed.

Lemma inicio_estado_nuevo : inicio estado_nuevo = (Ok (), estado_inicial).
Proof. by vm_compute. Qed.

(** C2. Every call of [generate_cliente_number] adds one to the counter,
    leaves the numeral of the new value in the counter file, and returns [C]
    followed by the new value formatted with [03d], which for the values
    from 0 on is the decimal numeral padded with zeros to three digits, and
    longer when the numeral is.  The number read back from the result is the
    new counter value, and the next call returns the value after it, so the
    numbers issued grow strictly.  From the counter 0 the result is [C001],
    which is the number of the first client created on a new directory. *)
Theorem generate_cliente_number_correcto st (k : N) :
  let c := CONTADOR_CLIENTE st in
  let st1 := (generate_cliente_number st).2 in
  generate_cliente_number st = (Ok ("C" +:+ PyStr.format_03d (c + 1)), st1)
  ∧ CONTADOR_CLIENTE st1 = c + 1
  ∧ archivos st1 = <[CONTADOR_FILE := Json (JNum (c + 1))]> (archivos st)
  ∧ clientes st1 = clientes st ∧ salida st1 = salida st
  ∧ PyStr.format_03d (Z.of_N k) = PyStr.rellenar 3 (PyStr.str_int (Z.of_N k))
  ∧ String.length (PyStr.format_03d (Z.of_N k))
    = (3 `max` String.length (PyStr.str_int (Z.of_N k)))%nat
  ∧ (generate_cliente_number st1).1 = Ok ("C" +:+ PyStr.format_03d (c + 2))
  ∧ numero_de ("C" +:+ PyStr.format_03d (c + 1)) = Some (c + 1)
  ∧ numero_de ("C" +:+ PyStr.format_03d (c + 2)) = Some (c + 2)
  ∧ c + 1 < c + 2
  ∧ (generate_cliente_number (con_contador 0 st)).1 = Ok "C001"
  ∧ salida (crear_cliente
              (con_entrada ["Juan"; "Perez"; "Persona"; "5512345678"] estado_inicial)).2
    = [Linea "Cliente JP_20250602 guardado exitosamente.";
       Linea "Cliente creado con ID: JP_20250602 y Número de Cliente: C001"].
Proof.
  cbv zeta. rewrite !generate_cliente_number_run. simpl.
  replace (CONTADOR_CLIENTE st + 1 + 1) with (CONTADOR_CLIENTE st + 2) by lia.
  rewrite (PyStrFacts.format_03d_no_negativo (Z.of_N k)) by lia.
  repeat split;
    first [ apply PyStrFacts.length_rellenar
          | apply numero_de_formato
          | lia
          | by vm_compute ].
Qed.

(** ** Identifiers *)

(** The date of an identifier is made of digits, eight of them for a year
    of four digits and a month and a day of two. *)
Lemma length_pretty_N_go n : ∀ (x : N) s,
  (x < 10 ^ N.of_nat n)%N →
  (String.length (pretty_N_go x s) ≤ n + String.length s)%nat.
Proof.
  induction n as [|n IH]; intros x s Hx.
  - assert (x = 0%N) as -> by (simpl in Hx; lia). by rewrite pretty_N_go_0.
  - destruct (decide (x = 0%N)) as [->|Hx0]; [rewrite pretty_N_go_0; lia|].
    rewrite pretty_N_go_step by lia.
    etrans; [apply IH|simpl; lia].
    rewrite Nat2N.inj_succ, N.pow_succ_r' in Hx.
    apply N.Div0.div_lt_upper_bound. lia.
Qed.

Lemma length_rellenar_pretty n (x : N) :
  (0 < n)%nat → (x < 10 ^ N.of_nat n)%N →
  String.length (PyStr.rellenar n (pretty x)) = n.
Proof.
  intros Hn Hx. rewrite PyStrFacts.length_rellenar.
  assert (String.length (pretty x) ≤ n)%nat; [|lia].
  unfold pretty, pretty_N. case_decide; [simpl; lia|].
  pose proof (length_pretty_N_go n x "" Hx) as H'. simpl in H'. lia.
Qed.

Lemma strftime_Ymd_forma t :
  PyStr.todos PyStr.es_digito (strftime_Ymd t) = true
  ∧ ((anno t < 10000)%N → (mes t < 100)%N → (dia t < 100)%N →
     String.length (strftime_Ymd t) = 8%nat).
Proof.
  unfold strftime_Ymd, dos. split.
  - by rewrite !PyStrFacts.todos_app, !PyStrFacts.rellenar_digitos.
  - intros Ha Hm Hd.
    rewrite !PyStrFacts.length_app, !length_rellenar_pretty by (simpl; lia). done.
Qed.

Lemma app_inv_r s t u : s +:+ u = t +:+ u → s = t.
Proof.
  revert t. induction s as [|c s IH]; intros [|d t] H; [done|..].
  - apply (f_equal String.length) in H.
    rewrite !PyStrFacts.length_app in H. simpl in H. lia.
  - apply (f_equal String.length) in H.
    rewrite !PyStrFacts.length_app in H. simpl in H. lia.
  - rewrite !PyStrFacts.app_String in H. injection H as -> H. f_equal. by apply IH.
Qed.

Global Instance archivo_de_inj : Inj (=) (=) archivo_de.
Proof.
  intros a b H. unfold archivo_de in H.
  apply PyStrFacts.app_inv_l in H. by apply app_inv_r in H.
Qed.

Global Instance candidato_inj base_id : Inj (=) (=) (candidato base_id).
Proof.
  intros [|i] [|j] H; simpl in H; [done|..].
  - apply (f_equal String.length) in H.
    rewrite PyStrFacts.length_app, PyStrFacts.length_app in H. simpl in H. lia.
  - apply (f_equal String.length) in H.
    rewrite PyStrFacts.length_app, PyStrFacts.length_app in H. simpl in H. lia.
  - do 2 apply PyStrFacts.app_inv_l in H.
    unfold PyStr.str_int in H. apply (inj pretty) in H. lia.
Qed.

(** The first index at which a test fails, below a failing index. *)
Lemma primer_fallo (e : nat → bool) n :
  e n = false → ∃ i, (i ≤ n)%nat ∧ e i = false ∧ ∀ j, (j < i)%nat → e j = true.
Proof.
  induction (lt_wf n) as [n _ IH]. intros Hn.
  destruct (decide (Forall (λ j, e j = true) (seq 0 n))) as [Hall|Hex].
  - exists n. split_and!; [lia|done|].
    intros j Hj. rewrite Forall_forall in Hall. apply Hall, elem_of_seq. lia.
  - apply not_Forall_Exists in Hex; [|apply _].
    apply Exists_exists in Hex as (j & Hj & Hej). apply elem_of_seq in Hj.
    destruct (IH j) as (i & ? & ? & ?); [lia|by apply not_true_is_false|].
    exists i. split_and!; [lia|done..].
Qed.

(** Not all of the first [size fs + 1] candidates can be files of [fs]. *)
Lemma candidato_libre (fs : gmap string contenido) base_id :
  ∃ i, (i ≤ size fs)%nat ∧ existe fs (archivo_de (candidato base_id i)) = false.
Proof.
  set (nombres := (λ i, archivo_de (candidato base_id i)) <$> seq 0 (S (size fs))).
  destruct (decide (Forall (λ n, existe fs n = true) nombres)) as [Hall|Hex].
  - exfalso.
    assert (NoDup nombres) as Hnd.
    { apply (NoDup_fmap_2 _), NoDup_seq. }
    assert (list_to_set nombres ⊆ dom fs) as Hsub.
    { intros n Hn. apply elem_of_list_to_set in Hn.
      rewrite Forall_forall in Hall. apply Hall in Hn.
      unfold existe in Hn. apply andb_true_iff in Hn as [_ Hn].
      apply bool_decide_eq_true in Hn. by apply elem_of_dom. }
    apply subseteq_size in Hsub.
    rewrite size_list_to_set, size_dom in Hsub by done.
    unfold nombres in Hsub. rewrite length_fmap, length_seq in Hsub. lia.
  - apply not_Forall_Exists in Hex; [|apply _].
    apply Exists_exists in Hex as (n & Hn & Hen).
    apply list_elem_of_fmap in Hn as (i & -> & Hi). apply elem_of_seq in Hi.
    exists i. split; [lia|]. by apply not_true_is_false.
Qed.

(** The loop leaves at the first free candidate when it has fuel to reach
    it. *)
Lemma path_exists_run nombre st :
  path_exists nombre st = (Ok (existe (archivos st) nombre), st).
Proof. reflexivity. Qed.

Lemma mientras_existe_sale st base_id i : ∀ fuel k,
  (i < fuel)%nat →
  (∀ j, (j < i)%nat →
        existe (archivos st) (archivo_de (candidato base_id (k + j))) = true) →
  existe (archivos st) (archivo_de (candidato base_id (k + i))) = false →
  mientras_existe fuel base_id (Z.of_nat k + 1) (candidato base_id k) st
  = (Ok (candidato base_id (k + i)), st).
Proof.
  induction i as [|i IH]; intros [|fuel] k Hfuel Hocupados Hlibre; try lia.
  - simpl. rewrite (bind_Ok _ _ _ _ _ (path_exists_run _ _)).
    rewrite Nat.add_0_r in *. by rewrite Hlibre.
  - simpl. rewrite (bind_Ok _ _ _ _ _ (path_exists_run _ _)).
    pose proof (Hocupados 0%nat ltac:(lia)) as H0.
    rewrite Nat.add_0_r in H0. rewrite H0.
    replace (Z.of_nat k + 1) with (Z.of_nat (S k)) by lia.
    change (base_id +:+ "_" +:+ PyStr.str_int (Z.of_nat (S k)))
      with (candidato base_id (S k)).
    replace (k + S i)%nat with (S k + i)%nat by lia.
    apply IH; [lia| |].
    + intros j Hj. replace (S k + j)%nat with (k + S j)%nat by lia.
      apply Hocupados. lia.
    + by replace (S k + i)%nat with (k + S i)%nat by lia.
Qed.

Lemma upper_iniciales n0 nombre apellido :
  PyStr.primero nombre = Some n0 →
  PyStr.upper (iniciales_de n0 apellido) = inicial nombre +:+ inicial apellido.
Proof. destruct nombre; [done|]. intros [= ->]. by destruct apellido. Qed.

(** [generate_unique_id] returns the first candidate that is free and does
    not touch the state. *)
Lemma generate_unique_id_run st nombre apellido :
  nombre ≠ "" →
  let base_id :=
    (inicial nombre +:+ inicial apellido) +:+ "_" +:+ strftime_Ymd (ahora st) in
  ∃ k : nat,
    generate_unique_id nombre apellido st = (Ok (candidato base_id k), st)
    ∧ existe (archivos st) (archivo_de (candidato base_id k)) = false
    ∧ ∀ j, (j < k)%nat →
           existe (archivos st) (archivo_de (candidato base_id j)) = true.
Proof.
  intros Hnombre base_id.
  destruct (candidato_libre (archivos st) base_id) as (n & Hn & Hlibre).
  apply (primer_fallo (λ i, existe (archivos st) (archivo_de (candidato base_id i))))
    in Hlibre as (k & Hk & Hlibre & Hocupados).
  exists k. split_and!; [|done..].
  unfold generate_unique_id.
  destruct (PyStr.primero nombre) as [n0|] eqn:Hn0; [|by destruct nombre].
  unfold mbind at 1, M_bind at 1, now. unfold mbind at 1, M_bind at 1, leer_estado.
  rewrite (upper_iniciales _ nombre) by done. fold base_id.
  apply (mientras_existe_sale st base_id k (S (size (archivos st))) 0); [lia|done..].
Qed.



(** ** Saving and loading a record *)

Lemma escribir_run nombre c st :
  nombre_valido nombre = true →
  escribir nombre c st = (Ok (), con_archivos (<[nombre := c]> (archivos st)) st).
Proof. intros H. unfold escribir. by rewrite H. Qed.

Lemma guardar_cliente_run cliente_id cliente_data st :
  nombre_valido (archivo_de cliente_id) = true →
  guardar_cliente cliente_id cliente_data st
  = (Ok (), tras_guardar cliente_id cliente_data st).
Proof.
  intros H. unfold guardar_cliente. apply intentar_Ok.
  rewrite (bind_Ok _ _ _ _ _ (escribir_run _ _ _ H)). reflexivity.
Qed.

Lemma cargar_cliente_run cliente_id st :
  cargable (archivos st) cliente_id = true →
  cargar_cliente cliente_id st
  = (Ok (cargado (archivos st) cliente_id), tras_cargar cliente_id st).
Proof.
  unfold cargar_cliente, intentar, cargado, tras_cargar, cargable. intros Hcarga.
  rewrite (bind_Ok _ _ _ _ _ (path_exists_run _ _)).
  destruct (existe (archivos st) (archivo_de cliente_id)) eqn:He; [|done].
  unfold existe in He. apply andb_true_iff in He as [Hv Hs].
  apply bool_decide_eq_true in Hs as [c Hc].
  unfold mbind, M_bind, leer. rewrite Hv, Hc in *.
  destruct c; [reflexivity..|discriminate Hcarga].
Qed.

Lemma cargar_cliente_sin_nombre cliente_id st :
  nombre_valido (archivo_de cliente_id) = false →
  cargar_cliente cliente_id st = (Ok JNull, st).
Proof.
  intros Hv. unfold cargar_cliente, intentar.
  rewrite (bind_Ok _ _ _ _ _ (path_exists_run _ _)). unfold existe. by rewrite Hv.
Qed.

(** On a file that [json.load] gives up on, the exception passes the
    [except] clause of [cargar_cliente]. *)
Lemma cargar_cliente_ilegible cliente_id st :
  cargable (archivos st) cliente_id = false →
  ∃ i, archivos st !! archivo_de cliente_id = Some (Ilegible i)
       ∧ cargar_cliente cliente_id st = (Raise (excepcion_de i), st).
Proof.
  unfold cargable. intros Hcarga.
  destruct (archivos st !! archivo_de cliente_id) as [[| |i]|] eqn:Hc; try done.
  apply negb_false_iff in Hcarga. exists i. split; [done|].
  unfold cargar_cliente, intentar.
  rewrite (bind_Ok _ _ _ _ _ (path_exists_run _ _)). unfold existe.
  rewrite Hcarga, Hc, bool_decide_eq_true_2 by (by eexists). cbn [andb].
  unfold mbind, M_bind, leer. rewrite Hcarga, Hc. by destruct i.
Qed.

Lemma endswith_app p s : PyStr.endswith p (s +:+ p) = true.
Proof.
  induction s as [|c s IH].
  - rewrite PyStrFacts.app_vacio_l. destruct p; simpl; rewrite ?bool_decide_eq_true_2 by done; done.
  - rewrite PyStrFacts.app_String. simpl. rewrite IH. apply orb_true_r.
Qed.

Lemma es_archivo_cliente_archivo_de cliente_id :
  es_archivo_cliente (archivo_de cliente_id) = true.
Proof.
  unfold es_archivo_cliente, archivo_de. apply andb_true_iff. split; [done|].
  rewrite <- PyStrFacts.app_asoc. apply endswith_app.
Qed.

(** Where no client file is beyond [json.load], every load returns. *)
Lemma legible_cargable fs cliente_id : legible fs → cargable fs cliente_id = true.
Proof.
  unfold legible, cargable. intros Hfs.
  destruct (fs !! archivo_de cliente_id) as [[| |i]|] eqn:Hc; try done.
  by specialize (Hfs _ _ Hc (es_archivo_cliente_archivo_de cliente_id)).
Qed.

Lemma legible_se_cargan fs dir : legible fs → se_cargan fs dir.
Proof.
  intros Hfs. apply Forall_forall. intros f _ _. by apply legible_cargable.
Qed.


Lemma cargable_delete fs cliente_id f :
  cargable fs cliente_id = true → cargable (delete f fs) cliente_id = true.
Proof.
  unfold cargable. intros H.
  destruct (decide (f = archivo_de cliente_id)) as [->|Hne].
  - by rewrite lookup_delete_eq.
  - by rewrite lookup_delete_ne.
Qed.

Lemma salvo_bitacora_refl st : salvo_bitacora st st.
Proof. exists []. destruct st. unfold con_bitacora. simpl. by rewrite app_nil_r. Qed.

Lemma salvo_bitacora_trans st1 st2 st3 :
  salvo_bitacora st1 st2 → salvo_bitacora st2 st3 → salvo_bitacora st1 st3.
Proof.
  intros [b1 ->] [b2 ->]. exists (b1 ++ b2).
  destruct st1. unfold con_bitacora. simpl. by rewrite app_assoc.
Qed.

Lemma salvo_bitacora_archivos st st' : salvo_bitacora st st' → archivos st' = archivos st.
Proof. by intros [b ->]. Qed.

Lemma salvo_bitacora_tras_cargar cliente_id st :
  salvo_bitacora st (tras_cargar cliente_id st).
Proof.
  unfold tras_cargar. repeat case_match; try apply salvo_bitacora_refl. by eexists.
Qed.

(** C1, as stated, fails: the identifier [a/b] names no file of the
    directory, so [guardar_cliente] reports an error, saves nothing, and
    [cargar_cliente] then returns [None]. *)
Lemma guardar_cargar_contraejemplo :
  ¬ (∀ st cliente_id registro,
       es_registro registro = true →
       ((guardar_cliente cliente_id registro;; cargar_cliente cliente_id) st).1
       = Ok registro).
Proof.
  intros H. specialize (H estado_inicial "a/b" registro_ejemplo eq_refl).
  vm_compute in H. discriminate.
Qed.

(** C1, amended. When [cliente_<id>.json] is a valid file name of the
    directory, saving any document under the identifier and then loading the
    identifier returns the document as it was saved; the save puts exactly
    that file in the directory. *)
Theorem guardar_cargar_ida_y_vuelta st cliente_id registro :
  nombre_valido (archivo_de cliente_id) = true →
  let st1 := tras_guardar cliente_id registro st in
  guardar_cliente cliente_id registro st = (Ok (), st1)
  ∧ archivos st1 = <[archivo_de cliente_id := Json registro]> (archivos st)
  ∧ cargar_cliente cliente_id st1 = (Ok registro, st1)
  ∧ (guardar_cliente cliente_id registro;; cargar_cliente cliente_id) st = (Ok registro, st1).
Proof.
  intros Hv st1.
  assert (cargar_cliente cliente_id st1 = (Ok registro, st1)) as Hcargar.
  { rewrite cargar_cliente_run.
    - unfold cargado, tras_cargar, existe. simpl. by rewrite Hv, lookup_insert_eq.
    - unfold cargable. simpl. by rewrite lookup_insert_eq. }
  split_and!; [by apply guardar_cliente_run|done|done|].
  by rewrite (bind_Ok _ _ _ _ _ (guardar_cliente_run _ _ _ Hv)).
Qed.

Lemma guardar_cargar_ida_y_vuelta_witness :
  nombre_valido (archivo_de "AB_20250602") = true
  ∧ (guardar_cliente "AB_20250602" registro_ejemplo;; cargar_cliente "AB_20250602")
      estado_inicial
    = (Ok registro_ejemplo, tras_guardar "AB_20250602" registro_ejemplo estado_inicial).
Proof.
  assert (nombre_valido (archivo_de "AB_20250602") = true) as H by (by vm_compute).
  split; [exact H|].
  apply (guardar_cargar_ida_y_vuelta estado_inicial "AB_20250602" registro_ejemplo H).
Defined.

(** Identifiers that name no file do arise: a given name that starts with a
    slash gives one, the save then fails, and [crear_cliente] still reports
    the client as created, with the counter advanced. *)
Lemma crear_cliente_id_con_barra :
  let st := (crear_cliente
               (con_entrada ["/x"; "y"; "persona"; "5512345678"] estado_inicial)).2 in
  salida st
  = [LineaError "Error al guadar al cliente: " OSError;
     Linea "Cliente creado con ID: /Y_20250602 y Número de Cliente: C001"]
  ∧ (map_to_list (archivos st)).*1 = [CONTADOR_FILE]
  ∧ CONTADOR_CLIENTE st = 1.
Proof. cbv zeta. split_and!; by vm_compute. Qed.

(** ** Search *)

Lemma es_registro_JObj v :
  es_registro v = true →
  ∃ d l, v = JObj d
         ∧ Py.dict_get "servicios" d = Some (JList l)
         ∧ forallb es_JStr l = true
         ∧ ∀ k, k ∈ campos_de_texto → ∃ s, Py.dict_get k d = Some (JStr s).
Proof.
  destruct v as [| | | | |d]; try done. unfold es_registro, tiene_texto.
  rewrite !andb_true_iff. intros [[[[[[H1 H2] H3] H4] H5] H6] H7].
  destruct (Py.dict_get "servicios" d) as [[| | | |l|]|] eqn:Hs; try done.
  exists d, l. split_and!; [done..|].
  intros k Hk. unfold campos_de_texto in Hk.
  repeat (apply elem_of_cons in Hk as [->|Hk];
          [match goal with
           | H : match Py.dict_get ?k d with _ => _ end = true |- context [Py.dict_get ?k d] =>
               destruct (Py.dict_get k d) as [[]|]; try done; by eexists
           end|]).
  by apply elem_of_nil in Hk.
Qed.

Lemma es_registro_item v k :
  es_registro v = true → k ∈ campos_de_texto →
  Py.item k v = Ok (JStr (texto k v)).
Proof.
  intros (d & l & -> & _ & _ & Hk)%es_registro_JObj Hin.
  destruct (Hk k Hin) as [s Hs]. simpl. by rewrite Hs.
Qed.

Lemma campo_run k v st :
  es_registro v = true → k ∈ campos_de_texto →
  campo k v st = (Ok (texto k v), st).
Proof.
  intros Hv Hk. unfold campo, lift, mbind, M_bind.
  by rewrite (es_registro_item v k Hv Hk).
Qed.

Lemma en_campos k : bool_decide (k ∈ campos_de_texto) = true → k ∈ campos_de_texto.
Proof. apply bool_decide_eq_true. Qed.

Lemma cumple_criterio criterio valor p :
  cumple criterio valor p = true → criterio ∈ ["numero"; "id"; "nombre"].
Proof. unfold cumple. repeat case_decide; subst; set_solver. Qed.

(** The three tests of the loop amount to [cumple]. *)
Lemma pruebas_run criterio valor cliente_id cliente st :
  (criterio ∈ ["numero"; "nombre"] → es_registro cliente = true) →
  let c := cumple criterio valor (cliente_id, cliente) in
  prueba_numero criterio valor cliente st
  = (Ok (bool_decide (criterio = "numero") && c), st)
  ∧ prueba_id criterio valor cliente_id st
    = (Ok (bool_decide (criterio = "id") && c), st)
  ∧ prueba_nombre criterio valor cliente st
    = (Ok (bool_decide (criterio = "nombre") && c), st).
Proof.
  intros Hreg c. unfold c, cumple, prueba_numero, prueba_id, prueba_nombre.
  split_and!.
  - case_decide as Hc; [|by rewrite (bool_decide_eq_false_2 _ Hc)]. subst criterio.
    destruct (es_registro_JObj cliente) as (d & l & -> & _ & _ & Hk); [set_solver|].
    destruct (Hk "numero_cliente") as [s Hs]; [by apply en_campos|].
    unfold lift, mbind, M_bind. simpl. by rewrite Hs.
  - unfold mret, M_ret. do 2 f_equal.
    destruct (decide (criterio = "id")) as [->|Hc];
      [|by rewrite (bool_decide_eq_false_2 _ Hc)].
    reflexivity.
  - destruct (decide (criterio = "nombre")) as [->|Hc];
      [|by rewrite (bool_decide_eq_false_2 _ Hc)].
    unfold lift, mbind, M_bind.
    rewrite !es_registro_item by (first [set_solver | by apply en_campos]).
    reflexivity.
Qed.

Lemma tras_cargar_archivos cliente_id st :
  archivos (tras_cargar cliente_id st) = archivos st.
Proof. apply salvo_bitacora_archivos, salvo_bitacora_tras_cargar. Qed.

Lemma buscar_en_run criterio valor dir : ∀ resultados st,
  se_cargan (archivos st) dir →
  (criterio ∈ ["numero"; "nombre"] →
   Forall (λ p, es_registro p.2 = true) (omap (registro_de (archivos st)) dir)) →
  ∃ st',
    buscar_en criterio valor dir resultados st
    = (Ok (resultados
           ++ List.filter (cumple criterio valor) (omap (registro_de (archivos st)) dir)),
       st')
    ∧ salvo_bitacora st st'.
Proof.
  unfold se_cargan.
  induction dir as [|archivo resto IH]; intros resultados st Hcargan Hreg.
  { exists st. split; [|apply salvo_bitacora_refl]. simpl. by rewrite app_nil_r. }
  apply Forall_cons in Hcargan as [Hcarga Hcargan].
  simpl buscar_en. simpl omap in *. unfold registro_de at 1 in Hreg. unfold registro_de at 1.
  destruct (es_archivo_cliente archivo); [|by apply IH].
  rewrite (bind_Ok _ _ _ _ _ (cargar_cliente_run _ _ (Hcarga eq_refl))).
  set (cliente_id := id_de_archivo archivo) in *.
  set (cliente := cargado (archivos st) cliente_id) in *.
  set (st1 := tras_cargar cliente_id st).
  assert (archivos st1 = archivos st) as Hfs by apply tras_cargar_archivos.
  assert (∀ res, ∃ st',
    buscar_en criterio valor resto res st1
    = (Ok (res ++ List.filter (cumple criterio valor)
                    (omap (registro_de (archivos st)) resto)), st')
    ∧ salvo_bitacora st st') as Hresto.
  { intros res. destruct (IH res st1) as (st' & Hrun & Hst').
    - by rewrite Hfs.
    - rewrite Hfs. intros Hc. specialize (Hreg Hc).
      destruct (Py.truth cliente); [by apply Forall_cons in Hreg as [_ ?]|done].
    - exists st'. rewrite Hfs in Hrun. split; [done|].
      eapply salvo_bitacora_trans; [apply salvo_bitacora_tras_cargar|done]. }
  destruct (Py.truth cliente) eqn:Htruth; [|apply Hresto].
  destruct (pruebas_run criterio valor cliente_id cliente st1) as (H1 & H2 & H3).
  { intros Hc. specialize (Hreg Hc). by apply Forall_cons in Hreg as [? _]. }
  rewrite (bind_Ok _ _ _ _ _ H1). simpl List.filter.
  destruct (cumple criterio valor (cliente_id, cliente)) eqn:Hcumple.
  - rewrite !andb_true_r in *.
    pose proof (Hresto (resultados ++ [(cliente_id, cliente)])) as Hr.
    rewrite <- app_assoc in Hr. simpl in Hr.
    apply cumple_criterio in Hcumple.
    destruct (bool_decide (criterio = "numero")) eqn:E1; [exact Hr|].
    rewrite (bind_Ok _ _ _ _ _ H2).
    destruct (bool_decide (criterio = "id")) eqn:E2; [exact Hr|].
    rewrite (bind_Ok _ _ _ _ _ H3).
    destruct (bool_decide (criterio = "nombre")) eqn:E3; [exact Hr|].
    apply bool_decide_eq_false in E1, E2, E3.
    repeat (apply elem_of_cons in Hcumple as [?|Hcumple]; [done|]).
    by apply elem_of_nil in Hcumple.
  - rewrite !andb_false_r in *.
    rewrite (bind_Ok _ _ _ _ _ H2), (bind_Ok _ _ _ _ _ H3). apply Hresto.
Qed.

Lemma listdir_run st : listdir st = (Ok (map_to_list (archivos st)).*1, st).
Proof. reflexivity. Qed.

Lemma buscar_clientes_run criterio valor st :
  se_cargan (archivos st) (map_to_list (archivos st)).*1 →
  (criterio ∈ ["numero"; "nombre"] →
   Forall (λ p, es_registro p.2 = true) (registros_cargados (archivos st))) →
  ∃ st',
    buscar_clientes criterio valor st = (Ok (find criterio valor (archivos st)), st')
    ∧ salvo_bitacora st st'.
Proof.
  intros Hcargan Hreg. unfold buscar_clientes.
  rewrite (bind_Ok _ _ _ _ _ (listdir_run _)).
  destruct (buscar_en_run criterio valor (map_to_list (archivos st)).*1 [] st Hcargan Hreg)
    as (st' & Hrun & Hst').
  exists st'. by rewrite Hrun.
Qed.

(** A loaded record is the JSON document of the file of its identifier. *)
Lemma registros_cargados_archivo fs cliente_id cliente :
  (cliente_id, cliente) ∈ registros_cargados fs →
  fs !! archivo_de cliente_id = Some (Json cliente)
  ∧ nombre_valido (archivo_de cliente_id) = true
  ∧ Py.truth cliente = true
  ∧ cargado fs cliente_id = cliente.
Proof.
  unfold registros_cargados. rewrite list_elem_of_omap.
  intros (archivo & _ & Hr). unfold registro_de in Hr.
  destruct (es_archivo_cliente archivo); [|done].
  destruct (Py.truth (cargado fs (id_de_archivo archivo))) eqn:Ht; [|done].
  injection Hr as <- <-. split_and!; [| |done..].
  - unfold cargado in *. destruct (existe fs _); [|done].
    by destruct (fs !! _) as [[]|].
  - unfold cargado, existe in *.
    by destruct (nombre_valido _).
Qed.

Lemma elem_of_find criterio valor fs p :
  p ∈ find criterio valor fs ↔
  p ∈ registros_cargados fs ∧ cumple criterio valor p = true.
Proof. unfold find. by rewrite !list_elem_of_In, filter_In. Qed.


(** The loop also passes over a file that loads to an empty document, even
    when the search is by its identifier: the guard [if cliente:] takes it
    for a failed load. *)
Lemma buscar_clientes_documento_vacio :
  cargar_cliente "X" estado_documento_vacio = (Ok (JObj []), estado_documento_vacio)
  ∧ buscar_clientes "id" "X" estado_documento_vacio = (Ok [], estado_documento_vacio).
Proof. split; by vm_compute. Qed.



Lemma legible_estado_ejemplo : legible (archivos estado_ejemplo).
Proof.
  unfold legible, estado_ejemplo. simpl.
  repeat (apply map_Forall_insert_2; [done|]). apply map_Forall_empty.
Qed.

Lemma estado_ejemplo_ascii :
  Forall (λ p, json_ascii p.2 = true) (registros_cargados (archivos estado_ejemplo)).
Proof. vm_compute. repeat constructor. Qed.


(** ** Create *)

Lemma input_run prompt st l resto :
  entrada st = l :: resto → input prompt st = (Ok l, con_entrada resto st).
Proof. intros H. unfold input. by rewrite H. Qed.

Lemma print_run l st : print l st = (Ok (), con_salida (salida st ++ [l]) st).
Proof. reflexivity. Qed.

(** C4. A create whose answers fail a validation (empty given name, empty
    family name, type that is neither allowed value after capitalisation,
    contact that is neither a telephone number nor an e-mail address) ends
    normally after printing one validation message, and leaves the directory,
    hence its number of entries and the counter file, the counter in memory,
    the dictionary and the log as they were. *)
Theorem crear_cliente_validacion st nombre apellido tipo contacto resto :
  entrada st = nombre :: apellido :: tipo :: contacto :: resto →
  validacion_falla nombre apellido tipo contacto = true →
  ∃ mensaje st',
    crear_cliente st = (Ok (), st')
    ∧ mensaje ∈ mensajes_de_validacion
    ∧ salida st' = salida st ++ [Linea mensaje]
    ∧ archivos st' = archivos st
    ∧ size (archivos st') = size (archivos st)
    ∧ archivos st' !! CONTADOR_FILE = archivos st !! CONTADOR_FILE
    ∧ CONTADOR_CLIENTE st' = CONTADOR_CLIENTE st
    ∧ clientes st' = clientes st
    ∧ bitacora st' = bitacora st.
Proof.
  intros Hent Hfalla. unfold crear_cliente.
  match goal with |- context [intentar ?m ?h] => set (cuerpo := m); set (manejador := h) end.
  cut (∃ mensaje r, cuerpo st = (Ok (), con_salida (salida st ++ [Linea mensaje])
                                          (con_entrada r st))
                    ∧ mensaje ∈ mensajes_de_validacion).
  { intros (mensaje & r & Hrun & Hm). exists mensaje. eexists.
    rewrite (intentar_Ok _ _ _ _ _ Hrun). by split_and!. }
  unfold cuerpo, validacion_falla, mensajes_de_validacion in *. clear cuerpo manejador.
  rewrite (bind_Ok _ _ _ _ _ (input_run _ _ _ _ Hent)).
  destruct (decide (PyStr.strip nombre = "")) as [Hn|Hn].
  { eexists _, _. split; [reflexivity|]. set_solver. }
  match goal with
  | |- context [mbind ?k (input ?p) ?st] =>
      rewrite (bind_Ok (input p) k st _ _ (input_run p st _ _ eq_refl))
  end.
  destruct (decide (PyStr.strip apellido = "")) as [Ha|Ha].
  { eexists _, _. split; [reflexivity|]. set_solver. }
  rewrite (bool_decide_eq_false_2 _ Hn), (bool_decide_eq_false_2 _ Ha) in Hfalla.
  simpl in Hfalla.
  match goal with |- context [mbind _ (generate_unique_id ?n ?a) ?s] =>
    destruct (generate_unique_id_run s n a Hn) as (k & Hid & _) end.
  rewrite (bind_Ok _ _ _ _ _ Hid).
  match goal with
  | |- context [mbind ?k (input ?p) ?st] =>
      rewrite (bind_Ok (input p) k st _ _ (input_run p st _ _ eq_refl))
  end.
  destruct (bool_decide (PyStr.capitalize (PyStr.strip tipo) ∈ ["Persona"; "Negocio"]));
    simpl in *.
  2:{ eexists _, _. split; [reflexivity|]. set_solver. }
  match goal with
  | |- context [mbind ?k (input ?p) ?st] =>
      rewrite (bind_Ok (input p) k st _ _ (input_run p st _ _ eq_refl))
  end.
  apply negb_true_iff, orb_false_iff in Hfalla as [Htel Hmail].
  rewrite Htel, Hmail.
  unfold mbind at 1, M_bind at 1, mret at 1, M_ret at 1. simpl.
  eexists _, _. split; [reflexivity|]. set_solver.
Qed.

Lemma crear_cliente_validacion_witness :
  entrada (con_entrada ["Juan"; "Perez"; "Persona"; "notanemail"] estado_inicial)
  = ["Juan"; "Perez"; "Persona"; "notanemail"]
  ∧ validacion_falla "Juan" "Perez" "Persona" "notanemail" = true
  ∧ ∃ mensaje st',
      crear_cliente (con_entrada ["Juan"; "Perez"; "Persona"; "notanemail"] estado_inicial)
      = (Ok (), st')
      ∧ salida st' = [Linea mensaje]
      ∧ archivos st' = archivos estado_inicial.
Proof.
  assert (validacion_falla "Juan" "Perez" "Persona" "notanemail" = true) as H
    by (by vm_compute).
  split; [reflexivity|]. split; [exact H|].
  destruct (crear_cliente_validacion
              (con_entrada ["Juan"; "Perez"; "Persona"; "notanemail"] estado_inicial)
              "Juan" "Perez" "Persona" "notanemail" [] eq_refl H)
    as (mensaje & st' & Hrun & _ & Hsal & Hfs & _).
  exists mensaje, st'. split_and!; [exact Hrun|exact Hsal|exact Hfs].
Defined.

(** *** What a search that returns has found *)

Lemma pruebas_estado criterio valor cliente_id cliente st :
  (prueba_numero criterio valor cliente st).2 = st
  ∧ (prueba_id criterio valor cliente_id st).2 = st
  ∧ (prueba_nombre criterio valor cliente st).2 = st.
Proof.
  unfold prueba_numero, prueba_id, prueba_nombre, lift, mbind, M_bind.
  split_and!.
  - case_decide; [|done].
    destruct (Py.get_o_vacio _ _) as [n|]; [|done]. by destruct (Py.lower n).
  - done.
  - case_decide; [|done].
    destruct (Py.item "nombre" _); [|done]. by destruct (Py.item "apellido" _).
Qed.

Lemma buscar_en_inv criterio valor dir : ∀ resultados st encontrados st',
  buscar_en criterio valor dir resultados st = (Ok encontrados, st') →
  salvo_bitacora st st'
  ∧ ∃ nuevos,
      encontrados = resultados ++ nuevos
      ∧ ∀ p, p ∈ nuevos → p ∈ omap (registro_de (archivos st)) dir.
Proof.
  induction dir as [|archivo resto IH]; intros resultados st encontrados st' Hrun.
  { injection Hrun as <- <-. split; [apply salvo_bitacora_refl|].
    exists []. by rewrite app_nil_r. }
  simpl buscar_en in Hrun. simpl omap. unfold registro_de at 1.
  destruct (es_archivo_cliente archivo); [|by apply IH].
  destruct (cargable (archivos st) (id_de_archivo archivo)) eqn:Hcarga.
  2:{ apply cargar_cliente_ilegible in Hcarga as (i & _ & Hraise).
      by rewrite (bind_Raise _ _ _ _ _ Hraise) in Hrun. }
  rewrite (bind_Ok _ _ _ _ _ (cargar_cliente_run _ _ Hcarga)) in Hrun.
  set (cliente_id := id_de_archivo archivo) in *.
  set (cliente := cargado (archivos st) cliente_id) in *.
  set (st1 := tras_cargar cliente_id st) in *.
  assert (archivos st1 = archivos st) as Hfs by apply tras_cargar_archivos.
  assert (salvo_bitacora st st1) as Hst1 by apply salvo_bitacora_tras_cargar.
  assert (∀ res,
    buscar_en criterio valor resto res st1 = (Ok encontrados, st') →
    salvo_bitacora st st'
    ∧ ∃ nuevos, encontrados = res ++ nuevos
        ∧ ∀ p, p ∈ nuevos → p ∈ omap (registro_de (archivos st)) resto) as Hresto.
  { intros res Hres. apply IH in Hres as (Hst' & nuevos & -> & Hn).
    split; [by eapply salvo_bitacora_trans|]. exists nuevos. by rewrite <- Hfs. }
  destruct (Py.truth cliente); [|by apply Hresto].
  assert (
    buscar_en criterio valor resto (resultados ++ [(cliente_id, cliente)]) st1
    = (Ok encontrados, st') →
    salvo_bitacora st st'
    ∧ ∃ nuevos, encontrados = resultados ++ nuevos
        ∧ ∀ p, p ∈ nuevos →
               p ∈ (cliente_id, cliente) :: omap (registro_de (archivos st)) resto)
    as Hcon.
  { intros Hres. apply Hresto in Hres as (Hst' & nuevos & -> & Hn).
    split; [done|]. exists ((cliente_id, cliente) :: nuevos).
    rewrite <- app_assoc. split; [done|].
    intros p [->|Hp]%elem_of_cons; [left|right; by apply Hn]. }
  assert (
    buscar_en criterio valor resto resultados st1 = (Ok encontrados, st') →
    salvo_bitacora st st'
    ∧ ∃ nuevos, encontrados = resultados ++ nuevos
        ∧ ∀ p, p ∈ nuevos →
               p ∈ (cliente_id, cliente) :: omap (registro_de (archivos st)) resto)
    as Hsin.
  { intros Hres. apply Hresto in Hres as (Hst' & nuevos & -> & Hn).
    split; [done|]. exists nuevos. split; [done|]. intros p Hp. right. by apply Hn. }
  destruct (pruebas_estado criterio valor cliente_id cliente st1) as (E1 & E2 & E3).
  unfold mbind at 1, M_bind at 1 in Hrun.
  destruct (prueba_numero criterio valor cliente st1) as [[[]|] s1];
    simpl in E1; subst s1; [by apply Hcon| |done].
  unfold mbind at 1, M_bind at 1 in Hrun.
  destruct (prueba_id criterio valor cliente_id st1) as [[[]|] s2];
    simpl in E2; subst s2; [by apply Hcon| |done].
  unfold mbind at 1, M_bind at 1 in Hrun.
  destruct (prueba_nombre criterio valor cliente st1) as [[[]|] s3];
    simpl in E3; subst s3; [by apply Hcon|by apply Hsin|done].
Qed.

(** A search that returns has met no file beyond [json.load]. *)
Lemma buscar_en_se_cargan criterio valor dir : ∀ resultados st encontrados st',
  buscar_en criterio valor dir resultados st = (Ok encontrados, st') →
  se_cargan (archivos st) dir.
Proof.
  unfold se_cargan.
  induction dir as [|archivo resto IH]; intros resultados st encontrados st' Hrun;
    [by apply Forall_nil|].
  simpl buscar_en in Hrun. apply Forall_cons.
  destruct (es_archivo_cliente archivo); [|split; [done|by eapply IH]].
  destruct (cargable (archivos st) (id_de_archivo archivo)) eqn:Hcarga.
  2:{ apply cargar_cliente_ilegible in Hcarga as (i & _ & Hraise).
      by rewrite (bind_Raise _ _ _ _ _ Hraise) in Hrun. }
  split; [done|].
  rewrite (bind_Ok _ _ _ _ _ (cargar_cliente_run _ _ Hcarga)) in Hrun.
  set (cliente_id := id_de_archivo archivo) in *.
  set (cliente := cargado (archivos st) cliente_id) in *.
  set (st1 := tras_cargar cliente_id st) in *.
  rewrite <- (tras_cargar_archivos cliente_id st). fold st1.
  destruct (Py.truth cliente); [|by eapply IH].
  destruct (pruebas_estado criterio valor cliente_id cliente st1) as (E1 & E2 & E3).
  unfold mbind at 1, M_bind at 1 in Hrun.
  destruct (prueba_numero criterio valor cliente st1) as [[[]|] s1];
    simpl in E1; subst s1; [by eapply IH| |done].
  unfold mbind at 1, M_bind at 1 in Hrun.
  destruct (prueba_id criterio valor cliente_id st1) as [[[]|] s2];
    simpl in E2; subst s2; [by eapply IH| |done].
  unfold mbind at 1, M_bind at 1 in Hrun.
  destruct (prueba_nombre criterio valor cliente st1) as [[[]|] s3];
    simpl in E3; subst s3; [by eapply IH|by eapply IH|done].
Qed.

Lemma se_cargan_listado fs :
  se_cargan fs (map_to_list fs).*1 ↔
  ∀ f, is_Some (fs !! f) → es_archivo_cliente f = true →
       cargable fs (id_de_archivo f) = true.
Proof.
  unfold se_cargan. rewrite Forall_forall. split.
  - intros H f [c Hc] Hf. apply H; [|done].
    apply list_elem_of_fmap. exists (f, c). split; [done|].
    by apply elem_of_map_to_list.
  - intros H f ([f' c] & -> & Hin)%list_elem_of_fmap Hf.
    apply elem_of_map_to_list in Hin. apply H; [by eexists|done].
Qed.

Lemma se_cargan_delete fs f :
  se_cargan fs (map_to_list fs).*1 →
  se_cargan (delete f fs) (map_to_list (delete f fs)).*1.
Proof.
  rewrite !se_cargan_listado. intros H g [c Hg] Hcliente.
  apply lookup_delete_Some in Hg as [_ Hg].
  apply cargable_delete, H; [by eexists|done].
Qed.

Lemma buscar_clientes_se_cargan criterio valor st encontrados st' :
  buscar_clientes criterio valor st = (Ok encontrados, st') →
  se_cargan (archivos st) (map_to_list (archivos st)).*1.
Proof.
  unfold buscar_clientes. rewrite (bind_Ok _ _ _ _ _ (listdir_run _)).
  apply buscar_en_se_cargan.
Qed.

(** The clients that a search returns are loaded records of the directory,
    and the search changes nothing but the log. *)
Lemma buscar_clientes_inv criterio valor st encontrados st' :
  buscar_clientes criterio valor st = (Ok encontrados, st') →
  salvo_bitacora st st'
  ∧ ∀ p, p ∈ encontrados → p ∈ registros_cargados (archivos st).
Proof.
  unfold buscar_clientes. rewrite (bind_Ok _ _ _ _ _ (listdir_run _)).
  intros (Hst' & nuevos & -> & Hn)%buscar_en_inv. by split.
Qed.

(** ** The search that opens read, update and delete *)

Lemma criterio_de_Some seleccion criterio :
  criterio_de seleccion = Some criterio →
  (seleccion = "1" ∧ criterio = "numero")
  ∨ (seleccion = "2" ∧ criterio = "id")
  ∨ (seleccion = "3" ∧ criterio = "nombre").
Proof. unfold criterio_de. repeat case_decide; naive_solver. Qed.

Lemma con_entrada_archivos e st : archivos (con_entrada e st) = archivos st.
Proof. reflexivity. Qed.

Lemma buscar_por_Ok seleccion criterio p1 p2 p3 valor resto st encontrados st' :
  criterio_de seleccion = Some criterio →
  entrada st = valor :: resto →
  buscar_clientes criterio (PyStr.strip valor) (con_entrada resto st)
  = (Ok encontrados, st') →
  buscar_por seleccion p1 p2 p3 st = (Ok (Some encontrados), st').
Proof.
  intros Hc Hent Hrun. unfold buscar_por.
  apply criterio_de_Some in Hc as [[-> ->]|[[-> ->]|[-> ->]]]; simpl;
    rewrite (bind_Ok _ _ _ _ _ (input_run _ _ _ _ Hent));
    by rewrite (bind_Ok _ _ _ _ _ Hrun).
Qed.

Lemma por_cada_candidato l : ∀ st,
  Forall (λ p, es_registro p.2 = true) l →
  por_cada linea_candidato l st
  = (Ok (), con_salida (salida st ++ (texto_candidato <$> l)) st).
Proof.
  induction l as [|[cliente_id cliente] l IH]; intros st Hl.
  - simpl. unfold mret, M_ret. destruct st. unfold con_salida. simpl.
    by rewrite app_nil_r.
  - apply Forall_cons in Hl as [Hp Hl]. simpl in Hp.
    simpl por_cada. unfold linea_candidato at 1.
    assert ((numero ← campo "numero_cliente" cliente;
             print (Linea ("ID: " +:+ cliente_id +:+ ", Número: " +:+ numero))) st
            = (Ok (), con_salida (salida st ++ [texto_candidato (cliente_id, cliente)]) st))
      as Hlinea.
    { rewrite (bind_Ok _ _ _ _ _ (campo_run "numero_cliente" _ _ Hp (en_campos "numero_cliente" eq_refl))).
      reflexivity. }
    rewrite (bind_Ok _ _ _ _ _ Hlinea), IH by done.
    destruct st. unfold con_salida. simpl. by rewrite <- app_assoc.
Qed.

(** ** Update *)

Lemma dict_get_set_eq k v d : Py.dict_get k (Py.dict_set k v d) = Some v.
Proof.
  induction d as [|[k' v'] d IH]; simpl.
  - by rewrite decide_True.
  - destruct (decide (k = k')) as [->|Hk]; simpl.
    + by rewrite decide_True.
    + by rewrite decide_False.
Qed.

Lemma dict_get_set_ne k k' v d :
  k ≠ k' → Py.dict_get k' (Py.dict_set k v d) = Py.dict_get k' d.
Proof.
  intros Hk. induction d as [|[k'' v''] d IH]; simpl.
  - by rewrite decide_False.
  - destruct (decide (k = k'')) as [->|Hk'']; simpl.
    + by rewrite !decide_False by done.
    + destruct (decide (k' = k'')); [done|]. apply IH.
Qed.

Lemma append_en_registro servicio cliente :
  es_registro cliente = true →
  Py.append_en "servicios" (JStr servicio) cliente = Ok (con_servicio servicio cliente).
Proof.
  intros (d & l & -> & Hl & _ & _)%es_registro_JObj. simpl. by rewrite Hl.
Qed.



Lemma es_registro_con_servicio servicio cliente :
  es_registro cliente = true → es_registro (con_servicio servicio cliente) = true.
Proof.
  intros Hreg. pose proof Hreg as (d & l & -> & Hl & Hfl & Hk)%es_registro_JObj.
  unfold con_servicio, servicios_de. rewrite Hl.
  unfold es_registro in *. unfold tiene_texto in *.
  rewrite dict_get_set_eq, !dict_get_set_ne by done.
  rewrite Hl in Hreg. apply andb_true_iff in Hreg as [-> _].
  by rewrite forallb_app, Hfl.
Qed.



(** ** Delete *)

Lemma find_id_borrado (fs : gmap string contenido) cliente_id :
  find "id" cliente_id (delete (archivo_de cliente_id) fs) = [].
Proof.
  apply elem_of_nil_inv. intros [id v] [Hin Hc]%elem_of_find.
  unfold cumple in Hc. simpl in Hc. apply bool_decide_eq_true in Hc. subst id.
  apply registros_cargados_archivo in Hin as [Hin _].
  by rewrite lookup_delete_eq in Hin.
Qed.

Lemma remove_run nombre c st :
  nombre_valido nombre = true → archivos st !! nombre = Some c →
  remove nombre st = (Ok (), con_archivos (delete nombre (archivos st)) st).
Proof. intros Hv Hc. unfold remove. by rewrite Hv, Hc. Qed.

(** C6. A delete whose search finds exactly one record removes the file of
    its identifier and the entry of the identifier in the dictionary, and
    reports it; a search by that identifier afterwards returns the empty
    list.  A delete whose search finds nothing says so, one whose search
    finds several records prints the ambiguity notice with the candidates;
    both leave the directory and the dictionary as they were. *)
Theorem eliminar_cliente_correcto st seleccion criterio valor resto encontrados st_b :
  entrada st = seleccion :: valor :: resto →
  criterio_de (PyStr.strip seleccion) = Some criterio →
  buscar_clientes criterio (PyStr.strip valor) (con_entrada resto st)
  = (Ok encontrados, st_b) →
  Forall (λ p, es_registro p.2 = true) encontrados →
  ∃ st',
    eliminar_cliente st = (Ok (), st')
    ∧ match encontrados with
      | [] =>
          salida st' = salida st ++ [Linea "No se encontraron clientes con ese criterio."]
          ∧ archivos st' = archivos st
          ∧ clientes st' = clientes st
      | [(cliente_id, cliente)] =>
          archivos st' = delete (archivo_de cliente_id) (archivos st)
          ∧ archivos st' !! archivo_de cliente_id = None
          ∧ clientes st' = delete cliente_id (clientes st)
          ∧ clientes st' !! cliente_id = None
          ∧ salida st'
            = salida st
              ++ [Linea ("Cliente " +:+ cliente_id +:+ " (Número: "
                         +:+ texto "numero_cliente" cliente +:+ ") eliminado.")]
          ∧ ∃ st'', buscar_clientes "id" cliente_id st' = (Ok [], st'')
      | _ =>
          salida st'
          = salida st
            ++ lineas_ambiguedad
                 "Múltiples clientes encontrados. Por favor, use el Número de Cliente o ID para mayor precisión:"
                 encontrados
          ∧ archivos st' = archivos st
          ∧ clientes st' = clientes st
      end.
Proof.
  intros Hent Hc Hbuscar Hreg. unfold eliminar_cliente.
  rewrite (bind_Ok _ _ _ _ _ (input_run _ _ _ _ Hent)).
  pose proof (buscar_clientes_se_cargan _ _ _ _ _ Hbuscar) as Hcargan.
  rewrite con_entrada_archivos in Hcargan.
  pose proof (buscar_clientes_inv _ _ _ _ _ Hbuscar) as [[b ->] Hsub].
  match goal with |- context [mbind _ (buscar_por _ ?p1 ?p2 ?p3) ?s] =>
    rewrite (bind_Ok _ _ _ _ _
               (buscar_por_Ok (PyStr.strip seleccion) criterio p1 p2 p3 valor
                  resto s _ _ Hc eq_refl Hbuscar))
  end.
  clear Hbuscar. rewrite con_entrada_archivos in Hsub.
  destruct encontrados as [|[cliente_id cliente] [|p2 encontrados]].
  - eexists. split; [reflexivity|]. done.
  - apply Forall_cons in Hreg as [Hcliente _]. simpl in Hcliente.
    destruct (registros_cargados_archivo (archivos st) cliente_id cliente)
      as (Harchivo & Hvalido & _); [apply Hsub; left|].
    rewrite (bind_Ok _ _ _ _ _ (path_exists_run _ _)).
    assert (existe (archivos st) (archivo_de cliente_id) = true) as Hexiste.
    { unfold existe. by rewrite Hvalido, Harchivo. }
    cbn [archivos con_bitacora con_entrada]. rewrite Hexiste.
    match goal with |- context [intentar ?m ?h] => set (cuerpo := m); set (manejador := h) end.
    assert (∃ st', cuerpo
      (con_bitacora (bitacora (con_entrada resto st) ++ b) (con_entrada resto st))
      = (Ok (), st')
      ∧ archivos st' = delete (archivo_de cliente_id) (archivos st)
      ∧ clientes st' = delete cliente_id (clientes st)
      ∧ salida st' = salida st
              ++ [Linea ("Cliente " +:+ cliente_id +:+ " (Número: "
                         +:+ texto "numero_cliente" cliente +:+ ") eliminado.")])
      as (st' & Hrun & Hfs & Hcl & Hsal).
    { unfold cuerpo.
      match goal with |- context [mbind _ (remove _) ?s] =>
        rewrite (bind_Ok _ _ _ _ _
                   (remove_run (archivo_de cliente_id) (Json cliente) s Hvalido Harchivo))
      end.
      unfold mbind at 1, M_bind at 1, leer_estado. simpl clientes.
      destruct (bool_decide (is_Some (clientes st !! cliente_id))) eqn:Hcache.
      - unfold mbind at 1, M_bind at 1, modificar_estado.
        unfold mbind at 1, M_bind at 1. unfold mbind at 1, M_bind at 1, info.
        rewrite (bind_Ok _ _ _ _ _ (campo_run "numero_cliente" _ _ Hcliente
                                      (en_campos "numero_cliente" eq_refl))).
        eexists. split; [reflexivity|]. done.
      - unfold mbind at 1, M_bind at 1, mret at 1, M_ret at 1.
        unfold mbind at 1, M_bind at 1. unfold mbind at 1, M_bind at 1, info.
        rewrite (bind_Ok _ _ _ _ _ (campo_run "numero_cliente" _ _ Hcliente
                                      (en_campos "numero_cliente" eq_refl))).
        eexists. split; [reflexivity|]. simpl. split_and!; [done| |done].
        apply bool_decide_eq_false in Hcache.
        symmetry. apply delete_id. by apply eq_None_not_Some. }
    exists st'. rewrite (intentar_Ok _ _ _ _ _ Hrun).
    split; [done|]. split_and!; [done| |done| |done|].
    + rewrite Hfs. apply lookup_delete_eq.
    + rewrite Hcl. apply lookup_delete_eq.
    + destruct (buscar_clientes_run "id" cliente_id st') as (st'' & Hb & _).
      { rewrite Hfs. by apply se_cargan_delete. }
      { intros Hno. repeat (apply elem_of_cons in Hno as [?|Hno]; [done|]).
        by apply elem_of_nil in Hno. }
      exists st''. by rewrite Hb, Hfs, find_id_borrado.
  - rewrite (bind_Ok _ _ _ _ _ (print_run _ _)).
    rewrite por_cada_candidato by done.
    eexists. split; [reflexivity|]. simpl. split; [|done].
    by rewrite <- app_assoc.
Qed.

Lemma eliminar_cliente_correcto_witness :
  entrada (con_entrada ["1"; "c002"] estado_ejemplo) = ["1"; "c002"]
  ∧ criterio_de (PyStr.strip "1") = Some "numero"
  ∧ (∃ st_b,
       buscar_clientes "numero" (PyStr.strip "c002")
         (con_entrada [] (con_entrada ["1"; "c002"] estado_ejemplo))
       = (Ok [("CD_20250602", registro_ejemplo_2)], st_b))
  ∧ Forall (λ p, es_registro p.2 = true) [("CD_20250602", registro_ejemplo_2)]
  ∧ ∃ st',
      eliminar_cliente (con_entrada ["1"; "c002"] estado_ejemplo) = (Ok (), st')
      ∧ archivos st' !! archivo_de "CD_20250602" = None
      ∧ ∃ st'', buscar_clientes "id" "CD_20250602" st' = (Ok [], st'').
Proof.
  assert (∃ st_b,
            buscar_clientes "numero" (PyStr.strip "c002")
              (con_entrada [] (con_entrada ["1"; "c002"] estado_ejemplo))
            = (Ok [("CD_20250602", registro_ejemplo_2)], st_b)) as [st_b Hbuscar].
  { eexists. by vm_compute. }
  assert (Forall (λ p, es_registro p.2 = true) [("CD_20250602", registro_ejemplo_2)])
    as Hreg by (by repeat constructor).
  split; [reflexivity|]. split; [reflexivity|]. split; [by exists st_b|].
  split; [exact Hreg|].
  destruct (eliminar_cliente_correcto
              (con_entrada ["1"; "c002"] estado_ejemplo)
              "1" "numero" "c002" [] _ st_b eq_refl eq_refl
              Hbuscar Hreg) as (st' & Hrun & Hcaso).
  exists st'. split; [exact Hrun|].
  destruct Hcaso as (_ & Hborrado & _ & _ & _ & Hbuscar').
  split; [exact Hborrado|exact Hbuscar'].
Defined.

(** ** List *)

Lemma campo_servicios_run v st :
  es_registro v = true →
  campo "servicios" v st = (Ok (Py.str (JList (servicios_de v))), st).
Proof.
  intros (d & l & -> & Hl & _ & _)%es_registro_JObj.
  unfold campo, lift, mbind, M_bind. simpl. by rewrite Hl.
Qed.

Lemma linea_listado_run archivo st :
  (es_archivo_cliente archivo = true →
   cargable (archivos st) (id_de_archivo archivo) = true) →
  (∀ p, registro_de (archivos st) archivo = Some p → es_registro p.2 = true) →
  ∃ b,
    linea_listado archivo st
    = (Ok (),
       con_bitacora (bitacora st ++ b)
         (con_salida
            (salida st ++ (texto_listado <$> option_list (registro_de (archivos st) archivo)))
            st)).
Proof.
  intros Hcarga Hreg. unfold linea_listado, registro_de in *.
  destruct (es_archivo_cliente archivo).
  2:{ exists []. simpl. unfold mret, M_ret. destruct st. unfold con_bitacora, con_salida.
      simpl. by rewrite !app_nil_r. }
  rewrite (bind_Ok _ _ _ _ _ (cargar_cliente_run _ _ (Hcarga eq_refl))).
  destruct (salvo_bitacora_tras_cargar (id_de_archivo archivo) st) as [b Hb].
  rewrite Hb. exists b.
  destruct (Py.truth (cargado (archivos st) (id_de_archivo archivo))).
  2:{ simpl. unfold mret, M_ret. destruct st. unfold con_bitacora, con_salida.
      simpl. by rewrite !app_nil_r. }
  specialize (Hreg _ eq_refl). simpl in Hreg.
  rewrite (bind_Ok _ _ _ _ _ (campo_run "numero_cliente" _ _ Hreg (en_campos "numero_cliente" eq_refl))).
  rewrite (bind_Ok _ _ _ _ _ (campo_run "nombre" _ _ Hreg (en_campos "nombre" eq_refl))).
  rewrite (bind_Ok _ _ _ _ _ (campo_run "apellido" _ _ Hreg (en_campos "apellido" eq_refl))).
  rewrite (bind_Ok _ _ _ _ _ (campo_run "tipo" _ _ Hreg (en_campos "tipo" eq_refl))).
  rewrite (bind_Ok _ _ _ _ _ (campo_run "contacto" _ _ Hreg (en_campos "contacto" eq_refl))).
  rewrite (bind_Ok _ _ _ _ _ (campo_servicios_run _ _ Hreg)).
  reflexivity.
Qed.

(** The loop of [listar_clientes] prints one summary line for each loaded
    record of the listing, in order, and nothing else. *)
Lemma por_cada_listado dir : ∀ st,
  se_cargan (archivos st) dir →
  Forall (λ p, es_registro p.2 = true) (omap (registro_de (archivos st)) dir) →
  ∃ b,
    por_cada linea_listado dir st
    = (Ok (),
       con_bitacora (bitacora st ++ b)
         (con_salida
            (salida st ++ (texto_listado <$> omap (registro_de (archivos st)) dir)) st)).
Proof.
  unfold se_cargan.
  induction dir as [|archivo resto IH]; intros st Hcargan Hreg.
  { exists []. simpl. unfold mret, M_ret. destruct st. unfold con_bitacora, con_salida.
    simpl. by rewrite !app_nil_r. }
  apply Forall_cons in Hcargan as [Hcarga Hcargan].
  simpl in Hreg. simpl por_cada.
  destruct (linea_listado_run archivo st Hcarga) as [b1 Hlinea].
  { intros p Hp. rewrite Hp in Hreg. by apply Forall_cons in Hreg as [? _]. }
  rewrite (bind_Ok _ _ _ _ _ Hlinea).
  edestruct (IH (con_bitacora (bitacora st ++ b1)
              (con_salida (salida st ++ (texto_listado <$>
                 option_list (registro_de (archivos st) archivo))) st))) as [b2 Hresto].
  { done. }
  { simpl. destruct (registro_de (archivos st) archivo); [|done].
    by apply Forall_cons in Hreg as [_ ?]. }
  rewrite Hresto. exists (b1 ++ b2). simpl.
  destruct st. unfold con_bitacora, con_salida. simpl.
  rewrite <- !app_assoc. do 3 f_equal.
  by destruct (registro_de _ archivo).
Qed.

(** [listar_clientes] on a directory that has some entry: the notice of an
    empty directory is not printed, whatever the entries are. *)
Lemma listar_clientes_run st :
  archivos st ≠ ∅ →
  se_cargan (archivos st) (map_to_list (archivos st)).*1 →
  Forall (λ p, es_registro p.2 = true) (registros_cargados (archivos st)) →
  ∃ b,
    listar_clientes st
    = (Ok (),
       con_bitacora (bitacora st ++ b)
         (con_salida (salida st ++ (texto_listado <$> registros_cargados (archivos st))) st)).
Proof.
  intros Hfs Hcargan Hreg. unfold listar_clientes.
  rewrite (bind_Ok _ _ _ _ _ (listdir_run _)).
  rewrite bool_decide_eq_false_2.
  2:{ intros H. apply fmap_nil_inv, map_to_list_empty_iff in H. done. }
  rewrite (bind_Ok _ _ _ _ _ (listdir_run _)).
  by apply por_cada_listado.
Qed.

Lemma listar_clientes_vacio st :
  archivos st = ∅ →
  listar_clientes st
  = (Ok (), con_salida (salida st ++ [Linea "No hay clientes registrados."]) st).
Proof.
  intros Hfs. unfold listar_clientes.
  rewrite (bind_Ok _ _ _ _ _ (listdir_run _)).
  by rewrite Hfs, map_to_list_empty.
Qed.

(** The start-up code leaves the counter file in the directory, whatever it
    found there. *)
Lemma max_numero_archivos dir : ∀ max_num st n st',
  max_numero dir max_num st = (Ok n, st') → archivos st' = archivos st.
Proof.
  induction dir as [|f resto IH]; intros max_num st n st' Hrun; simpl in Hrun.
  { by injection Hrun as _ <-. }
  destruct (es_archivo_cliente f); [|by eapply IH].
  destruct (cargable (archivos st) (id_de_archivo f)) eqn:Hcarga.
  2:{ apply cargar_cliente_ilegible in Hcarga as (i & _ & Hraise).
      by rewrite (bind_Raise _ _ _ _ _ Hraise) in Hrun. }
  rewrite (bind_Ok _ _ _ _ _ (cargar_cliente_run _ _ Hcarga)) in Hrun.
  set (cliente := cargado (archivos st) (id_de_archivo f)) in *.
  set (st1 := tras_cargar (id_de_archivo f) st) in *.
  assert (archivos st1 = archivos st) as Hfs by apply tras_cargar_archivos.
  unfold mbind at 1, M_bind at 1 in Hrun.
  destruct (Py.truth cliente).
  - unfold lift at 1 in Hrun.
    destruct (Py.contiene_clave "numero_cliente" cliente) as [[]|]; [| |done].
    + unfold mbind at 1, M_bind at 1, lift at 1 in Hrun.
      destruct (Py.item "numero_cliente" cliente) as [v|]; [|done].
      unfold mbind at 1, M_bind at 1, lift at 1 in Hrun.
      destruct (Py.replace "C" "" v) as [s|]; [|done].
      destruct (PyStr.int s); [|done].
      apply IH in Hrun. congruence.
    + apply IH in Hrun. congruence.
  - unfold mret at 1, M_ret at 1 in Hrun. apply IH in Hrun. congruence.
Qed.

Lemma inicio_deja_contador st st' :
  inicio st = (Ok (), st') → is_Some (archivos st' !! CONTADOR_FILE).
Proof.
  unfold inicio. unfold mbind at 1, M_bind at 1, modificar_estado at 1.
  rewrite (bind_Ok _ _ _ _ _ (path_exists_run _ _)).
  cbn [archivos con_clientes].
  destruct (existe (archivos st) CONTADOR_FILE) eqn:He.
  - unfold existe in He. apply andb_true_iff in He as [_ He].
    apply bool_decide_eq_true in He as [c Hc].
    unfold mbind at 1, M_bind at 1, leer. rewrite nombre_valido_CONTADOR_FILE.
    cbn [archivos con_clientes]. rewrite Hc.
    unfold mbind, M_bind, modificar_estado.
    destruct (leer_int c _) as [[n|e] st1] eqn:Hn; [|done].
    intros [= <-]. cbn [archivos con_contador].
    assert (archivos st1 = archivos st) as ->; [|by eexists].
    unfold leer_int in Hn. destruct c as [[]|texto0|[]]; try (by injection Hn as _ <-).
    all: try discriminate Hn.
    destruct (PyStr.int (PyStr.strip texto0)); [by injection Hn as _ <-|discriminate Hn].
  - rewrite (bind_Ok _ _ _ _ _ (listdir_run _)).
    unfold mbind at 1, M_bind at 1.
    destruct (max_numero _ 0 _) as [[n|e] st1] eqn:Hmax; [|done].
    unfold mbind, M_bind, modificar_estado, escribir.
    rewrite nombre_valido_CONTADOR_FILE. intros [= <-].
    cbn [archivos con_archivos]. rewrite lookup_insert_eq. by eexists.
Qed.

(** C9. Right after the start-up code has run on a new directory, the
    directory holds the counter file and no client record; [listar_clientes]
    then ends without printing anything, although the notice "No hay clientes
    registrados." is what zero client records call for. *)
Theorem listar_clientes_sin_registros :
  inicio estado_nuevo = (Ok (), estado_inicial)
  ∧ registros_cargados (archivos estado_inicial) = []
  ∧ (map_to_list (archivos estado_inicial)).*1 = [CONTADOR_FILE]
  ∧ listar_clientes estado_inicial = (Ok (), estado_inicial)
  ∧ salida (listar_clientes estado_inicial).2 = [].
Proof. split_and!; by vm_compute. Qed.

(** In every state that the start-up code leaves, not only that of a new
    directory, the notice is out of reach: the counter file is an entry of
    the directory. *)
Lemma listar_clientes_tras_inicio st st' :
  inicio st = (Ok (), st') →
  legible (archivos st') →
  Forall (λ p, es_registro p.2 = true) (registros_cargados (archivos st')) →
  ∃ b,
    listar_clientes st'
    = (Ok (),
       con_bitacora (bitacora st' ++ b)
         (con_salida (salida st' ++ (texto_listado <$> registros_cargados (archivos st')))
            st')).
Proof.
  intros [c Hc]%inicio_deja_contador Hleg Hreg.
  apply listar_clientes_run; [|by apply legible_se_cargan|done].
  intros Hfs. by rewrite Hfs, lookup_empty in Hc.
Qed.

(** ** The dictionary [clientes] *)

Section IgnoraCache.
Context {A B : Type}.

Lemma ignora_mret (a : A) : ignora_cache (mret a).
Proof. by intros st c. Qed.

Lemma ignora_bind (m : M A) (k : A → M B) :
  ignora_cache m → (∀ a, ignora_cache (k a)) → ignora_cache (m ≫= k).
Proof.
  intros Hm Hk st c. unfold mbind, M_bind. rewrite Hm.
  destruct (m st) as [[a|e] st1]; simpl; [apply Hk|done].
Qed.

Lemma ignora_intentar (m : M A) h :
  ignora_cache m → (∀ e k, h e = Some k → ignora_cache k) →
  ignora_cache (intentar m h).
Proof.
  intros Hm Hh st c. unfold intentar. rewrite Hm.
  destruct (m st) as [[a|e] st1]; simpl; [done|].
  destruct (h e) as [k|] eqn:He; [by apply (Hh e)|done].
Qed.
End IgnoraCache.

Lemma ignora_por_cada {A : Type} (f : A → M unit) l :
  (∀ x, ignora_cache (f x)) → ignora_cache (por_cada f l).
Proof.
  intros Hf. induction l as [|x l IH]; simpl.
  - apply ignora_mret.
  - apply ignora_bind; [apply Hf|by intros _].
Qed.

(** A computation that is one primitive operation, or a [load] or a test of
    the search, ignores the dictionary by computation. *)
Ltac ignora_hoja :=
  solve [ intros ? ?;
          first [ reflexivity
                | unfold input, escribir, leer, load, lift, raise; simpl;
                  repeat case_match; reflexivity ] ].

(** Descends through conditionals and matches, leaving the binds, handlers
    and loops to [paso]. *)
Ltac descender paso :=
  repeat first
    [ progress intros
    | ignora_hoja
    | paso
    | match goal with
      | H : _ = Some _ |- _ => progress simplify_eq
      | H : match ?e with _ => _ end = Some _ |- _ => destruct e
      | |- ignora_cache (match ?x with _ => _ end) => destruct x
      | |- ignora_cache (let '(_, _) := ?p in _) => destruct p
      end ].

Lemma ignora_cargar_cliente cliente_id : ignora_cache (cargar_cliente cliente_id).
Proof.
  unfold cargar_cliente.
  descender ltac:(first [apply ignora_bind | apply ignora_intentar]).
Qed.

Lemma ignora_guardar_cliente cliente_id datos :
  ignora_cache (guardar_cliente cliente_id datos).
Proof.
  unfold guardar_cliente.
  descender ltac:(first [apply ignora_bind | apply ignora_intentar]).
Qed.

Lemma ignora_campo k v : ignora_cache (campo k v).
Proof. unfold campo. descender ltac:(apply ignora_bind). Qed.

Lemma ignora_buscar_en criterio valor dir :
  ∀ resultados, ignora_cache (buscar_en criterio valor dir resultados).
Proof.
  induction dir as [|archivo resto IH]; intros resultados; simpl.
  - apply ignora_mret.
  - unfold prueba_numero, prueba_id, prueba_nombre.
    descender ltac:(first [apply ignora_cargar_cliente | apply IH | apply ignora_bind]).
Qed.

Lemma ignora_buscar_clientes criterio valor :
  ignora_cache (buscar_clientes criterio valor).
Proof.
  unfold buscar_clientes. apply ignora_bind; [ignora_hoja|].
  intros dir. apply ignora_buscar_en.
Qed.

Lemma ignora_buscar_por criterio p1 p2 p3 : ignora_cache (buscar_por criterio p1 p2 p3).
Proof.
  unfold buscar_por.
  descender ltac:(first [apply ignora_buscar_clientes | apply ignora_bind]).
Qed.

Lemma ignora_leer_cliente : ignora_cache leer_cliente.
Proof.
  unfold leer_cliente, linea_lectura.
  descender ltac:(first [ apply ignora_buscar_por | apply ignora_campo
                        | apply ignora_por_cada | apply ignora_bind ]).
Qed.

Lemma ignora_modificar_cliente : ignora_cache modificar_cliente.
Proof.
  unfold modificar_cliente, linea_candidato.
  descender ltac:(first [ apply ignora_buscar_por | apply ignora_campo
                        | apply ignora_guardar_cliente
                        | apply ignora_por_cada | apply ignora_bind ]).
Qed.

Lemma ignora_listar_clientes : ignora_cache listar_clientes.
Proof.
  unfold listar_clientes, linea_listado.
  descender ltac:(first [ apply ignora_cargar_cliente | apply ignora_campo
                        | apply ignora_por_cada | apply ignora_bind ]).
Qed.

Lemma ignora_cache_mismo_efecto {A : Type} (m : M A) st c1 c2 :
  ignora_cache m →
  mismo_efecto (m (con_clientes c1 st)) (m (con_clientes c2 st))
  ∧ clientes (m (con_clientes c1 st)).2 = c1.
Proof. intros Hm. rewrite !Hm. by repeat split. Qed.

(** C10. Read, search, update and list do not depend on the dictionary
    [clientes]: started from two states that differ only in the dictionary,
    each returns the same result and leaves the same directory, output, log,
    counter, pending input and clock, and leaves the dictionary it was
    given. *)
Theorem clientes_no_se_lee st c1 c2 criterio valor :
  let st1 := con_clientes c1 st in
  let st2 := con_clientes c2 st in
  (mismo_efecto (leer_cliente st1) (leer_cliente st2)
   ∧ clientes (leer_cliente st1).2 = c1)
  ∧ (mismo_efecto (buscar_clientes criterio valor st1) (buscar_clientes criterio valor st2)
     ∧ clientes (buscar_clientes criterio valor st1).2 = c1)
  ∧ (mismo_efecto (modificar_cliente st1) (modificar_cliente st2)
     ∧ clientes (modificar_cliente st1).2 = c1)
  ∧ (mismo_efecto (listar_clientes st1) (listar_clientes st2)
     ∧ clientes (listar_clientes st1).2 = c1).
Proof.
  intros st1 st2. split; [|split; [|split]]; apply ignora_cache_mismo_efecto.
  - apply ignora_leer_cliente.
  - apply ignora_buscar_clientes.
  - apply ignora_modificar_cliente.
  - apply ignora_listar_clientes.
Qed.

(** * Further properties *)

(** ** The words of a pattern, and e-mail addresses *)

Lemma app_vacia s1 s2 : s1 +:+ s2 = "" → s1 = "" ∧ s2 = "".
Proof. by destruct s1, s2. Qed.

Lemma anulable_palabra r : Re.anulable r = true ↔ palabra r "".
Proof.
  split.
  - induction r as [| |p|r1 IH1 r2 IH2|r1 IH1 r2 IH2|r IH]; simpl; intros H;
      try discriminate.
    + constructor.
    + apply andb_true_iff in H as [H1 H2].
      change "" with ("" +:+ ""). constructor; auto.
    + apply orb_true_iff in H as [H|H];
        [apply palabra_Alt_l|apply palabra_Alt_r]; auto.
    + constructor.
  - intros H. remember "" as s eqn:Hs.
    induction H as [|p c Hc|r1 r2 s1 s2 H1 IH1 H2 IH2|r1 r2 s H IH|r1 r2 s H IH
                    |r|r s1 s2 H1 IH1 H2 IH2]; simpl; try done.
    + apply app_vacia in Hs as [-> ->]. by rewrite IH1, IH2.
    + by rewrite IH.
    + rewrite IH by done. apply orb_true_r.
Qed.

Lemma derivada_palabra c r : ∀ s,
  palabra (Re.derivada c r) s ↔ palabra r (String c s).
Proof.
  intros s. split.
  - revert s.
    induction r as [| |p|r1 IH1 r2 IH2|r1 IH1 r2 IH2|r IH]; simpl; intros s H.
    + inversion H.
    + inversion H.
    + destruct (p c) eqn:Hc; inversion H; subst. by constructor.
    + assert (∀ s, palabra (Re.Cat (Re.derivada c r1) r2) s →
                   palabra (Re.Cat r1 r2) (String c s)) as Hcat.
      { intros s0 H0. inversion H0 as [| |? ? s1 s2 Ha Hb| | | |]; subst.
        rewrite <- PyStrFacts.app_String. constructor; auto. }
      destruct (Re.anulable r1) eqn:Hn; [|by apply Hcat].
      inversion H as [| | |? ? ? Ha|? ? ? Hb| |]; subst; [by apply Hcat|].
      change (String c s) with ("" +:+ String c s).
      constructor; [by apply anulable_palabra|auto].
    + inversion H; subst; [apply palabra_Alt_l|apply palabra_Alt_r]; auto.
    + inversion H as [| |? ? s1 s2 Ha Hb| | | |]; subst.
      rewrite <- PyStrFacts.app_String. apply palabra_Estrella_S; auto.
  - intros H. remember (String c s) as cs eqn:Hcs. revert s Hcs.
    induction H as [|p c' Hc|r1 r2 s1 s2 H1 IH1 H2 IH2|r1 r2 s' H IH|r1 r2 s' H IH
                    |r|r s1 s2 H1 IH1 H2 IH2]; intros s Hcs; simpl.
    + discriminate.
    + injection Hcs as -> <-. rewrite Hc. constructor.
    + destruct s1 as [|c1 s1].
      * rewrite PyStrFacts.app_vacio_l in Hcs. subst s2.
        rewrite (proj2 (anulable_palabra r1) H1).
        apply palabra_Alt_r. by apply IH2.
      * rewrite PyStrFacts.app_String in Hcs. injection Hcs as -> <-.
        assert (palabra (Re.Cat (Re.derivada c r1) r2) (s1 +:+ s2)) as Hcat
          by (constructor; auto).
        destruct (Re.anulable r1); [by apply palabra_Alt_l|done].
    + apply palabra_Alt_l. by apply IH.
    + apply palabra_Alt_r. by apply IH.
    + discriminate.
    + destruct s1 as [|c1 s1].
      * rewrite PyStrFacts.app_vacio_l in Hcs. by apply IH2.
      * rewrite PyStrFacts.app_String in Hcs. injection Hcs as -> <-.
        constructor; auto.
Qed.

(** Matching by derivatives accepts the words of the pattern. *)
Lemma coincide_palabra r s : Re.coincide r s = true ↔ palabra r s.
Proof.
  revert r. induction s as [|c s IH]; intros r; simpl.
  - apply anulable_palabra.
  - rewrite IH. apply derivada_palabra.
Qed.

Lemma palabra_Cat_inv r1 r2 s :
  palabra (Re.Cat r1 r2) s ↔ ∃ s1 s2, s = s1 +:+ s2 ∧ palabra r1 s1 ∧ palabra r2 s2.
Proof.
  split.
  - intros H. inversion H; subst. eauto.
  - intros (s1 & s2 & -> & H1 & H2). by constructor.
Qed.

Lemma palabra_Clase_inv p s :
  palabra (Re.Clase p) s ↔ ∃ c, s = String c "" ∧ p c = true.
Proof.
  split.
  - intros H. inversion H; subst. eauto.
  - intros (c & -> & Hc). by constructor.
Qed.

Lemma palabra_Estrella_Clase p s :
  palabra (Re.Estrella (Re.Clase p)) s ↔ PyStr.todos p s = true.
Proof.
  split.
  - intros H. remember (Re.Estrella (Re.Clase p)) as r eqn:Hr.
    induction H as [| | | | | |r s1 s2 H1 _ H2 IH2]; try discriminate; [done|].
    injection Hr as ->. inversion H1; subst.
    rewrite PyStrFacts.app_String, PyStrFacts.app_vacio_l. simpl.
    rewrite IH2 by done. by rewrite andb_true_r.
  - induction s as [|c s IH]; simpl; intros H; [constructor|].
    apply andb_true_iff in H as [Hc Hs].
    change (String c s) with (String c "" +:+ s).
    constructor; [by constructor|auto].
Qed.

Lemma palabra_Mas_Clase p s :
  palabra (Re.Mas (Re.Clase p)) s ↔ s ≠ "" ∧ PyStr.todos p s = true.
Proof.
  unfold Re.Mas. rewrite palabra_Cat_inv. split.
  - intros (s1 & s2 & -> & (c & -> & Hc)%palabra_Clase_inv & H2%palabra_Estrella_Clase).
    split; [done|]. rewrite PyStrFacts.app_String, PyStrFacts.app_vacio_l. simpl.
    by rewrite Hc, H2.
  - intros [Hs H]. destruct s as [|c s]; [done|]. simpl in H.
    apply andb_true_iff in H as [Hc H].
    exists (String c ""), s. split; [done|]. split.
    + by constructor.
    + by apply palabra_Estrella_Clase.
Qed.

Lemma coincide_patron_email s :
  Re.coincide patron_email s = true ↔ forma_email s.
Proof.
  rewrite coincide_palabra. unfold patron_email, forma_email.
  rewrite palabra_Cat_inv. split.
  - intros (l & s1 & -> & Hl%palabra_Mas_Clase & H).
    apply palabra_Cat_inv in H as (a & s2 & -> & (c & -> & Hc)%palabra_Clase_inv & H).
    apply bool_decide_eq_true in Hc as ->.
    apply palabra_Cat_inv in H as (d & s3 & -> & Hd%palabra_Mas_Clase & H).
    apply palabra_Cat_inv in H as (p & t & -> & (c & -> & Hc)%palabra_Clase_inv & Ht%palabra_Mas_Clase).
    apply bool_decide_eq_true in Hc as ->.
    exists l, d, t. destruct Hl, Hd, Ht. by split_and!.
  - intros (l & d & t & -> & Hl & Hl' & Hd & Hd' & Ht & Ht').
    exists l, ("@" +:+ d +:+ "." +:+ t). split; [done|].
    split; [by apply palabra_Mas_Clase|].
    apply palabra_Cat_inv. exists "@", (d +:+ "." +:+ t). split; [done|].
    split; [by constructor|].
    apply palabra_Cat_inv. exists d, ("." +:+ t). split; [done|].
    split; [by apply palabra_Mas_Clase|].
    apply palabra_Cat_inv. exists ".", t. split; [done|].
    split; [by constructor|by apply palabra_Mas_Clase].
Qed.

(** What [validate_email] accepts: an address, with or without a line feed
    after it. *)
Lemma validate_email_acepta s :
  validate_email s = true ↔
  forma_email s ∨ ∃ s', forma_email s' ∧ s = s' +:+ String Re.salto "".
Proof.
  unfold validate_email, Re.match_anclado.
  rewrite orb_true_iff, coincide_patron_email. split.
  - intros [H|H]; [by left|right].
    destruct (Re.sin_salto_final s) as [s'|] eqn:E; [|done].
    exists s'. split; [by apply coincide_patron_email|].
    by apply ReFacts.sin_salto_final_Some.
  - intros [H|(s' & H & ->)]; [by left|right].
    rewrite (proj2 (ReFacts.sin_salto_final_Some _ s') eq_refl).
    by apply coincide_patron_email.
Qed.

(** ** Steps of the program *)

Section Respeta.
Context (R : relation estado) `{!PreOrder R}.
Context {A B : Type}.

Lemma respeta_mret (a : A) : respeta R (mret a).
Proof. intros st. split; [reflexivity|done]. Qed.

Lemma respeta_bind (m : M A) (k : A → M B) :
  respeta R m → (∀ a, respeta R (k a)) → respeta R (m ≫= k).
Proof.
  intros Hm Hk st. unfold mbind, M_bind.
  destruct (Hm st) as [HR Hf]. destruct (m st) as [[a|e] st1]; simpl in *.
  - destruct (Hk a st1) as [HR' Hf']. split; [by etrans|done].
  - split; [done|]. intros [= ->]. by apply Hf.
Qed.

Lemma respeta_intentar (m : M A) h :
  respeta R m → (∀ e k, h e = Some k → respeta R k) →
  respeta R (intentar m h).
Proof.
  intros Hm Hh st. unfold intentar.
  destruct (Hm st) as [HR Hf]. destruct (m st) as [[a|e] st1]; simpl in *; [by split|].
  destruct (h e) as [k|] eqn:He; [|by split].
  destruct (Hh e k He st1) as [HR' Hf']. split; [by etrans|done].
Qed.

End Respeta.

Lemma respeta_por_cada (R : relation estado) `{!PreOrder R} {A : Type}
    (f : A → M unit) l :
  (∀ x, respeta R (f x)) → respeta R (por_cada f l).
Proof.
  intros Hf. induction l as [|x l IH]; simpl.
  - by apply respeta_mret.
  - apply respeta_bind; [done|apply Hf|by intros _].
Qed.

Lemma respeta_quieto (R : relation estado) `{!PreOrder R} {A : Type} (m : M A) :
  (∀ st, (m st).2 = st ∧ (m st).1 ≠ Raise SinCombustible) → respeta R m.
Proof. intros H st. destruct (H st) as [-> ?]. by split. Qed.

Lemma generate_unique_id_quieto nombre apellido st :
  (generate_unique_id nombre apellido st).2 = st
  ∧ (generate_unique_id nombre apellido st).1 ≠ Raise SinCombustible.
Proof.
  destruct (decide (nombre = "")) as [->|Hn]; [done|].
  by destruct (generate_unique_id_run st nombre apellido Hn) as (k & -> & _).
Qed.

Lemma respeta_generate_unique_id (R : relation estado) `{!PreOrder R} nombre apellido :
  respeta R (generate_unique_id nombre apellido).
Proof. apply respeta_quieto; [done|]. apply generate_unique_id_quieto. Qed.

(** A computation that is one primitive operation that leaves the state as
    it is. *)
Ltac respeta_hoja :=
  solve [ intros ?;
          unfold leer, load, leer_int, lift, raise, now, path_exists, listdir,
            error_de_nombre, excepcion_de,
            leer_estado, Py.item, Py.get_o_vacio, Py.lower, Py.replace,
            Py.contiene_clave, Py.append_en;
          simpl; repeat case_match; (split; [reflexivity|done]) ].

Ltac descender_r paso :=
  repeat first
    [ progress intros
    | progress cbv zeta
    | respeta_hoja
    | paso
    | match goal with
      | H : _ = Some _ |- _ => progress simplify_eq
      | H : match ?e with _ => _ end = Some _ |- _ => destruct e
      | |- respeta _ (match ?x with _ => _ end) => destruct x
      end ].

(** ** What no operation does *)

Lemma archivo_de_no_contador cliente_id : archivo_de cliente_id ≠ CONTADOR_FILE.
Proof.
  intros H. pose proof (es_archivo_cliente_archivo_de cliente_id) as E.
  rewrite H in E. by vm_compute in E.
Qed.

Global Instance avanza_preorden : PreOrder avanza.
Proof.
  split.
  - intros st. by split_and!.
  - intros st1 st2 st3 (H1 & H2 & H3 & H4 & H5 & H6 & H7)
      (G1 & G2 & G3 & G4 & G5 & G6 & G7).
    split_and!; [lia|auto|by etrans|by etrans|by etrans|congruence|].
    intros f Hf Hc. by rewrite G7, H7.
Qed.

Global Instance solo_lee_preorden : PreOrder solo_lee.
Proof.
  split.
  - intros st. by split_and!.
  - intros st1 st2 st3 (H1 & H2 & H3 & H4 & H5 & H6 & H7)
      (G1 & G2 & G3 & G4 & G5 & G6 & G7).
    split_and!; [congruence..|by etrans|by etrans|by etrans|congruence].
Qed.

Lemma avanza_input prompt : respeta avanza (input prompt).
Proof.
  intros st. unfold input. destruct (entrada st) as [|l resto] eqn:E.
  { split; [reflexivity|done]. }
  split; [|done]. simpl. split_and!; try done.
  rewrite E. by apply suffix_cons_r.
Qed.

Lemma avanza_print l : respeta avanza (print l).
Proof.
  intros st. split; [|done]. simpl. split_and!; try done. by apply prefix_app_r.
Qed.

Lemma avanza_info s : respeta avanza (info s).
Proof.
  intros st. split; [|done]. simpl. split_and!; try done. by apply prefix_app_r.
Qed.

Lemma avanza_error prefijo e : respeta avanza (error prefijo e).
Proof.
  intros st. split; [|done]. simpl. split_and!; try done. by apply prefix_app_r.
Qed.

Lemma avanza_con_clientes c : respeta avanza (modificar_estado (con_clientes c)).
Proof. intros st. split; [|done]. simpl. by split_and!. Qed.

Lemma avanza_escribir cliente_id c : respeta avanza (escribir (archivo_de cliente_id) c).
Proof.
  intros st. unfold escribir.
  destruct (nombre_valido (archivo_de cliente_id));
    [|split; [reflexivity|unfold error_de_nombre; by case_match]].
  split; [|done]. simpl. split_and!; try done.
  - unfold contador_al_dia. simpl.
    by rewrite lookup_insert_ne by apply archivo_de_no_contador.
  - intros f _ Hf. apply lookup_insert_ne. intros <-.
    by rewrite es_archivo_cliente_archivo_de in Hf.
Qed.

Lemma avanza_remove cliente_id : respeta avanza (remove (archivo_de cliente_id)).
Proof.
  intros st. unfold remove.
  destruct (nombre_valido (archivo_de cliente_id));
    [|split; [reflexivity|unfold error_de_nombre; by case_match]].
  destruct (archivos st !! archivo_de cliente_id); [|split; [reflexivity|done]].
  split; [|done]. simpl. split_and!; try done.
  - unfold contador_al_dia. simpl.
    by rewrite lookup_delete_ne by apply archivo_de_no_contador.
  - intros f _ Hf. apply lookup_delete_ne. intros <-.
    by rewrite es_archivo_cliente_archivo_de in Hf.
Qed.

Lemma avanza_generate_cliente_number : respeta avanza generate_cliente_number.
Proof.
  intros st. rewrite generate_cliente_number_run. split; [|done].
  unfold tras_numero. split_and!; simpl; try done; [lia| |].
  - intros _. unfold contador_al_dia. simpl. by rewrite lookup_insert_eq.
  - intros f Hf _. by rewrite lookup_insert_ne.
Qed.

Lemma solo_lee_input prompt : respeta solo_lee (input prompt).
Proof.
  intros st. unfold input. destruct (entrada st) as [|l resto] eqn:E.
  { split; [reflexivity|done]. }
  split; [|done]. simpl. split_and!; try done.
  rewrite E. by apply suffix_cons_r.
Qed.

Lemma solo_lee_print l : respeta solo_lee (print l).
Proof.
  intros st. split; [|done]. simpl. split_and!; try done. by apply prefix_app_r.
Qed.

Lemma solo_lee_error prefijo e : respeta solo_lee (error prefijo e).
Proof.
  intros st. split; [|done]. simpl. split_and!; try done. by apply prefix_app_r.
Qed.

Lemma solo_lee_cargar_cliente cliente_id : respeta solo_lee (cargar_cliente cliente_id).
Proof.
  unfold cargar_cliente.
  descender_r ltac:(first [ first [ apply solo_lee_input | apply solo_lee_print | apply solo_lee_error ]
                          | apply respeta_bind; [apply _| |]
                          | apply respeta_intentar; [apply _| |] ]).
Qed.

Lemma solo_lee_campo k v : respeta solo_lee (campo k v).
Proof.
  unfold campo. descender_r ltac:(apply respeta_bind; [apply _| |]).
Qed.

Lemma solo_lee_buscar_en criterio valor dir :
  ∀ resultados, respeta solo_lee (buscar_en criterio valor dir resultados).
Proof.
  induction dir as [|archivo resto IH]; intros resultados; simpl.
  - apply respeta_mret, _.
  - unfold prueba_numero, prueba_id, prueba_nombre.
    descender_r ltac:(first [ apply solo_lee_cargar_cliente | apply IH
                            | apply respeta_bind; [apply _| |] ]).
Qed.

Lemma solo_lee_buscar_clientes criterio valor :
  respeta solo_lee (buscar_clientes criterio valor).
Proof.
  unfold buscar_clientes. apply respeta_bind; [apply _|respeta_hoja|].
  intros dir. apply solo_lee_buscar_en.
Qed.

Lemma solo_lee_buscar_por criterio p1 p2 p3 :
  respeta solo_lee (buscar_por criterio p1 p2 p3).
Proof.
  unfold buscar_por.
  descender_r ltac:(first [ apply solo_lee_buscar_clientes | first [ apply solo_lee_input | apply solo_lee_print | apply solo_lee_error ]
                          | apply respeta_bind; [apply _| |] ]).
Qed.

Lemma solo_lee_linea_candidato p : respeta solo_lee (linea_candidato p).
Proof.
  unfold linea_candidato.
  descender_r ltac:(first [ apply solo_lee_campo | first [ apply solo_lee_input | apply solo_lee_print | apply solo_lee_error ]
                          | apply respeta_bind; [apply _| |] ]).
Qed.

Lemma solo_lee_leer_cliente : respeta solo_lee leer_cliente.
Proof.
  unfold leer_cliente, linea_lectura.
  descender_r ltac:(first [ apply solo_lee_buscar_por | apply solo_lee_campo
                          | first [ apply solo_lee_input | apply solo_lee_print | apply solo_lee_error ]
                          | apply respeta_por_cada; [apply _|]
                          | apply respeta_bind; [apply _| |] ]).
Qed.

Lemma solo_lee_listar_clientes : respeta solo_lee listar_clientes.
Proof.
  unfold listar_clientes, linea_listado.
  descender_r ltac:(first [ apply solo_lee_cargar_cliente | apply solo_lee_campo
                          | first [ apply solo_lee_input | apply solo_lee_print | apply solo_lee_error ]
                          | apply respeta_por_cada; [apply _|]
                          | apply respeta_bind; [apply _| |] ]).
Qed.

Lemma solo_lee_avanza st st' : solo_lee st st' → avanza st st'.
Proof.
  intros (H1 & H2 & H3 & H4 & H5 & H6 & H7).
  split_and!; try done; [lia| |by rewrite H1].
  unfold contador_al_dia. by rewrite H1, H3.
Qed.

Lemma respeta_solo_lee_avanza {A : Type} (m : M A) :
  respeta solo_lee m → respeta avanza m.
Proof. intros H st. destruct (H st). split; [by apply solo_lee_avanza|done]. Qed.

Lemma avanza_guardar_cliente cliente_id datos :
  respeta avanza (guardar_cliente cliente_id datos).
Proof.
  unfold guardar_cliente.
  descender_r ltac:(first [ first [ apply avanza_input | apply avanza_print | apply avanza_info
                          | apply avanza_error | apply avanza_con_clientes
                          | apply avanza_escribir | apply avanza_remove
                          | apply avanza_generate_cliente_number
                          | apply respeta_generate_unique_id; apply _ ]
                          | apply respeta_bind; [apply _| |]
                          | apply respeta_intentar; [apply _| |] ]).
Qed.

Lemma avanza_crear_cliente : respeta avanza crear_cliente.
Proof.
  unfold crear_cliente.
  descender_r ltac:(first [ apply avanza_guardar_cliente | first [ apply avanza_input | apply avanza_print | apply avanza_info
                          | apply avanza_error | apply avanza_con_clientes
                          | apply avanza_escribir | apply avanza_remove
                          | apply avanza_generate_cliente_number
                          | apply respeta_generate_unique_id; apply _ ]
                          | apply respeta_bind; [apply _| |]
                          | apply respeta_intentar; [apply _| |] ]).
Qed.

Lemma avanza_modificar_cliente : respeta avanza modificar_cliente.
Proof.
  unfold modificar_cliente.
  descender_r ltac:(first [ apply respeta_solo_lee_avanza, solo_lee_buscar_por
                          | apply respeta_solo_lee_avanza, solo_lee_campo
                          | apply respeta_solo_lee_avanza, solo_lee_linea_candidato
                          | apply avanza_guardar_cliente | first [ apply avanza_input | apply avanza_print | apply avanza_info
                          | apply avanza_error | apply avanza_con_clientes
                          | apply avanza_escribir | apply avanza_remove
                          | apply avanza_generate_cliente_number
                          | apply respeta_generate_unique_id; apply _ ]
                          | apply respeta_por_cada; [apply _|]
                          | apply respeta_bind; [apply _| |] ]).
Qed.

Lemma avanza_eliminar_cliente : respeta avanza eliminar_cliente.
Proof.
  unfold eliminar_cliente.
  descender_r ltac:(first [ apply respeta_solo_lee_avanza, solo_lee_buscar_por
                          | apply respeta_solo_lee_avanza, solo_lee_campo
                          | apply respeta_solo_lee_avanza, solo_lee_linea_candidato
                          | first [ apply avanza_input | apply avanza_print | apply avanza_info
                          | apply avanza_error | apply avanza_con_clientes
                          | apply avanza_escribir | apply avanza_remove
                          | apply avanza_generate_cliente_number
                          | apply respeta_generate_unique_id; apply _ ]
                          | apply respeta_por_cada; [apply _|]
                          | apply respeta_bind; [apply _| |]
                          | apply respeta_intentar; [apply _| |] ]).
Qed.

Lemma avanza_entrada_length st st' :
  avanza st st' → (length (entrada st') ≤ length (entrada st))%nat.
Proof. intros (_ & _ & H & _). by apply suffix_length. Qed.

(** One operation of the menu followed by the next round. *)
Lemma avanza_y_sigue (op sigue : M unit) (n : nat) st0 st :
  respeta avanza op →
  avanza st0 st →
  (length (entrada st) ≤ n)%nat →
  (∀ st1, (length (entrada st1) ≤ n)%nat →
          avanza st1 (sigue st1).2 ∧ (sigue st1).1 ≠ Raise SinCombustible) →
  avanza st0 ((op;; sigue) st).2 ∧ ((op;; sigue) st).1 ≠ Raise SinCombustible.
Proof.
  intros Hop H0 Hn Hsigue. unfold mbind, M_bind.
  destruct (Hop st) as [Hav Hsc].
  destruct (op st) as [[[]|e] st1]; simpl in *.
  - destruct (Hsigue st1) as [Hav' Hsc'].
    { apply avanza_entrada_length in Hav. lia. }
    split; [|done]. by do 2 (etrans; [eassumption|]).
  - split; [by etrans|done].
Qed.

Lemma menu_bucle_avanza fuel : ∀ st,
  (length (entrada st) < fuel)%nat →
  avanza st (menu_bucle fuel st).2 ∧ (menu_bucle fuel st).1 ≠ Raise SinCombustible.
Proof.
  induction fuel as [|fuel IH]; intros st Hfuel; [lia|].
  simpl menu_bucle.
  do 7 (rewrite (bind_Ok _ _ _ _ _ (print_run _ _))).
  match goal with |- context [mbind _ _ ?s] => set (st7 := s) end.
  assert (avanza st st7) as H7.
  { unfold st7. split_and!; simpl; try done.
    rewrite <- !app_assoc. by apply prefix_app_r. }
  assert (entrada st7 = entrada st) as Hent7 by reflexivity.
  destruct (entrada st) as [|l resto] eqn:Hent.
  { rewrite (bind_Raise _ _ _ EOFError st7) by (unfold input; by rewrite Hent7).
    by split. }
  rewrite (bind_Ok _ _ _ _ _ (input_run _ _ _ _ Hent7)).
  assert (avanza st (con_entrada resto st7)) as H8.
  { etrans; [exact H7|]. split_and!; simpl; try done.
    rewrite Hent. by apply suffix_cons_r. }
  assert (∀ st1, (length (entrada st1) ≤ length resto)%nat →
                 avanza st1 (menu_bucle fuel st1).2
                 ∧ (menu_bucle fuel st1).1 ≠ Raise SinCombustible) as Hsigue.
  { intros st1 H1. apply IH. simpl in Hfuel. lia. }
  cbv zeta.
  repeat case_decide;
    try (apply (avanza_y_sigue _ _ (length resto)); [|done|done|done]).
  - apply avanza_crear_cliente.
  - apply respeta_solo_lee_avanza, solo_lee_leer_cliente.
  - apply avanza_modificar_cliente.
  - apply avanza_eliminar_cliente.
  - apply respeta_solo_lee_avanza, solo_lee_listar_clientes.
  - split; [|done]. etrans; [exact H8|]. apply avanza_print.
  - apply avanza_print.
Qed.

Lemma avanza_menu : respeta avanza menu.
Proof.
  intros st. unfold menu. rewrite (bind_Ok _ _ _ st st) by done.
  apply menu_bucle_avanza. lia.
Qed.

(** ** Create: every way it ends *)

Lemma mientras_existe_entrada e st base_id : ∀ fuel k unique_id,
  mientras_existe fuel base_id k unique_id (con_entrada e st)
  = ((mientras_existe fuel base_id k unique_id st).1,
     con_entrada e (mientras_existe fuel base_id k unique_id st).2).
Proof.
  induction fuel as [|fuel IH]; intros k unique_id; [done|].
  simpl. unfold mbind, M_bind, path_exists. simpl.
  destruct (existe (archivos st) (archivo_de unique_id)); [apply IH|done].
Qed.

Lemma generate_unique_id_entrada e st nombre apellido cliente_id :
  generate_unique_id nombre apellido st = (Ok cliente_id, st) →
  generate_unique_id nombre apellido (con_entrada e st)
  = (Ok cliente_id, con_entrada e st).
Proof.
  intros H.
  assert (generate_unique_id nombre apellido (con_entrada e st)
          = ((generate_unique_id nombre apellido st).1,
             con_entrada e (generate_unique_id nombre apellido st).2)) as ->.
  { unfold generate_unique_id. destruct (PyStr.primero nombre); [|done].
    exact (mientras_existe_entrada _ _ _ _ _ _). }
  by rewrite H.
Qed.

Lemma generate_unique_id_libre st nombre apellido cliente_id st' :
  generate_unique_id nombre apellido st = (Ok cliente_id, st') →
  st' = st ∧ existe (archivos st) (archivo_de cliente_id) = false.
Proof.
  intros H. destruct (decide (nombre = "")) as [->|Hn]; [done|].
  destruct (generate_unique_id_run st nombre apellido Hn) as (k & Hk & Hlibre & _).
  rewrite Hk in H. by injection H as <- <-.
Qed.

Lemma crear_cliente_run st n a t c resto cliente_id :
  entrada st = n :: a :: t :: c :: resto →
  validacion_falla n a t c = false →
  generate_unique_id (PyStr.strip n) (PyStr.strip a) st = (Ok cliente_id, st) →
  crear_cliente st
  = (Ok (), tras_crear (PyStr.strip n) (PyStr.strip a) (PyStr.capitalize (PyStr.strip t))
              (PyStr.strip c) resto cliente_id st).
Proof.
  intros Hent Hval Hid. unfold validacion_falla in Hval.
  apply orb_false_iff in Hval as [Hval Hc].
  apply orb_false_iff in Hval as [Hval Ht].
  apply orb_false_iff in Hval as [Hn Ha].
  apply bool_decide_eq_false in Hn, Ha.
  apply negb_false_iff in Ht, Hc.
  unfold crear_cliente.
  match goal with |- intentar ?m ?h st = _ => set (cuerpo := m); set (manejador := h) end.
  set (numero := "C" +:+ PyStr.format_03d (CONTADOR_CLIENTE st + 1)).
  set (registro :=
    registro_nuevo (PyStr.strip n) (PyStr.strip a) (PyStr.capitalize (PyStr.strip t))
      (PyStr.strip c) (strftime_Ymd_HMS (ahora st)) numero).
  set (validado :=
    Info (if validate_phone (PyStr.strip c)
          then "Contacto validado como teléfono: " +:+ PyStr.strip c
          else "Contacto validado como email: " +:+ PyStr.strip c)).
  set (st1 :=
    con_clientes (<[cliente_id := registro]> (clientes st))
      (tras_numero (con_bitacora (bitacora st ++ [validado]) (con_entrada resto st)))).
  assert (cuerpo st
          = ((guardar_cliente cliente_id registro;;
              print (Linea ("Cliente creado con ID: " +:+ cliente_id
                            +:+ " y Número de Cliente: " +:+ numero))) st1)) as Hcuerpo.
  { unfold cuerpo.
    rewrite (bind_Ok _ _ _ _ _ (input_run _ _ _ _ Hent)).
    destruct (decide (PyStr.strip n = "")) as [|_]; [done|].
    match goal with
    | |- context [mbind ?k (input ?p) ?st] =>
        rewrite (bind_Ok (input p) k st _ _ (input_run p st _ _ eq_refl))
    end.
    destruct (decide (PyStr.strip a = "")) as [|_]; [done|].
    rewrite (bind_Ok _ _ _ _ _
               (generate_unique_id_entrada _ _ _ _ _
                  (generate_unique_id_entrada _ _ _ _ _ Hid))).
    match goal with
    | |- context [mbind ?k (input ?p) ?st] =>
        rewrite (bind_Ok (input p) k st _ _ (input_run p st _ _ eq_refl))
    end.
    rewrite Ht. change (negb true) with false. cbv iota.
    match goal with
    | |- context [mbind ?k (input ?p) ?st] =>
        rewrite (bind_Ok (input p) k st _ _ (input_run p st _ _ eq_refl))
    end.
    unfold validado.
    destruct (validate_phone (PyStr.strip c)) eqn:Htel.
    - reflexivity.
    - simpl in Hc. rewrite Hc. reflexivity. }
  unfold intentar. rewrite Hcuerpo. unfold tras_crear.
  fold numero. fold registro. fold validado. fold st1.
  destruct (nombre_valido (archivo_de cliente_id)) eqn:Hv.
  { by rewrite (bind_Ok _ _ _ _ _ (guardar_cliente_run _ _ _ Hv)). }
  unfold guardar_cliente, intentar, escribir, error_de_nombre.
  unfold mbind at 2, M_bind at 2. unfold mbind at 1, M_bind at 1.
  rewrite Hv.
  by destruct (PyStr.contiene NUL (archivo_de cliente_id)).
Qed.

Lemma input_casos {A : Type} prompt (k : string → M A) st :
  (input prompt ≫= k) st
  = match entrada st with
    | [] => (Raise EOFError, st)
    | l :: resto => k l (con_entrada resto st)
    end.
Proof. unfold mbind, M_bind, input. by destruct (entrada st). Qed.

(** The two ways a create ends: without touching the directory, the
    dictionary or the counter, or as [tras_crear] says. *)
Lemma crear_cliente_casos st :
  ∃ st',
    crear_cliente st = (Ok (), st')
    ∧ ((archivos st' = archivos st ∧ clientes st' = clientes st
        ∧ CONTADOR_CLIENTE st' = CONTADOR_CLIENTE st)
       ∨ ∃ n a t c resto cliente_id,
           entrada st = n :: a :: t :: c :: resto
           ∧ validacion_falla n a t c = false
           ∧ generate_unique_id (PyStr.strip n) (PyStr.strip a) st = (Ok cliente_id, st)
           ∧ st' = tras_crear (PyStr.strip n) (PyStr.strip a)
                     (PyStr.capitalize (PyStr.strip t)) (PyStr.strip c) resto cliente_id st).
Proof.
  destruct (entrada st) as [|n [|a [|t [|c resto]]]] eqn:Hent.
  5: destruct (validacion_falla n a t c) eqn:Hval.
  6:{ assert (PyStr.strip n ≠ "") as Hn.
      { intros Hn. unfold validacion_falla in Hval.
        by rewrite (bool_decide_eq_true_2 _ Hn) in Hval. }
      destruct (generate_unique_id_run st _ (PyStr.strip a) Hn) as (k & Hid & _).
      eexists. split; [by apply (crear_cliente_run _ _ _ _ _ _ _ Hent Hval Hid)|].
      right. eexists n, a, t, c, resto, _. by split_and!. }
  all: unfold crear_cliente, intentar; rewrite input_casos, Hent; cbv beta iota.
  all: try (eexists; split; [reflexivity|left; done]).
  all: destruct (decide (PyStr.strip n = "")) as [Hn|Hn];
         [eexists; split; [reflexivity|left; done]|].
  all: rewrite input_casos; simpl entrada; cbv beta iota.
  all: try (eexists; split; [reflexivity|left; done]).
  all: destruct (decide (PyStr.strip a = "")) as [Ha|Ha];
         [eexists; split; [reflexivity|left; done]|].
  all: match goal with |- context [mbind _ (generate_unique_id ?n ?a) ?s] =>
         destruct (generate_unique_id_run s n a Hn) as (k & Hid & _) end;
       rewrite (bind_Ok _ _ _ _ _ Hid).
  all: rewrite input_casos; simpl entrada; cbv beta iota.
  all: try (eexists; split; [reflexivity|left; done]).
  all: destruct (bool_decide (PyStr.capitalize (PyStr.strip t) ∈ ["Persona"; "Negocio"]))
         eqn:Ht; cbv beta iota delta [negb];
         [|eexists; split; [reflexivity|left; done]].
  all: rewrite input_casos; simpl entrada; cbv beta iota.
  all: try (eexists; split; [reflexivity|left; done]).
  unfold validacion_falla in Hval.
  rewrite (bool_decide_eq_false_2 _ Hn), (bool_decide_eq_false_2 _ Ha), Ht in Hval.
  simpl in Hval. apply negb_true_iff, orb_false_iff in Hval as [Htel Hmail].
  rewrite Htel, Hmail.
  eexists; split; [reflexivity|left; done].
Qed.

(** ** What [strip] leaves, and file names read back *)

Lemma rstrip_final s : ∀ t c,
  PyStr.rstrip s = t +:+ String c "" → PyStr.es_espacio c = false.
Proof.
  induction s as [|a s IH]; intros t c H; simpl in H.
  { by destruct t. }
  destruct (PyStr.rstrip s) as [|b r] eqn:E.
  - destruct (PyStr.es_espacio a) eqn:Ea; [by destruct t|].
    destruct t as [|a' t].
    + by injection H as <-.
    + rewrite PyStrFacts.app_String in H. injection H as _ H. by destruct t.
  - destruct t as [|a' t].
    + rewrite PyStrFacts.app_vacio_l in H. discriminate H.
    + rewrite PyStrFacts.app_String in H. injection H as _ H. by apply (IH t c).
Qed.

Lemma strip_sin_salto l s : PyStr.strip l ≠ s +:+ String Re.salto "".
Proof. intros H. by apply rstrip_final in H. Qed.

Lemma validate_phone_strip l :
  validate_phone (PyStr.strip l) = true → diez_digitos (PyStr.strip l).
Proof.
  intros [H|(d & _ & H)]%validate_phone_acepta; [done|].
  by apply strip_sin_salto in H.
Qed.

Lemma validate_email_strip l :
  validate_email (PyStr.strip l) = true → forma_email (PyStr.strip l).
Proof.
  intros [H|(d & _ & H)]%validate_email_acepta; [done|].
  by apply strip_sin_salto in H.
Qed.

Lemma lower_char_idem c : PyStr.lower_char (PyStr.lower_char c) = PyStr.lower_char c.
Proof. destruct c as [[] [] [] [] [] [] [] []]; by vm_compute. Qed.

Lemma lower_idem s : PyStr.lower (PyStr.lower s) = PyStr.lower s.
Proof.
  induction s as [|c s IH]; [done|].
  unfold PyStr.lower in *. simpl. by rewrite lower_char_idem, IH.
Qed.

Lemma lower_upper_char c : PyStr.lower_char (PyStr.upper_char c) = PyStr.lower_char c.
Proof. destruct c as [[] [] [] [] [] [] [] []]; by vm_compute. Qed.

Lemma lower_upper s : PyStr.lower (PyStr.upper s) = PyStr.lower s.
Proof.
  induction s as [|c s IH]; [done|].
  unfold PyStr.lower, PyStr.upper in *. simpl. by rewrite lower_upper_char, IH.
Qed.

Lemma no_minuscula_upper_char c : no_minuscula (PyStr.upper_char c) = true.
Proof. destruct c as [[] [] [] [] [] [] [] []]; by vm_compute. Qed.

Lemma no_minuscula_digito c : PyStr.es_digito c = true → no_minuscula c = true.
Proof. destruct c as [[] [] [] [] [] [] [] []]; by vm_compute. Qed.

(** A string without the first character of [old] has no occurrence of
    [old]. *)
Lemma replace_sin_inicial c0 old new s :
  PyStr.todos (λ c, negb (bool_decide (c = c0))) s = true →
  PyStr.replace_desde (String c0 old) new 0 s = s.
Proof.
  induction s as [|c s IH]; [done|]. simpl. intros [Hc Hs]%andb_true_iff.
  apply negb_true_iff, bool_decide_eq_false in Hc.
  destruct (decide (c0 = c)) as [->|_]; [done|]. by rewrite IH.
Qed.

Lemma replace_json_final s :
  PyStr.todos (λ c, negb (bool_decide (c = "j"%char))) s = true →
  PyStr.replace_desde ".json" "" 0 (s +:+ ".json") = s.
Proof.
  induction s as [|c s IH]; [done|]. simpl PyStr.todos. intros [Hc Hs]%andb_true_iff.
  rewrite PyStrFacts.app_String.
  assert (PyStr.startswith ".json" (String c (s +:+ ".json")) = false) as Hno.
  { simpl. destruct (decide ("."%char = c)) as [<-|]; [|done].
    destruct s as [|d s]; [done|]. rewrite PyStrFacts.app_String.
    simpl in Hs. apply andb_true_iff in Hs as [Hd _].
    apply negb_true_iff, bool_decide_eq_false in Hd.
    by destruct (decide ("j"%char = d)) as [<-|]. }
  change (PyStr.replace_desde ".json" "" 0 (String c (s +:+ ".json")))
    with (if PyStr.startswith ".json" (String c (s +:+ ".json"))
          then "" +:+ PyStr.replace_desde ".json" "" 4 (s +:+ ".json")
          else String c (PyStr.replace_desde ".json" "" 0 (s +:+ ".json"))).
  by rewrite Hno, IH.
Qed.

(** The identifier of a client file is read back from its name when it has
    no lower-case letter. *)
Lemma id_de_archivo_de cliente_id :
  PyStr.todos no_minuscula cliente_id = true →
  id_de_archivo (archivo_de cliente_id) = cliente_id.
Proof.
  intros H. unfold id_de_archivo, archivo_de.
  change (PyStr.replace "cliente_" "" ("cliente_" +:+ ?s))
    with ("" +:+ PyStr.replace_desde "cliente_" "" 0 s).
  rewrite PyStrFacts.app_vacio_l, replace_sin_inicial.
  - apply replace_json_final. revert H. apply PyStrFacts.todos_impl.
    intros c. destruct c as [[] [] [] [] [] [] [] []]; by vm_compute.
  - rewrite PyStrFacts.todos_app. apply andb_true_iff. split; [|done].
    revert H. apply PyStrFacts.todos_impl.
    intros c. destruct c as [[] [] [] [] [] [] [] []]; by vm_compute.
Qed.

Lemma no_minuscula_candidato base_id k :
  PyStr.todos no_minuscula base_id = true →
  PyStr.todos no_minuscula (candidato base_id k) = true.
Proof.
  intros H. destruct k as [|k]; [done|]. unfold candidato, PyStr.str_int.
  replace (Z.of_nat (S k)) with (Z.of_N (N.of_nat (S k))) by lia.
  rewrite PyStrFacts.pretty_Z_of_N, !PyStrFacts.todos_app, H.
  apply andb_true_iff. split; [done|].
  apply (PyStrFacts.todos_impl _ _ _ no_minuscula_digito), PyStrFacts.todos_pretty_N.
Qed.

Lemma no_minuscula_inicial s : PyStr.todos no_minuscula (inicial s) = true.
Proof. destruct s as [|c s]; [done|]. simpl. by rewrite no_minuscula_upper_char. Qed.

Lemma generate_unique_id_sin_minusculas nombre apellido st cliente_id st' :
  generate_unique_id nombre apellido st = (Ok cliente_id, st') →
  PyStr.todos no_minuscula cliente_id = true.
Proof.
  intros H. destruct (decide (nombre = "")) as [->|Hn]; [done|].
  destruct (generate_unique_id_run st nombre apellido Hn) as (k & Hk & _).
  rewrite Hk in H. injection H as <- _.
  apply no_minuscula_candidato.
  rewrite !PyStrFacts.todos_app, !no_minuscula_inicial. simpl.
  apply (PyStrFacts.todos_impl _ _ _ no_minuscula_digito), strftime_Ymd_forma.
Qed.

(** X3. An identifier made by [generate_unique_id] has no lower-case
    letter, so the name of its file is that of a client file, is not the
    counter file, and gives the identifier back when a search or a list reads
    it off the name. *)
Theorem generate_unique_id_legible nombre apellido st cliente_id st' :
  generate_unique_id nombre apellido st = (Ok cliente_id, st') →
  st' = st
  ∧ PyStr.todos no_minuscula cliente_id = true
  ∧ es_archivo_cliente (archivo_de cliente_id) = true
  ∧ id_de_archivo (archivo_de cliente_id) = cliente_id
  ∧ archivo_de cliente_id ≠ CONTADOR_FILE.
Proof.
  intros H. pose proof (generate_unique_id_sin_minusculas _ _ _ _ _ H) as Hmin.
  apply generate_unique_id_libre in H as [-> _].
  split_and!; [done|done|apply es_archivo_cliente_archivo_de
              |by apply id_de_archivo_de|apply archivo_de_no_contador].
Qed.

Lemma generate_unique_id_legible_witness :
  generate_unique_id "ana" "bravo" estado_inicial = (Ok "AB_20250602", estado_inicial)
  ∧ id_de_archivo (archivo_de "AB_20250602") = "AB_20250602".
Proof.
  assert (generate_unique_id "ana" "bravo" estado_inicial
          = (Ok "AB_20250602", estado_inicial)) as H by (by vm_compute).
  split; [exact H|].
  exact (proj1 (proj2 (proj2 (proj2 (generate_unique_id_legible _ _ _ _ _ H))))).
Defined.

Lemma validate_phone_strip_iff l :
  validate_phone (PyStr.strip l) = true ↔ diez_digitos (PyStr.strip l).
Proof.
  split; [apply validate_phone_strip|].
  intros H. apply validate_phone_acepta. by left.
Qed.

Lemma validate_email_strip_iff l :
  validate_email (PyStr.strip l) = true ↔ forma_email (PyStr.strip l).
Proof.
  split; [apply validate_email_strip|].
  intros H. apply validate_email_acepta. by left.
Qed.

(** X1. Of the strings of ASCII text, [validate_phone] accepts exactly
    those of ten decimal digits and those followed by one line feed; of the
    answers of ASCII text that have been stripped, as [crear_cliente] passes
    them, exactly the strings of ten decimal digits. *)
Theorem validate_phone_caracterizacion s l :
  PyStr.es_ascii s = true →
  PyStr.es_ascii l = true →
  (validate_phone s = true ↔
   diez_digitos s ∨ ∃ d, diez_digitos d ∧ s = d +:+ String Re.salto "")
  ∧ (validate_phone (PyStr.strip l) = true ↔ diez_digitos (PyStr.strip l)).
Proof.
  intros _ _.
  split; [apply validate_phone_acepta|]. split; [apply validate_phone_strip|].
  intros H. apply validate_phone_acepta. by left.
Qed.

Lemma validate_phone_caracterizacion_witness :
  PyStr.es_ascii "55123456789" = true
  ∧ PyStr.es_ascii " 5512345678 " = true
  ∧ ¬ diez_digitos "55123456789"
  ∧ diez_digitos (PyStr.strip " 5512345678 ").
Proof.
  split; [reflexivity|]. split; [reflexivity|].
  destruct (validate_phone_caracterizacion "55123456789" " 5512345678 " eq_refl eq_refl)
    as [H1 H2].
  split.
  - intros H. assert (validate_phone "55123456789" = true) as E by (apply H1; by left).
    discriminate E.
  - apply H2. reflexivity.
Defined.

(** X2. [validate_email] accepts exactly the strings [local@dominio.final]
    whose three parts are non-empty and made of the characters of their
    class, and those followed by one line feed; on an answer that has been
    stripped, exactly the former. *)
Theorem validate_email_caracterizacion s l :
  (validate_email s = true ↔
   forma_email s ∨ ∃ s', forma_email s' ∧ s = s' +:+ String Re.salto "")
  ∧ (validate_email (PyStr.strip l) = true ↔ forma_email (PyStr.strip l)).
Proof.
  split; [apply validate_email_acepta|]. split; [apply validate_email_strip|].
  intros H. apply validate_email_acepta. by left.
Qed.

(** ** What a create leaves *)


Lemma existe_false_valido fs nombre :
  existe fs nombre = false → nombre_valido nombre = true → fs !! nombre = None.
Proof.
  unfold existe. intros H Hv. rewrite Hv in H. simpl in H.
  apply bool_decide_eq_false in H. by apply eq_None_not_Some.
Qed.

Lemma archivos_tras_crear nombre apellido tipo contacto resto cliente_id st :
  archivos (tras_crear nombre apellido tipo contacto resto cliente_id st)
  = let numero := "C" +:+ PyStr.format_03d (CONTADOR_CLIENTE st + 1) in
    let registro :=
      registro_nuevo nombre apellido tipo contacto (strftime_Ymd_HMS (ahora st)) numero in
    let fs := <[CONTADOR_FILE := Json (JNum (CONTADOR_CLIENTE st + 1))]> (archivos st) in
    if nombre_valido (archivo_de cliente_id)
    then <[archivo_de cliente_id := Json registro]> fs
    else fs.
Proof.
  unfold tras_crear. cbv zeta.
  destruct (nombre_valido (archivo_de cliente_id)); [done|].
  by destruct (PyStr.contiene NUL (archivo_de cliente_id)).
Qed.

(** ** The answers that a create accepts *)

Lemma upper_char_P c : PyStr.upper_char c = "P"%char ↔ PyStr.lower_char c = "p"%char.
Proof.
  destruct c as [[] [] [] [] [] [] [] []]; vm_compute;
    split; intros H; (reflexivity || discriminate H).
Qed.

Lemma upper_char_N c : PyStr.upper_char c = "N"%char ↔ PyStr.lower_char c = "n"%char.
Proof.
  destruct c as [[] [] [] [] [] [] [] []]; vm_compute;
    split; intros H; (reflexivity || discriminate H).
Qed.

Lemma capitalize_tipo s :
  PyStr.capitalize s ∈ ["Persona"; "Negocio"] ↔ PyStr.lower s ∈ ["persona"; "negocio"].
Proof.
  rewrite !elem_of_cons, !elem_of_nil.
  destruct s as [|c s]; simpl.
  { split; intros [H|[H|[]]]; discriminate H. }
  change (PyStr.lower (String c s)) with (String (PyStr.lower_char c) (PyStr.lower s)).
  split.
  - intros [[= Hc Hs]|[[= Hc Hs]|[]]].
    + left. apply upper_char_P in Hc. by rewrite Hc, Hs.
    + right; left. apply upper_char_N in Hc. by rewrite Hc, Hs.
  - intros [[= Hc Hs]|[[= Hc Hs]|[]]].
    + left. apply upper_char_P in Hc. by rewrite Hc, Hs.
    + right; left. apply upper_char_N in Hc. by rewrite Hc, Hs.
Qed.

Lemma validacion_falla_false n a t c :
  validacion_falla n a t c = false ↔
  PyStr.strip n ≠ "" ∧ PyStr.strip a ≠ ""
  ∧ PyStr.lower (PyStr.strip t) ∈ ["persona"; "negocio"]
  ∧ (diez_digitos (PyStr.strip c) ∨ forma_email (PyStr.strip c)).
Proof.
  unfold validacion_falla.
  rewrite !orb_false_iff, !negb_false_iff, !bool_decide_eq_false, bool_decide_eq_true,
    orb_true_iff, capitalize_tipo.
  pose proof (validate_phone_strip_iff c) as Htel.
  pose proof (validate_email_strip_iff c) as Hmail.
  rewrite Htel, Hmail. tauto.
Qed.

(** X10. A create that is given four answers of ASCII text makes the
    client, stepping the counter, exactly when the given name and the family
    name are not blank, the type is [persona] or [negocio] in any mix of
    upper and lower case, and the contact is ten digits or an e-mail
    address; white space around each answer does not count. *)
Theorem crear_cliente_acepta st n a t c resto :
  entrada st = n :: a :: t :: c :: resto →
  Forall (λ l, PyStr.es_ascii l = true) [n; a; t; c] →
  CONTADOR_CLIENTE (crear_cliente st).2 = CONTADOR_CLIENTE st + 1
  ↔ PyStr.strip n ≠ "" ∧ PyStr.strip a ≠ ""
    ∧ PyStr.lower (PyStr.strip t) ∈ ["persona"; "negocio"]
    ∧ (diez_digitos (PyStr.strip c) ∨ forma_email (PyStr.strip c)).
Proof.
  intros Hent _. rewrite <- validacion_falla_false.
  destruct (validacion_falla n a t c) eqn:Hval.
  - split; [|done]. intros Hcont. exfalso.
    destruct (crear_cliente_casos st) as (st' & Hrun & Hcasos).
    rewrite Hrun in Hcont. simpl in Hcont.
    destruct Hcasos as [(_ & _ & Hc)|(n' & a' & t' & c' & r' & id0 & Hent' & Hval' & _)].
    + lia.
    + rewrite Hent in Hent'. injection Hent' as <- <- <- <- _. congruence.
  - split; [done|]. intros _.
    assert (PyStr.strip n ≠ "") as Hn.
    { intros Hn. unfold validacion_falla in Hval.
      by rewrite (bool_decide_eq_true_2 _ Hn) in Hval. }
    destruct (generate_unique_id_run st _ (PyStr.strip a) Hn) as (k & Hid & _).
    rewrite (crear_cliente_run _ _ _ _ _ _ _ Hent Hval Hid). simpl.
    unfold tras_crear. cbv zeta. by repeat case_match.
Qed.

Lemma crear_cliente_acepta_witness :
  let st := con_entrada [" Juan "; "Perez"; "PERSONA"; "juan@perez.mx"] estado_inicial in
  entrada st = [" Juan "; "Perez"; "PERSONA"; "juan@perez.mx"]
  ∧ Forall (λ l, PyStr.es_ascii l = true) [" Juan "; "Perez"; "PERSONA"; "juan@perez.mx"]
  ∧ CONTADOR_CLIENTE (crear_cliente st).2 = CONTADOR_CLIENTE st + 1
  ∧ PyStr.lower (PyStr.strip "PERSONA") ∈ ["persona"; "negocio"]
  ∧ (diez_digitos (PyStr.strip "juan@perez.mx") ∨ forma_email (PyStr.strip "juan@perez.mx")).
Proof.
  intros st.
  assert (CONTADOR_CLIENTE (crear_cliente st).2 = CONTADOR_CLIENTE st + 1) as Hcont
    by (by vm_compute).
  assert (Forall (λ l, PyStr.es_ascii l = true)
            [" Juan "; "Perez"; "PERSONA"; "juan@perez.mx"]) as Hascii
    by (repeat constructor).
  split; [reflexivity|]. split; [exact Hascii|]. split; [exact Hcont|].
  destruct (proj1 (crear_cliente_acepta st " Juan " "Perez" "PERSONA" "juan@perez.mx" []
                     eq_refl Hascii) Hcont) as (_ & _ & Ht & Hc).
  split; [exact Ht|exact Hc].
Defined.

(** X13. [crear_cliente] always returns, whatever the input and the
    directory hold, and what it changes in the directory is the counter file
    and at most one client file, which did not exist before: no file that
    was there is overwritten or removed. *)
Theorem crear_cliente_solo_anade st :
  ∃ st',
    crear_cliente st = (Ok (), st')
    ∧ (∀ f c, f ≠ CONTADOR_FILE → archivos st !! f = Some c → archivos st' !! f = Some c)
    ∧ (∀ f, archivos st' !! f ≠ archivos st !! f →
            f = CONTADOR_FILE
            ∨ (archivos st !! f = None ∧ ∃ cliente_id, f = archivo_de cliente_id)).
Proof.
  destruct (crear_cliente_casos st) as (st' & Hrun & Hcasos).
  exists st'. split; [done|]. clear Hrun.
  destruct Hcasos as [(Hfs & _)|(n & a & t & c & resto & cliente_id & _ & _ & Hid & ->)].
  { rewrite Hfs. by split. }
  apply generate_unique_id_libre in Hid as [_ Hlibre].
  rewrite archivos_tras_crear. cbv zeta.
  destruct (nombre_valido (archivo_de cliente_id)) eqn:Hv.
  - pose proof (existe_false_valido _ _ Hlibre Hv) as Hno. split.
    + intros f d Hf Hd. rewrite !lookup_insert_ne; [done..|]. intros <-. congruence.
    + intros f Hf. destruct (decide (f = CONTADOR_FILE)) as [|Hc]; [by left|right].
      destruct (decide (f = archivo_de cliente_id)) as [->|Ha]; [by eauto|].
      by rewrite !lookup_insert_ne in Hf.
  - split.
    + intros f d Hf Hd. by rewrite lookup_insert_ne.
    + intros f Hf. destruct (decide (f = CONTADOR_FILE)) as [|Hc]; [by left|].
      by rewrite lookup_insert_ne in Hf.
Qed.





(** X14. Whatever [crear_cliente] writes into a client file, from answers
    of ASCII text, is a validated record. *)
Theorem crear_cliente_escribe_validado st cliente_id v :
  let st' := (crear_cliente st).2 in
  entrada_ascii st →
  archivos st' !! archivo_de cliente_id = Some (Json v) →
  archivos st !! archivo_de cliente_id ≠ Some (Json v) →
  es_registro v = true
  ∧ texto "nombre" v ≠ "" ∧ texto "apellido" v ≠ ""
  ∧ texto "tipo" v ∈ ["Persona"; "Negocio"]
  ∧ (diez_digitos (texto "contacto" v) ∨ forma_email (texto "contacto" v))
  ∧ servicios_de v = []
  ∧ texto "fecha_registro" v = strftime_Ymd_HMS (ahora st)
  ∧ numero_de (texto "numero_cliente" v) = Some (CONTADOR_CLIENTE st + 1)
  ∧ CONTADOR_CLIENTE st' = CONTADOR_CLIENTE st + 1
  ∧ (generate_unique_id (texto "nombre" v) (texto "apellido" v) st).1 = Ok cliente_id.
Proof.
  intros st' _. unfold st'. clear st'.
  destruct (crear_cliente_casos st) as (st' & -> & Hcasos). simpl.
  destruct Hcasos as [(Hfs & _)|(n & a & t & c & resto & id0 & _ & Hval & Hid & ->)].
  { rewrite Hfs. by intros ->. }
  rewrite archivos_tras_crear. cbv zeta. intros Hv Hno.
  destruct (nombre_valido (archivo_de id0)) eqn:Hvalido.
  2:{ by rewrite lookup_insert_ne in Hv by apply not_eq_sym, archivo_de_no_contador. }
  destruct (decide (archivo_de id0 = archivo_de cliente_id)) as [Hmismo|Hotro].
  2:{ by rewrite lookup_insert_ne, lookup_insert_ne in Hv
        by (done || apply not_eq_sym, archivo_de_no_contador). }
  apply archivo_de_inj in Hmismo as ->.
  rewrite lookup_insert_eq in Hv. injection Hv as <-.
  unfold validacion_falla in Hval.
  apply orb_false_iff in Hval as [Hval Hc].
  apply orb_false_iff in Hval as [Hval Ht].
  apply orb_false_iff in Hval as [Hn Ha].
  apply bool_decide_eq_false in Hn, Ha.
  apply negb_false_iff, bool_decide_eq_true in Ht.
  apply negb_false_iff, orb_true_iff in Hc.
  split_and!; try done.
  - destruct Hc as [Hc|Hc]; [left; by apply validate_phone_strip
                            |right; by apply validate_email_strip].
  - apply numero_de_formato.
  - unfold tras_crear. cbv zeta. by rewrite Hvalido.
  - change (texto "nombre" _) with (PyStr.strip n).
    change (texto "apellido" _) with (PyStr.strip a). by rewrite Hid.
Qed.

Lemma crear_cliente_escribe_validado_witness :
  let st := con_entrada ["Juan"; "Perez"; "Persona"; "5512345678"] estado_inicial in
  let v := registro_nuevo "Juan" "Perez" "Persona" "5512345678"
             "2025-06-02 10:30:05" "C001" in
  entrada_ascii st
  ∧ archivos (crear_cliente st).2 !! archivo_de "JP_20250602" = Some (Json v)
  ∧ archivos st !! archivo_de "JP_20250602" ≠ Some (Json v)
  ∧ es_registro v = true
  ∧ (diez_digitos (texto "contacto" v) ∨ forma_email (texto "contacto" v)).
Proof.
  intros st v.
  assert (entrada_ascii st) as Hascii by (repeat constructor).
  assert (archivos (crear_cliente st).2 !! archivo_de "JP_20250602" = Some (Json v))
    as H1 by (by vm_compute).
  assert (archivos st !! archivo_de "JP_20250602" ≠ Some (Json v)) as H2.
  { intros H. vm_compute in H. discriminate H. }
  split; [exact Hascii|]. split; [exact H1|]. split; [exact H2|].
  destruct (crear_cliente_escribe_validado st "JP_20250602" v Hascii H1 H2)
    as (Hreg & _ & _ & _ & Hcontacto & _).
  split; [exact Hreg|exact Hcontacto].
Defined.

(** ** More on search *)

Lemma buscar_clientes_id_run valor st :
  legible (archivos st) →
  ∃ st',
    buscar_clientes "id" valor st = (Ok (find "id" valor (archivos st)), st')
    ∧ salvo_bitacora st st'.
Proof.
  intros Hleg. apply buscar_clientes_run; [by apply legible_se_cargan|]. intros H.
  repeat (apply elem_of_cons in H as [H|H]; [discriminate H|]).
  by apply elem_of_nil in H.
Qed.

(** A search by identifier stops at the first load that raises. *)
Lemma buscar_en_id_ilegible valor dir : ∀ resultados st,
  ¬ se_cargan (archivos st) dir →
  ∃ i st', buscar_en "id" valor dir resultados st = (Raise (excepcion_de i), st').
Proof.
  unfold se_cargan.
  induction dir as [|archivo resto IH]; intros resultados st Hno.
  { exfalso. apply Hno, Forall_nil_2. }
  simpl buscar_en.
  destruct (es_archivo_cliente archivo) eqn:Hcliente.
  2:{ apply IH. intros H. apply Hno, Forall_cons. split; [congruence|done]. }
  destruct (cargable (archivos st) (id_de_archivo archivo)) eqn:Hcarga.
  2:{ apply cargar_cliente_ilegible in Hcarga as (i & _ & Hraise).
      exists i, st. by rewrite (bind_Raise _ _ _ _ _ Hraise). }
  rewrite (bind_Ok _ _ _ _ _ (cargar_cliente_run _ _ Hcarga)).
  assert (∀ res, ∃ i st',
            buscar_en "id" valor resto res (tras_cargar (id_de_archivo archivo) st)
            = (Raise (excepcion_de i), st')) as Hresto.
  { intros res. apply IH. rewrite tras_cargar_archivos.
    intros H. apply Hno, Forall_cons. by split. }
  destruct (Py.truth _); [|apply Hresto].
  unfold prueba_numero, prueba_id, prueba_nombre. cbn [decide]. simpl.
  unfold mbind, M_bind, mret, M_ret. cbv beta iota.
  destruct (bool_decide (id_de_archivo archivo = valor)); apply Hresto.
Qed.

Lemma estado_ilegible_no_se_carga :
  ¬ se_cargan (archivos estado_ilegible) (map_to_list (archivos estado_ilegible)).*1.
Proof.
  rewrite se_cargan_listado. intros H.
  specialize (H (archivo_de "x") ltac:(by eexists) eq_refl). by vm_compute in H.
Qed.

Lemma find_id_elemento valor fs p :
  p ∈ find "id" valor fs →
  p = (valor, cargado fs valor) ∧ fs !! archivo_de valor = Some (Json p.2).
Proof.
  intros [Hp Hc]%elem_of_find. destruct p as [cliente_id cliente].
  unfold cumple in Hc. simpl in Hc. apply bool_decide_eq_true in Hc as ->.
  apply registros_cargados_archivo in Hp as (Hf & _ & _ & <-). by split.
Qed.

(** X6. On a directory none of whose client files is beyond [json.load],
    a search by identifier returns, whatever documents the client files
    hold, and changes nothing but the log; every client it returns is the
    identifier asked for, paired with the document of its file.  A client
    file that is beyond [json.load] makes the search raise what [json.load]
    raises. *)
Theorem buscar_clientes_por_id valor st :
  (legible (archivos st) →
   ∃ encontrados st',
     buscar_clientes "id" valor st = (Ok encontrados, st')
     ∧ salvo_bitacora st st'
     ∧ ∀ p, p ∈ encontrados →
            p = (valor, cargado (archivos st) valor)
            ∧ archivos st !! archivo_de valor = Some (Json p.2)
            ∧ Py.truth p.2 = true)
  ∧ (¬ se_cargan (archivos st) (map_to_list (archivos st)).*1 →
     ∃ i st', buscar_clientes "id" valor st = (Raise (excepcion_de i), st')).
Proof.
  split.
  - intros Hleg.
    destruct (buscar_clientes_id_run valor st Hleg) as (st' & Hrun & Hst').
    eexists _, st'. split; [exact Hrun|]. split; [done|].
    intros p Hp. destruct (find_id_elemento _ _ _ Hp) as [-> Hf].
    split_and!; [done..|].
    apply elem_of_find in Hp as [Hp _].
    by apply registros_cargados_archivo in Hp as (_ & _ & Ht & _).
  - unfold buscar_clientes. rewrite (bind_Ok _ _ _ _ _ (listdir_run _)).
    apply buscar_en_id_ilegible.
Qed.

Lemma buscar_clientes_por_id_witness :
  legible (archivos estado_ejemplo)
  ∧ (∃ encontrados st',
       buscar_clientes "id" "AB_20250602" estado_ejemplo = (Ok encontrados, st')
       ∧ ∀ p, p ∈ encontrados → p.1 = "AB_20250602")
  ∧ ¬ se_cargan (archivos estado_ilegible) (map_to_list (archivos estado_ilegible)).*1
  ∧ ∃ i st', buscar_clientes "id" "x" estado_ilegible = (Raise (excepcion_de i), st').
Proof.
  split; [exact legible_estado_ejemplo|]. split.
  - destruct (proj1 (buscar_clientes_por_id "AB_20250602" estado_ejemplo)
                legible_estado_ejemplo) as (encontrados & st' & Hrun & _ & Hp).
    exists encontrados, st'. split; [exact Hrun|].
    intros p Hin. destruct (Hp p Hin) as (Heq & _). rewrite Heq. reflexivity.
  - split; [exact estado_ilegible_no_se_carga|].
    exact (proj2 (buscar_clientes_por_id "x" estado_ilegible)
             estado_ilegible_no_se_carga).
Defined.

(** X7. A criterion other than [numero], [id] and [nombre] is not an
    error: on a directory none of whose client files is beyond [json.load],
    the search loads every client file and returns no client. *)
Theorem buscar_clientes_criterio_desconocido criterio valor st :
  criterio ∉ ["numero"; "id"; "nombre"] →
  legible (archivos st) →
  ∃ st', buscar_clientes criterio valor st = (Ok [], st') ∧ salvo_bitacora st st'.
Proof.
  intros Hc Hleg.
  destruct (buscar_clientes_run criterio valor st) as (st' & Hrun & Hst').
  { by apply legible_se_cargan. }
  { intros H. exfalso. apply Hc.
    apply elem_of_cons in H as [->|H]; [by left|].
    apply elem_of_cons in H as [->|H]; [by right; right; left|].
    by apply elem_of_nil in H. }
  exists st'. split; [|done]. rewrite Hrun. f_equal. f_equal.
  unfold find. induction (registros_cargados (archivos st)) as [|p l IH]; [done|].
  simpl. destruct (cumple criterio valor p) eqn:E; [|done].
  by apply cumple_criterio in E.
Qed.

Lemma buscar_clientes_criterio_desconocido_witness :
  ("telefono" ∉ ["numero"; "id"; "nombre"])
  ∧ legible (archivos estado_ejemplo)
  ∧ ∃ st', buscar_clientes "telefono" "5512345678" estado_ejemplo = (Ok [], st').
Proof.
  assert ("telefono" ∉ ["numero"; "id"; "nombre"]) as H.
  { intros H. repeat (apply elem_of_cons in H as [H|H]; [discriminate H|]).
    by apply elem_of_nil in H. }
  split; [exact H|]. split; [exact legible_estado_ejemplo|].
  destruct (buscar_clientes_criterio_desconocido "telefono" "5512345678" estado_ejemplo H
              legible_estado_ejemplo)
    as (st' & Hrun & _).
  exists st'. exact Hrun.
Defined.

Lemma buscar_en_minusculas criterio valor valor' dir :
  criterio ≠ "id" → PyStr.lower valor = PyStr.lower valor' →
  ∀ resultados st,
    buscar_en criterio valor dir resultados st
    = buscar_en criterio valor' dir resultados st.
Proof.
  intros Hc Hl. induction dir as [|archivo resto IH]; intros resultados st; [done|].
  simpl. destruct (es_archivo_cliente archivo); [|apply IH].
  unfold mbind at 1 5, M_bind at 1 5.
  destruct (cargar_cliente (id_de_archivo archivo) st) as [[cliente|e] st1]; [|done].
  destruct (Py.truth cliente); [|apply IH].
  assert (prueba_numero criterio valor cliente = prueba_numero criterio valor' cliente)
    as -> by (unfold prueba_numero; by rewrite Hl).
  assert (prueba_nombre criterio valor cliente = prueba_nombre criterio valor' cliente)
    as -> by (unfold prueba_nombre; by rewrite Hl).
  assert (prueba_id criterio valor (id_de_archivo archivo) = mret false) as ->
    by (unfold prueba_id; by rewrite (bool_decide_eq_false_2 _ Hc)).
  assert (prueba_id criterio valor' (id_de_archivo archivo) = mret false) as ->
    by (unfold prueba_id; by rewrite (bool_decide_eq_false_2 _ Hc)).
  unfold mbind, M_bind.
  destruct (prueba_numero criterio valor' cliente st1) as [[[]|e] st2];
    [apply IH| |done].
  unfold mret, M_ret. cbv beta iota.
  destruct (prueba_nombre criterio valor' cliente st2) as [[[]|e] st3];
    [apply IH|apply IH|done].
Qed.

(** X8. A search by customer number or by name does not distinguish upper
    from lower case in the value searched, for values of ASCII text: two
    values with the same lower case, such as a value and its upper-cased or
    lower-cased form, give the same result and the same final state, also
    when the search raises. *)
Theorem buscar_clientes_sin_mayusculas criterio valor valor' st :
  criterio ∈ ["numero"; "nombre"] →
  PyStr.es_ascii valor = true →
  PyStr.es_ascii valor' = true →
  PyStr.lower valor = PyStr.lower valor' →
  buscar_clientes criterio valor st = buscar_clientes criterio valor' st
  ∧ buscar_clientes criterio (PyStr.upper valor) st = buscar_clientes criterio valor st
  ∧ buscar_clientes criterio (PyStr.lower valor) st = buscar_clientes criterio valor st.
Proof.
  intros Hc _ _ Hl.
  assert (criterio ≠ "id") as Hid.
  { intros ->. repeat (apply elem_of_cons in Hc as [Hc|Hc]; [discriminate Hc|]).
    by apply elem_of_nil in Hc. }
  unfold buscar_clientes, mbind, M_bind, listdir.
  split_and!; apply buscar_en_minusculas;
    [done|done|done|apply lower_upper|done|apply lower_idem].
Qed.

Lemma buscar_clientes_sin_mayusculas_witness :
  "nombre" ∈ ["numero"; "nombre"]
  ∧ PyStr.es_ascii "ANA bravo" = true
  ∧ PyStr.es_ascii "Ana Bravo" = true
  ∧ PyStr.lower "ANA bravo" = PyStr.lower "Ana Bravo"
  ∧ buscar_clientes "nombre" "ANA bravo" estado_ejemplo
    = buscar_clientes "nombre" "Ana Bravo" estado_ejemplo.
Proof.
  assert ("nombre" ∈ ["numero"; "nombre"]) as Hc by (right; left).
  assert (PyStr.lower "ANA bravo" = PyStr.lower "Ana Bravo") as Hl by (by vm_compute).
  split; [exact Hc|]. split; [reflexivity|]. split; [reflexivity|]. split; [exact Hl|].
  exact (proj1 (buscar_clientes_sin_mayusculas "nombre" "ANA bravo" "Ana Bravo"
                  estado_ejemplo Hc eq_refl eq_refl Hl)).
Defined.



(** ** Directories in order *)

Section Seguro.
Context {A B : Type} (E : excepcion → Prop).

Lemma seguro_puro (m : M A) (Q : A → Prop) :
  (∀ st, ∃ a, m st = (Ok a, st) ∧ Q a) → seguro E m Q.
Proof. intros H st Hst. by destruct (H st) as (a & -> & Ha). Qed.

Lemma seguro_mret (a : A) (Q : A → Prop) : Q a → seguro E (mret a) Q.
Proof. intros Ha. apply seguro_puro. intros st. by exists a. Qed.

Lemma seguro_bind (m : M A) (k : A → M B) (Q : A → Prop) (Q' : B → Prop) :
  seguro E m Q → (∀ a, Q a → seguro E (k a) Q') → seguro E (m ≫= k) Q'.
Proof.
  intros Hm Hk st Hst. unfold mbind, M_bind.
  destruct (Hm st Hst) as [Hst1 Hr]. destruct (m st) as [[a|e] st1]; simpl in *.
  - by apply Hk.
  - done.
Qed.

Lemma seguro_intentar (E' : excepcion → Prop) (m : M A) h (Q : A → Prop) :
  seguro E' m Q →
  (∀ e, E' e → match h e with Some k => seguro E k Q | None => E e end) →
  seguro E (intentar m h) Q.
Proof.
  intros Hm Hh st Hst. unfold intentar.
  destruct (Hm st Hst) as [Hst1 Hr]. destruct (m st) as [[a|e] st1]; simpl in *; [done|].
  specialize (Hh e Hr). destruct (h e) as [k|]; [by apply Hh|done].
Qed.

Lemma seguro_debil (m : M A) (Q Q' : A → Prop) :
  (∀ a, Q a → Q' a) → seguro E m Q → seguro E m Q'.
Proof.
  intros HQ Hm st Hst. destruct (Hm st Hst) as [Hst1 Hr]. split; [done|].
  destruct (m st).1; [by apply HQ|done].
Qed.

End Seguro.

Lemma seguro_por_cada {A : Type} (E : excepcion → Prop) (f : A → M unit) l :
  Forall (λ x, seguro E (f x) (λ _, True)) l → seguro E (por_cada f l) (λ _, True).
Proof.
  induction 1 as [|x l Hx Hl IH]; simpl.
  - by apply seguro_mret.
  - eapply seguro_bind; [exact Hx|]. by intros _ _.
Qed.

Lemma seguro_input E prompt : E EOFError → seguro E (input prompt) (λ _, True).
Proof. intros HE st Hst. unfold input. by destruct (entrada st). Qed.

Lemma seguro_print E l : seguro E (print l) (λ _, True).
Proof. by intros st Hst. Qed.

Lemma seguro_info E s : seguro E (info s) (λ _, True).
Proof. by intros st Hst. Qed.

Lemma seguro_error E prefijo e : seguro E (error prefijo e) (λ _, True).
Proof. by intros st Hst. Qed.

Lemma seguro_con_clientes E c : seguro E (modificar_estado (con_clientes c)) (λ _, True).
Proof. by intros st Hst. Qed.

Lemma sano_cargado fs cliente_id :
  sano fs → Py.truth (cargado fs cliente_id) = true →
  bueno (cliente_id, cargado fs cliente_id).
Proof.
  intros Hfs Ht. unfold cargado, existe in *.
  destruct (nombre_valido (archivo_de cliente_id)) eqn:Hv; [|done]. simpl in *.
  case_bool_decide; [|done].
  destruct (fs !! archivo_de cliente_id) as [[v| |]|] eqn:Hf; [|done..].
  split; [|done]. simpl.
  apply (map_Forall_lookup_1 _ _ _ _ Hfs) in Hf. unfold documento_sano in Hf.
  rewrite es_archivo_cliente_archivo_de, Ht in Hf. done.
Qed.

(** In a directory in order no client file is beyond [json.load]. *)
Lemma sano_legible fs : sano fs → legible fs.
Proof.
  intros Hfs f c Hc Hf. specialize (Hfs f c Hc). simpl in Hfs.
  unfold documento_sano in Hfs. rewrite Hf in Hfs. by destruct c.
Qed.

Lemma seguro_cargar_cliente E cliente_id :
  seguro E (cargar_cliente cliente_id)
    (λ v, Py.truth v = true → bueno (cliente_id, v)).
Proof.
  intros st Hst. rewrite cargar_cliente_run by (by apply legible_cargable, sano_legible).
  simpl. rewrite tras_cargar_archivos. split; [done|]. by apply sano_cargado.
Qed.

Lemma en_campos_o_servicios k :
  k ∈ "servicios" :: campos_de_texto → k = "servicios" ∨ k ∈ campos_de_texto.
Proof. by intros [->|H]%elem_of_cons; [left|right]. Qed.

Lemma en_campos_s k :
  bool_decide (k ∈ "servicios" :: campos_de_texto) = true →
  k ∈ "servicios" :: campos_de_texto.
Proof. apply bool_decide_eq_true. Qed.

Lemma seguro_campo E k v :
  es_registro v = true → k ∈ "servicios" :: campos_de_texto →
  seguro E (campo k v) (λ _, True).
Proof.
  intros Hv [->|Hk]%en_campos_o_servicios; apply seguro_puro; intros st.
  - eexists. split; [by apply campo_servicios_run|done].
  - eexists. split; [by apply campo_run|done].
Qed.

Lemma sano_insert_registro fs cliente_id v :
  sano fs → es_registro v = true → sano (<[archivo_de cliente_id := Json v]> fs).
Proof.
  intros Hfs Hv. apply map_Forall_insert_2; [|done].
  unfold documento_sano. rewrite Hv. by rewrite !orb_true_r.
Qed.

Lemma sano_insert_contador fs c : sano fs → sano (<[CONTADOR_FILE := c]> fs).
Proof. intros Hfs. by apply map_Forall_insert_2. Qed.

Lemma sano_delete fs f : sano fs → sano (delete f fs).
Proof. apply map_Forall_delete. Qed.

Lemma sano_estado_ejemplo : sano (archivos estado_ejemplo).
Proof.
  unfold estado_ejemplo. simpl.
  repeat (apply map_Forall_insert_2; [by vm_compute|]). apply map_Forall_empty.
Qed.

Lemma seguro_guardar_cliente E cliente_id v :
  bueno (cliente_id, v) → seguro E (guardar_cliente cliente_id v) (λ _, True).
Proof.
  intros [Hv Hn] st Hst. simpl in *. rewrite guardar_cliente_run by done.
  split; [|done]. by apply sano_insert_registro.
Qed.

Lemma seguro_remove E cliente_id :
  nombre_valido (archivo_de cliente_id) = true → E OSError →
  seguro E (remove (archivo_de cliente_id)) (λ _, True).
Proof.
  intros Hn HE st Hst. unfold remove. rewrite Hn.
  destruct (archivos st !! archivo_de cliente_id); [|done].
  split; [|done]. by apply sano_delete.
Qed.

Lemma seguro_pruebas E criterio valor cliente_id cliente :
  es_registro cliente = true →
  seguro E (prueba_numero criterio valor cliente) (λ _, True)
  ∧ seguro E (prueba_id criterio valor cliente_id) (λ _, True)
  ∧ seguro E (prueba_nombre criterio valor cliente) (λ _, True).
Proof.
  intros Hv.
  split_and!; apply seguro_puro; intros st;
    destruct (pruebas_run criterio valor cliente_id cliente st (λ _, Hv))
      as (H1 & H2 & H3); eauto.
Qed.

Lemma seguro_buscar_en E criterio valor dir : ∀ resultados,
  Forall bueno resultados →
  seguro E (buscar_en criterio valor dir resultados) (Forall bueno).
Proof.
  induction dir as [|archivo resto IH]; intros resultados Hres; simpl.
  { by apply seguro_mret. }
  destruct (es_archivo_cliente archivo); [|by apply IH].
  eapply seguro_bind; [apply seguro_cargar_cliente|].
  intros cliente Hcliente. simpl in Hcliente.
  destruct (Py.truth cliente) eqn:Ht; [|by apply IH].
  destruct (Hcliente eq_refl) as [Hv Hn]. simpl in Hv, Hn.
  assert (Forall bueno (resultados ++ [(id_de_archivo archivo, cliente)])) as Hcon.
  { apply Forall_app. split; [done|]. by apply Forall_singleton. }
  destruct (seguro_pruebas E criterio valor (id_de_archivo archivo) cliente Hv)
    as (H1 & H2 & H3).
  eapply seguro_bind; [exact H1|]. intros [] _; [by apply IH|].
  eapply seguro_bind; [exact H2|]. intros [] _; [by apply IH|].
  eapply seguro_bind; [exact H3|]. intros [] _; by apply IH.
Qed.

Lemma seguro_buscar_clientes E criterio valor :
  seguro E (buscar_clientes criterio valor) (Forall bueno).
Proof.
  unfold buscar_clientes.
  eapply (seguro_bind _ _ _ (λ _, True)); [by apply seguro_puro; eauto|].
  intros dir _. by apply seguro_buscar_en.
Qed.

Lemma seguro_buscar_por E criterio p1 p2 p3 :
  E EOFError →
  seguro E (buscar_por criterio p1 p2 p3)
    (λ o, ∀ l, o = Some l → Forall bueno l).
Proof.
  intros HE. unfold buscar_por.
  repeat case_decide;
    try (eapply seguro_bind; [by apply seguro_input|]; intros l _;
         eapply seguro_bind; [apply seguro_buscar_clientes|]; intros r Hr;
         apply seguro_mret; by intros ? [= <-]).
  by apply seguro_mret.
Qed.

Lemma seguro_linea_candidato E p : bueno p → seguro E (linea_candidato p) (λ _, True).
Proof.
  intros [Hv _]. destruct p as [cliente_id cliente]. simpl in Hv.
  unfold linea_candidato.
  eapply seguro_bind; [apply seguro_campo; [done|by apply en_campos_s]|].
  intros. apply seguro_print.
Qed.

Lemma seguro_linea_lectura E p : bueno p → seguro E (linea_lectura p) (λ _, True).
Proof.
  intros [Hv _]. destruct p as [cliente_id cliente]. simpl in Hv.
  unfold linea_lectura.
  repeat (eapply seguro_bind;
          [apply seguro_campo; [done|by apply en_campos_s]|intros ? _]). apply seguro_print.
Qed.

Lemma seguro_por_cada_bueno E (f : string * json → M unit) l :
  (∀ p, bueno p → seguro E (f p) (λ _, True)) →
  Forall bueno l → seguro E (por_cada f l) (λ _, True).
Proof.
  intros Hf Hl. apply seguro_por_cada. eapply Forall_impl; [exact Hl|]. apply Hf.
Qed.

Lemma seguro_leer_cliente : seguro solo_EOF leer_cliente (λ _, True).
Proof.
  unfold leer_cliente.
  eapply seguro_bind; [by apply seguro_input|]. intros l _.
  eapply seguro_bind; [by apply seguro_buscar_por|]. intros [encontrados|] Hl.
  - case_bool_decide; [|apply seguro_print].
    apply seguro_por_cada_bueno; [apply seguro_linea_lectura|by apply Hl].
  - apply seguro_print.
Qed.

Lemma seguro_linea_listado E archivo : seguro E (linea_listado archivo) (λ _, True).
Proof.
  unfold linea_listado. destruct (es_archivo_cliente archivo); [|by apply seguro_mret].
  eapply seguro_bind; [apply seguro_cargar_cliente|]. intros cliente Hcliente.
  simpl in Hcliente. destruct (Py.truth cliente); [|by apply seguro_mret].
  destruct (Hcliente eq_refl) as [Hv _]. simpl in Hv.
  repeat (eapply seguro_bind;
          [apply seguro_campo; [done|by apply en_campos_s]|intros ? _]). apply seguro_print.
Qed.

Lemma seguro_listar_clientes E : seguro E listar_clientes (λ _, True).
Proof.
  unfold listar_clientes.
  eapply (seguro_bind _ _ _ (λ _, True)); [by apply seguro_puro; eauto|].
  intros dir _. case_bool_decide; [apply seguro_print|].
  eapply (seguro_bind _ _ _ (λ _, True)); [by apply seguro_puro; eauto|].
  intros dir' _. apply seguro_por_cada, Forall_forall. intros archivo _.
  apply seguro_linea_listado.
Qed.

Lemma seguro_modificar_cliente : seguro solo_EOF modificar_cliente (λ _, True).
Proof.
  unfold modificar_cliente.
  eapply seguro_bind; [by apply seguro_input|]. intros l _.
  eapply seguro_bind; [by apply seguro_buscar_por|]. intros [encontrados|] Hl;
    [|apply seguro_print].
  specialize (Hl _ eq_refl).
  destruct encontrados as [|[cliente_id cliente] [|p encontrados]];
    [apply seguro_print| |].
  - apply Forall_singleton in Hl as [Hv Hn]. simpl in Hv, Hn.
    eapply seguro_bind; [by apply seguro_input|]. intros l' _. cbv zeta.
    case_decide; [apply seguro_print|].
    rewrite append_en_registro by done.
    eapply (seguro_bind _ _ _ (λ v, v = con_servicio (PyStr.strip l') cliente));
      [by apply seguro_puro; eauto|].
    intros ? ->.
    assert (es_registro (con_servicio (PyStr.strip l') cliente) = true) as Hv'
      by (by apply es_registro_con_servicio).
    eapply seguro_bind; [by apply seguro_guardar_cliente|]. intros _ _.
    repeat (eapply seguro_bind;
          [apply seguro_campo; [done|by apply en_campos_s]|intros ? _]). apply seguro_print.
  - eapply seguro_bind; [apply seguro_print|]. intros _ _.
    apply seguro_por_cada_bueno; [apply seguro_linea_candidato|done].
Qed.

Lemma seguro_eliminar_cliente : seguro solo_EOF eliminar_cliente (λ _, True).
Proof.
  unfold eliminar_cliente.
  eapply seguro_bind; [by apply seguro_input|]. intros l _.
  eapply seguro_bind; [by apply seguro_buscar_por|]. intros [encontrados|] Hl;
    [|apply seguro_print].
  specialize (Hl _ eq_refl).
  destruct encontrados as [|[cliente_id cliente] [|p encontrados]];
    [apply seguro_print| |].
  - apply Forall_singleton in Hl as [Hv Hn]. simpl in Hv, Hn. cbv zeta.
    eapply (seguro_bind _ _ _ (λ _, True)); [by apply seguro_puro; eauto|].
    intros [] _; [|apply seguro_print].
    apply (seguro_intentar _ (λ e, e = OSError)).
    + eapply seguro_bind; [by apply seguro_remove|]. intros _ _.
      eapply (seguro_bind _ _ _ (λ _, True)); [by apply seguro_puro; eauto|].
      intros st1 _.
      eapply (seguro_bind _ _ _ (λ _, True)).
      { case_bool_decide; [apply seguro_con_clientes|by apply seguro_mret]. }
      intros _ _.
      eapply (seguro_bind _ _ _ (λ _, True)); [by apply seguro_puro; eauto|].
      intros st2 _.
      eapply seguro_bind; [apply seguro_info|]. intros _ _.
      repeat (eapply seguro_bind;
          [apply seguro_campo; [done|by apply en_campos_s]|intros ? _]). apply seguro_print.
    + intros e ->. eapply seguro_bind; [apply seguro_error|]. intros _ _.
      apply seguro_print.
  - eapply seguro_bind; [apply seguro_print|]. intros _ _.
    apply seguro_por_cada_bueno; [apply seguro_linea_candidato|done].
Qed.

(** ** The operations and the menu on a directory in order *)

Lemma seguro_crear_cliente E : seguro E crear_cliente (λ _, True).
Proof.
  intros st Hst. destruct (crear_cliente_casos st) as (st' & -> & Hcasos). simpl.
  split; [|done].
  destruct Hcasos as [(-> & _)|(n & a & t & c & resto & id0 & _ & _ & _ & ->)]; [done|].
  rewrite archivos_tras_crear. cbv zeta.
  destruct (nombre_valido (archivo_de id0)).
  - apply sano_insert_registro; [by apply sano_insert_contador|done].
  - by apply sano_insert_contador.
Qed.

Lemma respeta_operaciones op : op ∈ operaciones → respeta avanza op.
Proof.
  unfold operaciones. intros H.
  repeat (apply elem_of_cons in H as [->|H]);
    [ apply avanza_crear_cliente
    | apply respeta_solo_lee_avanza, solo_lee_leer_cliente
    | apply avanza_modificar_cliente
    | apply avanza_eliminar_cliente
    | apply respeta_solo_lee_avanza, solo_lee_listar_clientes
    | by apply elem_of_nil in H ].
Qed.

Lemma seguro_operaciones op : op ∈ operaciones → seguro solo_EOF op (λ _, True).
Proof.
  unfold operaciones. intros H.
  repeat (apply elem_of_cons in H as [->|H]);
    [ apply seguro_crear_cliente
    | apply seguro_leer_cliente
    | apply seguro_modificar_cliente
    | apply seguro_eliminar_cliente
    | apply seguro_listar_clientes
    | by apply elem_of_nil in H ].
Qed.

Lemma seguro_y_sigue (op sigue : M unit) (n : nat) st :
  op ∈ operaciones →
  sano (archivos st) →
  (length (entrada st) ≤ n)%nat →
  (∀ st1, (length (entrada st1) ≤ n)%nat → sano (archivos st1) → fin_de_menu (sigue st1)) →
  fin_de_menu ((op;; sigue) st).
Proof.
  intros Hop Hst Hn Hsigue. unfold mbind, M_bind.
  destruct (respeta_operaciones op Hop st) as [Hav _].
  destruct (seguro_operaciones op Hop st Hst) as [Hst1 Hr].
  destruct (op st) as [[[]|e] st1]; simpl in *.
  - apply Hsigue; [|done]. apply avanza_entrada_length in Hav. lia.
  - split; [done|]. right. by rewrite Hr.
Qed.

Lemma menu_bucle_seguro fuel : ∀ st,
  (length (entrada st) < fuel)%nat → sano (archivos st) →
  fin_de_menu (menu_bucle fuel st).
Proof.
  induction fuel as [|fuel IH]; intros st Hfuel Hst; [lia|].
  simpl menu_bucle.
  do 7 (rewrite (bind_Ok _ _ _ _ _ (print_run _ _))).
  match goal with |- context [mbind _ _ ?s] => set (st7 := s) end.
  assert (entrada st7 = entrada st) as Hent7 by reflexivity.
  destruct (entrada st) as [|l resto] eqn:Hent.
  { rewrite (bind_Raise _ _ _ EOFError st7) by (unfold input; by rewrite Hent7).
    split; [done|by right]. }
  rewrite (bind_Ok _ _ _ _ _ (input_run _ _ _ _ Hent7)).
  assert (∀ st1, (length (entrada st1) ≤ length resto)%nat → sano (archivos st1) →
                 fin_de_menu (menu_bucle fuel st1)) as Hsigue.
  { intros st1 H1. apply IH. simpl in Hfuel. lia. }
  cbv zeta.
  repeat case_decide;
    try (apply (seguro_y_sigue _ _ (length resto));
         [solve [repeat (first [by left | right])]|done|done|done]).
  - split; [done|by left].
  - rewrite (bind_Ok _ _ _ _ _ (print_run _ _)). by apply Hsigue.
Qed.

Lemma menu_bucle_despedida fuel : ∀ st st',
  menu_bucle fuel st = (Ok (), st') →
  ∃ antes, salida st' = antes ++ [Linea "Saliendo del sistema..."].
Proof.
  induction fuel as [|fuel IH]; intros st st' Hrun; [done|].
  simpl menu_bucle in Hrun.
  do 7 (rewrite (bind_Ok _ _ _ _ _ (print_run _ _)) in Hrun).
  rewrite input_casos in Hrun.
  match type of Hrun with context [entrada ?s] => destruct (entrada s) as [|l resto] end;
    [done|].
  cbv zeta in Hrun.
  assert (∀ (op : M unit) s, (op;; menu_bucle fuel) s = (Ok (), st') →
            ∃ antes, salida st' = antes ++ [Linea "Saliendo del sistema..."]) as Hsigue.
  { intros op s H. unfold mbind, M_bind in H.
    destruct (op s) as [[[]|e] s1]; [by eapply IH|done]. }
  repeat case_decide; try (by eapply Hsigue).
  injection Hrun as <-. by eexists.
Qed.

(** ** Search, read and list on a directory in order *)

Lemma sano_registros fs :
  sano fs → Forall (λ p, es_registro p.2 = true) (registros_cargados fs).
Proof.
  intros Hfs. apply Forall_forall. intros [cliente_id cliente] Hp.
  apply registros_cargados_archivo in Hp as (Hf & _ & Ht & _). simpl.
  apply (map_Forall_lookup_1 _ _ _ _ Hfs) in Hf. unfold documento_sano in Hf.
  by rewrite es_archivo_cliente_archivo_de, Ht in Hf.
Qed.

Lemma filter_todos {A : Type} (p : A → bool) l :
  (∀ x, p x = true) → List.filter p l = l.
Proof.
  intros Hp. induction l as [|x l IH]; [done|]. simpl. by rewrite Hp, IH.
Qed.

(** X9. A search by name with the empty value finds every client: on a
    directory in order it returns all the loaded records, in listing order,
    so that a read by name with a blank answer shows them all. *)
Theorem buscar_clientes_nombre_vacio st :
  sano (archivos st) →
  ∃ st',
    buscar_clientes "nombre" "" st = (Ok (registros_cargados (archivos st)), st')
    ∧ salvo_bitacora st st'.
Proof.
  intros Hst.
  destruct (buscar_clientes_run "nombre" "" st
              (legible_se_cargan _ _ (sano_legible _ Hst)) (λ _, sano_registros _ Hst))
    as (st' & Hrun & Hst').
  exists st'. split; [|done]. rewrite Hrun. unfold find.
  rewrite filter_todos; [done|]. intros p. unfold cumple.
  repeat case_decide; try done.
  change (PyStr.lower "") with "". by destruct (PyStr.lower _).
Qed.

Lemma buscar_clientes_nombre_vacio_witness :
  sano (archivos estado_ejemplo)
  ∧ ∃ st',
      buscar_clientes "nombre" "" estado_ejemplo
      = (Ok (registros_cargados (archivos estado_ejemplo)), st').
Proof.
  split; [exact sano_estado_ejemplo|].
  destruct (buscar_clientes_nombre_vacio estado_ejemplo sano_estado_ejemplo)
    as (st' & Hrun & _).
  exists st'. exact Hrun.
Defined.

Lemma linea_lectura_run p st :
  es_registro p.2 = true →
  linea_lectura p st = (Ok (), con_salida (salida st ++ [texto_lectura p]) st).
Proof.
  destruct p as [cliente_id cliente]. simpl. intros Hreg. unfold linea_lectura.
  rewrite (bind_Ok _ _ _ _ _ (campo_run "numero_cliente" _ _ Hreg (en_campos "numero_cliente" eq_refl))).
  rewrite (bind_Ok _ _ _ _ _ (campo_run "nombre" _ _ Hreg (en_campos "nombre" eq_refl))).
  rewrite (bind_Ok _ _ _ _ _ (campo_run "apellido" _ _ Hreg (en_campos "apellido" eq_refl))).
  rewrite (bind_Ok _ _ _ _ _ (campo_run "tipo" _ _ Hreg (en_campos "tipo" eq_refl))).
  rewrite (bind_Ok _ _ _ _ _ (campo_run "contacto" _ _ Hreg (en_campos "contacto" eq_refl))).
  rewrite (bind_Ok _ _ _ _ _ (campo_servicios_run _ _ Hreg)).
  rewrite (bind_Ok _ _ _ _ _ (campo_run "fecha_registro" _ _ Hreg (en_campos "fecha_registro" eq_refl))).
  reflexivity.
Qed.

Lemma por_cada_lectura l : ∀ st,
  Forall (λ p, es_registro p.2 = true) l →
  por_cada linea_lectura l st
  = (Ok (), con_salida (salida st ++ (texto_lectura <$> l)) st).
Proof.
  induction l as [|p l IH]; intros st Hl.
  - simpl. unfold mret, M_ret. destruct st. unfold con_salida. simpl.
    by rewrite app_nil_r.
  - apply Forall_cons in Hl as [Hp Hl]. simpl por_cada.
    rewrite (bind_Ok _ _ _ _ _ (linea_lectura_run _ _ Hp)), IH by done.
    destruct st. unfold con_salida. simpl. by rewrite <- app_assoc.
Qed.

(** X16. On a directory in order whose records are ASCII text, a read
    with a valid selector and a value of ASCII text prints one line with the
    seven fields for each client that the search finds, in the order of the
    search, or the notice that there is none, and changes neither the
    directory nor the dictionary nor the counter. *)
Theorem leer_cliente_correcto st seleccion criterio valor resto :
  entrada st = seleccion :: valor :: resto →
  criterio_de (PyStr.strip seleccion) = Some criterio →
  sano (archivos st) →
  texto_ascii (archivos st) →
  PyStr.es_ascii valor = true →
  let encontrados := find criterio (PyStr.strip valor) (archivos st) in
  ∃ st',
    leer_cliente st = (Ok (), st')
    ∧ salida st'
      = salida st
        ++ (if bool_decide (encontrados = [])
            then [Linea "No se encontraron clientes con ese criterio."]
            else texto_lectura <$> encontrados)
    ∧ entrada st' = resto
    ∧ archivos st' = archivos st
    ∧ clientes st' = clientes st
    ∧ CONTADOR_CLIENTE st' = CONTADOR_CLIENTE st.
Proof.
  intros Hent Hc Hst _ _ encontrados.
  pose proof (sano_registros _ Hst) as Hreg.
  destruct (buscar_clientes_run criterio (PyStr.strip valor) (con_entrada resto
              (con_entrada (valor :: resto) st))
              (legible_se_cargan _ _ (sano_legible _ Hst)) (λ _, Hreg))
    as (st_b & Hbuscar & [b ->]).
  change (find criterio (PyStr.strip valor) _) with encontrados in Hbuscar.
  assert (Forall (λ p, es_registro p.2 = true) encontrados) as Hbuenos.
  { apply Forall_forall. intros p [Hp _]%elem_of_find.
    by apply (proj1 (Forall_forall _ _) Hreg). }
  assert (∀ p1 p2 p3,
            buscar_por (PyStr.strip seleccion) p1 p2 p3 (con_entrada (valor :: resto) st)
            = (Ok (Some encontrados),
               con_bitacora (bitacora st ++ b) (con_entrada resto st))) as Hpor.
  { intros. eapply buscar_por_Ok; [exact Hc|reflexivity|exact Hbuscar]. }
  unfold leer_cliente.
  rewrite (bind_Ok _ _ _ _ _ (input_run _ _ _ _ Hent)).
  rewrite (bind_Ok _ _ _ _ _ (Hpor _ _ _)).
  destruct encontrados as [|p l] eqn:E.
  - eexists. split; [reflexivity|]. by split_and!.
  - rewrite bool_decide_eq_true_2 by done.
    rewrite por_cada_lectura by done.
    eexists. split; [reflexivity|]. rewrite bool_decide_eq_false_2 by done.
    by split_and!.
Qed.

Lemma leer_cliente_correcto_witness :
  let st := con_entrada ["3"; "ana"] estado_ejemplo in
  entrada st = ["3"; "ana"]
  ∧ criterio_de (PyStr.strip "3") = Some "nombre"
  ∧ sano (archivos st)
  ∧ texto_ascii (archivos st)
  ∧ PyStr.es_ascii "ana" = true
  ∧ ∃ st',
      leer_cliente st = (Ok (), st')
      ∧ salida st' = [texto_lectura ("AB_20250602", registro_ejemplo)].
Proof.
  intros st.
  assert (criterio_de (PyStr.strip "3") = Some "nombre") as Hc by (by vm_compute).
  assert (find "nombre" (PyStr.strip "ana") (archivos st)
          = [("AB_20250602", registro_ejemplo)]) as Hfind by (by vm_compute).
  split; [reflexivity|]. split; [exact Hc|]. split; [exact sano_estado_ejemplo|].
  split; [exact estado_ejemplo_ascii|]. split; [reflexivity|].
  destruct (leer_cliente_correcto st "3" "nombre" "ana" [] eq_refl Hc sano_estado_ejemplo
              estado_ejemplo_ascii eq_refl)
    as (st' & Hrun & Hsal & _).
  exists st'. split; [exact Hrun|]. rewrite Hsal, Hfind. reflexivity.
Defined.

(** X17. A selector other than 1, 2 and 3: read, update and delete print
    their message and return, having read that one line and nothing else,
    and having changed nothing else. *)
Theorem seleccion_invalida st seleccion resto :
  entrada st = seleccion :: resto →
  criterio_de (PyStr.strip seleccion) = None →
  let tras mensaje := con_salida (salida st ++ [Linea mensaje]) (con_entrada resto st) in
  leer_cliente st = (Ok (), tras "Opción inválida. Use 1 para ID o 2 para nombre.")
  ∧ modificar_cliente st
    = (Ok (), tras "Opción no válida. Use 1 para Número, 2 para ID o 3 para nombre.")
  ∧ eliminar_cliente st
    = (Ok (), tras "Opción no válida. Use 1 para Número, 2 para ID o 3 para nombre.").
Proof.
  intros Hent Hc tras.
  assert (∀ p1 p2 p3 s, buscar_por (PyStr.strip seleccion) p1 p2 p3 s = (Ok None, s))
    as Hbuscar.
  { intros. unfold buscar_por. unfold criterio_de in Hc.
    by repeat case_decide. }
  unfold leer_cliente, modificar_cliente, eliminar_cliente.
  rewrite !(bind_Ok _ _ _ _ _ (input_run _ _ _ _ Hent)).
  by rewrite !(bind_Ok _ _ _ _ _ (Hbuscar _ _ _ _)).
Qed.

Lemma seleccion_invalida_witness :
  let st := con_entrada ["4"] estado_inicial in
  entrada st = ["4"]
  ∧ criterio_de (PyStr.strip "4") = None
  ∧ eliminar_cliente st
    = (Ok (),
       con_salida
         [Linea "Opción no válida. Use 1 para Número, 2 para ID o 3 para nombre."]
         estado_inicial).
Proof.
  intros st.
  assert (criterio_de (PyStr.strip "4") = None) as Hc by (by vm_compute).
  split; [reflexivity|]. split; [exact Hc|].
  exact (proj2 (proj2 (seleccion_invalida st "4" [] eq_refl Hc))).
Defined.

(** ** List *)

(** X18. On a directory in order whose records are ASCII text, a list
    prints the notice when the directory has no entry at all, and otherwise
    one summary line for each loaded record, in listing order, and nothing
    else; it changes nothing but the output and the log. *)
Theorem listar_clientes_correcto st :
  sano (archivos st) →
  texto_ascii (archivos st) →
  ∃ b,
    listar_clientes st
    = (Ok (),
       con_bitacora (bitacora st ++ b)
         (con_salida
            (salida st
             ++ (if decide (archivos st = ∅)
                 then [Linea "No hay clientes registrados."]
                 else texto_listado <$> registros_cargados (archivos st)))
            st)).
Proof.
  intros Hst _. destruct (decide (archivos st = ∅)) as [Hfs|Hfs].
  - exists []. rewrite (listar_clientes_vacio _ Hfs).
    destruct st. unfold con_bitacora, con_salida. simpl. by rewrite app_nil_r.
  - by apply listar_clientes_run;
      [|apply legible_se_cargan, sano_legible|apply sano_registros].
Qed.

Lemma listar_clientes_correcto_witness :
  sano (archivos estado_ejemplo)
  ∧ texto_ascii (archivos estado_ejemplo)
  ∧ ∃ st', listar_clientes estado_ejemplo = (Ok (), st')
           ∧ length (salida st') = 2%nat.
Proof.
  split; [exact sano_estado_ejemplo|]. split; [exact estado_ejemplo_ascii|].
  destruct (listar_clientes_correcto estado_ejemplo sano_estado_ejemplo
              estado_ejemplo_ascii) as [b Hrun].
  eexists. split; [exact Hrun|]. reflexivity.
Defined.

(** ** Start-up *)

Lemma contiene_clave_registro v k :
  es_registro v = true → k ∈ campos_de_texto →
  Py.contiene_clave k v = Ok true.
Proof.
  intros (d & l & -> & _ & _ & Hk)%es_registro_JObj Hin.
  destruct (Hk k Hin) as [s Hs]. simpl. rewrite Hs.
  by rewrite bool_decide_eq_true_2 by by eexists.
Qed.

Lemma max_numero_run dir : ∀ max_num st,
  legible (archivos st) →
  Forall (λ p, es_registro p.2 = true ∧ is_Some (numero_del_cliente p))
    (omap (registro_de (archivos st)) dir) →
  ∃ n st',
    max_numero dir max_num st = (Ok n, st')
    ∧ salvo_bitacora st st'
    ∧ max_num ≤ n
    ∧ (∀ p k, p ∈ omap (registro_de (archivos st)) dir →
              numero_del_cliente p = Some k → k ≤ n)
    ∧ (n = max_num
       ∨ ∃ p, p ∈ omap (registro_de (archivos st)) dir ∧ numero_del_cliente p = Some n).
Proof.
  induction dir as [|f resto IH]; intros max_num st Hleg Hreg.
  { exists max_num, st. split; [done|]. split; [apply salvo_bitacora_refl|].
    split; [lia|]. split; [|by left]. intros p k Hp. by apply elem_of_nil in Hp. }
  simpl max_numero. simpl omap in *.
  set (cliente_id := id_de_archivo f) in *.
  set (cliente := cargado (archivos st) cliente_id) in *.
  assert (registro_de (archivos st) f
          = if es_archivo_cliente f
            then if Py.truth cliente then Some (cliente_id, cliente) else None
            else None) as Hr by reflexivity.
  destruct (es_archivo_cliente f); [|rewrite Hr in *; by apply IH].
  rewrite (bind_Ok _ _ _ _ _ (cargar_cliente_run _ _ (legible_cargable _ _ Hleg))).
  fold cliente_id. fold cliente.
  set (st1 := tras_cargar cliente_id st) in *.
  assert (archivos st1 = archivos st) as Hfs by apply tras_cargar_archivos.
  assert (salvo_bitacora st st1) as Hst1 by apply salvo_bitacora_tras_cargar.
  destruct (Py.truth cliente); rewrite Hr in *; clear Hr.
  2:{ unfold mbind at 1, M_bind at 1, mret at 1, M_ret at 1.
      destruct (IH max_num st1) as (n & st' & Hrun & Hst' & Hle & Hmax & Hes).
      { by rewrite Hfs. }
      { by rewrite Hfs. }
      rewrite Hfs in Hmax, Hes.
      exists n, st'. split_and!; [done|by eapply salvo_bitacora_trans|done..]. }
  apply Forall_cons in Hreg as [[Hv [num Hnum]] Hreg]. simpl in Hv.
  unfold numero_del_cliente in Hnum. simpl in Hnum.
  unfold mbind at 1, M_bind at 1, lift at 1.
  rewrite (contiene_clave_registro _ "numero_cliente" Hv (en_campos "numero_cliente" eq_refl)).
  unfold mbind at 1, M_bind at 1, lift at 1.
  rewrite (es_registro_item _ "numero_cliente" Hv (en_campos "numero_cliente" eq_refl)).
  unfold mbind at 1, M_bind at 1, lift at 1. simpl Py.replace. cbv beta iota.
  unfold numero_de in Hnum. rewrite Hnum.
  destruct (IH (Z.max max_num num) st1) as (n & st' & Hrun & Hst' & Hle & Hmax & Hes).
  { by rewrite Hfs. }
  { by rewrite Hfs. }
  rewrite Hfs in Hmax, Hes.
  exists n, st'. split_and!; [done|by eapply salvo_bitacora_trans|lia| |].
  - intros p k [->|Hp]%elem_of_cons Hk; [|by eapply Hmax].
    unfold numero_del_cliente, numero_de in Hk. simpl in Hk.
    rewrite Hnum in Hk. injection Hk as <-. lia.
  - destruct Hes as [->|(p & Hp & Hn)].
    + destruct (Z.max_spec max_num num) as [[_ ->]|[_ ->]]; [|by left].
      right. exists (cliente_id, cliente). split; [by left|done].
    + right. exists p. split; [by right|done].
Qed.

(** X19. Without a counter file, on a directory in order whose customer
    numbers all read as integers, the start-up code returns with the counter
    set to the highest number in use, or to 0 when there is none, and writes
    it to the counter file; the first number issued afterwards is above
    every number in use. *)
Theorem inicio_reconstruye st :
  archivos st !! CONTADOR_FILE = None →
  sano (archivos st) →
  Forall (λ p, is_Some (numero_del_cliente p)) (registros_cargados (archivos st)) →
  ∃ n st',
    inicio st = (Ok (), st')
    ∧ CONTADOR_CLIENTE st' = n
    ∧ archivos st' = <[CONTADOR_FILE := Json (JNum n)]> (archivos st)
    ∧ clientes st' = ∅
    ∧ 0 ≤ n
    ∧ (∀ p k, p ∈ registros_cargados (archivos st) →
              numero_del_cliente p = Some k → k ≤ n)
    ∧ (n = 0
       ∨ ∃ p, p ∈ registros_cargados (archivos st) ∧ numero_del_cliente p = Some n)
    ∧ (generate_cliente_number st').1 = Ok ("C" +:+ PyStr.format_03d (n + 1)).
Proof.
  intros Hno Hst Hnum.
  assert (Forall (λ p, es_registro p.2 = true ∧ is_Some (numero_del_cliente p))
            (registros_cargados (archivos st))) as Hreg.
  { apply Forall_and. split; [by apply sano_registros|done]. }
  destruct (max_numero_run (map_to_list (archivos st)).*1 0 (con_clientes ∅ st)
              (sano_legible _ Hst) Hreg)
    as (n & st1 & Hrun & [b ->] & Hle & Hmax & Hes).
  exists n. eexists. split.
  { unfold inicio. unfold mbind at 1, M_bind at 1, modificar_estado at 1.
    rewrite (bind_Ok _ _ _ _ _ (path_exists_run _ _)).
    cbn [archivos con_clientes]. unfold existe. rewrite Hno.
    rewrite bool_decide_eq_false_2 by (by intros [? ?]). rewrite andb_false_r.
    rewrite (bind_Ok _ _ _ _ _ (listdir_run _)).
    cbn [archivos con_clientes].
    rewrite (bind_Ok _ _ _ _ _ Hrun).
    unfold mbind, M_bind, modificar_estado, escribir.
    rewrite nombre_valido_CONTADOR_FILE. reflexivity. }
  by split_and!.
Qed.

Lemma estado_sin_contador_numeros :
  Forall (λ p, is_Some (numero_del_cliente p))
    (registros_cargados (archivos estado_sin_contador)).
Proof.
  assert (registros_cargados (archivos estado_sin_contador)
          = [("CD_20250602", registro_ejemplo_2); ("AB_20250602", registro_ejemplo)])
    as -> by (by vm_compute).
  repeat (apply List.Forall_cons; [eexists; vm_compute; reflexivity|]).
  apply List.Forall_nil.
Qed.

Lemma sano_estado_sin_contador : sano (archivos estado_sin_contador).
Proof. apply sano_delete, sano_estado_ejemplo. Qed.

Lemma inicio_reconstruye_witness :
  archivos estado_sin_contador !! CONTADOR_FILE = None
  ∧ sano (archivos estado_sin_contador)
  ∧ Forall (λ p, is_Some (numero_del_cliente p))
      (registros_cargados (archivos estado_sin_contador))
  ∧ ∃ n st', inicio estado_sin_contador = (Ok (), st') ∧ CONTADOR_CLIENTE st' = n.
Proof.
  assert (archivos estado_sin_contador !! CONTADOR_FILE = None) as Hno
    by apply lookup_delete_eq.
  split; [exact Hno|]. split; [exact sano_estado_sin_contador|].
  split; [exact estado_sin_contador_numeros|].
  destruct (inicio_reconstruye estado_sin_contador Hno sano_estado_sin_contador
              estado_sin_contador_numeros)
    as (n & st' & Hrun & Hn & _).
  exists n, st'. split; [exact Hrun|exact Hn].
Defined.

(** X20. With a counter file that holds the numeral of [n], the start-up
    code takes [n] as the counter without looking at the records: the
    directory and the log stay as they are, and the first number issued is
    that of [n + 1].  With a counter file whose text is no integer it raises
    [ValueError], and the program does not start. *)
Theorem inicio_con_contador st :
  (∀ n, archivos st !! CONTADOR_FILE = Some (Json (JNum n)) →
        inicio st = (Ok (), con_contador n (con_clientes ∅ st))
        ∧ ((inicio;; generate_cliente_number) st).1
          = Ok ("C" +:+ PyStr.format_03d (n + 1)))
  ∧ (∀ s, archivos st !! CONTADOR_FILE = Some (NoJson s) →
          PyStr.int (PyStr.strip s) = None →
          inicio st = (Raise ValueError, con_clientes ∅ st)).
Proof.
  assert (∀ c, archivos st !! CONTADOR_FILE = Some c →
               inicio st
               = (n ← leer_int c; modificar_estado (con_contador n)) (con_clientes ∅ st))
    as Hinicio.
  { intros c Hc. unfold inicio. unfold mbind at 1, M_bind at 1, modificar_estado at 1.
    rewrite (bind_Ok _ _ _ _ _ (path_exists_run _ _)).
    cbn [archivos con_clientes]. unfold existe.
    rewrite nombre_valido_CONTADOR_FILE, Hc, bool_decide_eq_true_2 by (by eexists).
    cbn [andb]. unfold mbind at 1, M_bind at 1, leer.
    rewrite nombre_valido_CONTADOR_FILE. cbn [archivos con_clientes].
    by rewrite Hc. }
  split.
  - intros n Hc.
    assert (inicio st = (Ok (), con_contador n (con_clientes ∅ st))) as Hrun
      by (by rewrite (Hinicio _ Hc)).
    split; [done|].
    by rewrite (bind_Ok _ _ _ _ _ Hrun), generate_cliente_number_run.
  - intros s Hc Hs. rewrite (Hinicio _ Hc).
    unfold leer_int, mbind, M_bind. by rewrite Hs.
Qed.

Lemma inicio_con_contador_witness :
  archivos estado_ejemplo !! CONTADOR_FILE = Some (Json (JNum 2))
  ∧ ((inicio;; generate_cliente_number) estado_ejemplo).1 = Ok "C003".
Proof.
  assert (archivos estado_ejemplo !! CONTADOR_FILE = Some (Json (JNum 2))) as H
    by (by vm_compute).
  split; [exact H|].
  exact (proj2 (proj1 (inicio_con_contador estado_ejemplo) 2 H)).
Defined.

(** ** The start-up code on a directory in order *)

Lemma seguro_max_numero E dir : ∀ max_num,
  E ValueError → seguro E (max_numero dir max_num) (λ _, True).
Proof.
  induction dir as [|f resto IH]; intros max_num HE; simpl.
  { by apply seguro_mret. }
  destruct (es_archivo_cliente f); [|by apply IH].
  eapply seguro_bind; [apply seguro_cargar_cliente|].
  intros cliente Hcliente. simpl in Hcliente.
  destruct (Py.truth cliente).
  2:{ eapply (seguro_bind _ _ _ (λ b, b = false)); [by apply seguro_mret|].
      intros ? ->. by apply IH. }
  destruct (Hcliente eq_refl) as [Hv _]. simpl in Hv.
  rewrite (contiene_clave_registro _ "numero_cliente" Hv (en_campos "numero_cliente" eq_refl)).
  eapply (seguro_bind _ _ _ (λ b, b = true)); [by apply seguro_puro; eauto|].
  intros ? ->.
  rewrite (es_registro_item _ "numero_cliente" Hv (en_campos "numero_cliente" eq_refl)).
  eapply (seguro_bind _ _ _ (λ v, v = JStr (texto "numero_cliente" cliente)));
    [by apply seguro_puro; eauto|].
  intros ? ->.
  eapply (seguro_bind _ _ _ (λ _, True)); [by apply seguro_puro; eauto|].
  intros s _. destruct (PyStr.int s); [by apply IH|].
  intros st Hst. by split.
Qed.

Lemma seguro_leer_existente {A : Type} E nombre (k : contenido → M A) (k' : M A) Q :
  (∀ c, seguro E (k c) Q) → seguro E k' Q →
  seguro E (hay ← path_exists nombre; if hay : bool then c ← leer nombre; k c else k') Q.
Proof.
  intros Hk Hk' st Hst. rewrite (bind_Ok _ _ _ _ _ (path_exists_run _ _)).
  destruct (existe (archivos st) nombre) eqn:He; [|by apply Hk'].
  unfold existe in He. apply andb_true_iff in He as [Hv He].
  apply bool_decide_eq_true in He as [c Hc].
  unfold mbind, M_bind, leer. rewrite Hv, Hc. by apply Hk.
Qed.

Lemma seguro_leer_int E c :
  E ValueError → E UnicodeDecodeError → seguro E (leer_int c) (λ _, True).
Proof.
  intros HE HE' st Hst. unfold leer_int.
  destruct c as [[]|s|[]]; try done. by destruct (PyStr.int (PyStr.strip s)).
Qed.

Lemma seguro_con_contador E n : seguro E (modificar_estado (con_contador n)) (λ _, True).
Proof. by intros st Hst. Qed.

Lemma seguro_escribir_contador E c : seguro E (escribir CONTADOR_FILE c) (λ _, True).
Proof.
  intros st Hst. unfold escribir. rewrite nombre_valido_CONTADOR_FILE.
  split; [|done]. by apply sano_insert_contador.
Qed.

Lemma seguro_inicio E :
  E ValueError → E UnicodeDecodeError → seguro E inicio (λ _, True).
Proof.
  intros HE HE'. unfold inicio.
  eapply seguro_bind; [apply seguro_con_clientes|]. intros _ _.
  apply seguro_leer_existente.
  - intros c. eapply seguro_bind; [by apply seguro_leer_int|]. intros n _.
    apply seguro_con_contador.
  - eapply (seguro_bind _ _ _ (λ _, True)); [by apply seguro_puro; eauto|].
    intros dir _.
    eapply seguro_bind; [by apply seguro_max_numero|]. intros n _.
    eapply seguro_bind; [apply seguro_con_contador|]. intros _ _.
    apply seguro_escribir_contador.
Qed.

Lemma seguro_menu : seguro solo_EOF menu (λ _, True).
Proof.
  intros st Hst. unfold menu. rewrite (bind_Ok _ _ _ st st) by done.
  destruct (menu_bucle_seguro (S (length (entrada st))) st) as [Hst' Hr]; [lia|done|].
  split; [done|]. destruct Hr as [->| ->]; done.
Qed.

Lemma seguro_principal : seguro fin_de_programa principal (λ _, True).
Proof.
  unfold principal.
  eapply seguro_bind; [apply seguro_inicio; [by left|by right; left]|]. intros _ _.
  eapply seguro_bind; [apply seguro_info|]. intros _ _.
  intros st Hst. destruct (seguro_menu st Hst) as [Hst' Hr]. split; [done|].
  destruct (menu st).1; [done|]. right. right. exact Hr.
Qed.

(** ** Saving and loading when it goes wrong *)

(** X4. Saving under an identifier whose file cannot be created saves
    nothing: with a NUL in the name [guardar_cliente] raises [ValueError],
    otherwise it returns after one error line on the output and one in the
    log; the directory is as before, and loading the identifier gives
    [None]. *)
Theorem guardar_cliente_nombre_invalido st cliente_id datos :
  nombre_valido (archivo_de cliente_id) = false →
  guardar_cliente cliente_id datos st
  = (if PyStr.contiene NUL (archivo_de cliente_id)
     then (Raise ValueError, st)
     else (Ok (),
           con_salida (salida st ++ [LineaError "Error al guadar al cliente: " OSError])
             (con_bitacora
                (bitacora st
                 ++ [Error ("Error al guardar cliente " +:+ cliente_id +:+ ": ") OSError])
                st)))
  ∧ archivos (guardar_cliente cliente_id datos st).2 = archivos st
  ∧ ∀ st1, cargar_cliente cliente_id st1 = (Ok JNull, st1).
Proof.
  intros Hv.
  assert (guardar_cliente cliente_id datos st
          = (if PyStr.contiene NUL (archivo_de cliente_id)
             then (Raise ValueError, st)
             else (Ok (),
                   con_salida (salida st ++ [LineaError "Error al guadar al cliente: " OSError])
                     (con_bitacora
                        (bitacora st
                         ++ [Error ("Error al guardar cliente " +:+ cliente_id +:+ ": ")
                                   OSError])
                        st)))) as Hrun.
  { unfold guardar_cliente, intentar, escribir, error_de_nombre.
    unfold mbind at 2, M_bind at 2. rewrite Hv.
    by destruct (PyStr.contiene NUL (archivo_de cliente_id)). }
  split; [exact Hrun|]. split.
  - rewrite Hrun. by destruct (PyStr.contiene NUL (archivo_de cliente_id)).
  - intros st1. by apply cargar_cliente_sin_nombre.
Qed.

Lemma guardar_cliente_nombre_invalido_witness :
  nombre_valido (archivo_de "a/b") = false
  ∧ archivos (guardar_cliente "a/b" registro_ejemplo estado_inicial).2
    = archivos estado_inicial
  ∧ cargar_cliente "a/b" estado_inicial = (Ok JNull, estado_inicial).
Proof.
  assert (nombre_valido (archivo_de "a/b") = false) as H by (by vm_compute).
  split; [exact H|].
  destruct (guardar_cliente_nombre_invalido estado_inicial "a/b" registro_ejemplo H)
    as (_ & Hfs & Hcargar).
  split; [exact Hfs|apply Hcargar].
Defined.

(** X5. [cargar_cliente] changes nothing but the log, and returns unless
    [json.load] gives up on the file: it returns the document of the file of
    the identifier, or [None] for a missing file, the log being as it was,
    and for a file whose text is not JSON.  On a file that [json.load] gives
    up on it raises what [json.load] raises, which its [except] clause does
    not catch, and leaves the state as it is. *)
Theorem cargar_cliente_casos cliente_id st :
  salvo_bitacora st (cargar_cliente cliente_id st).2
  ∧ (cargable (archivos st) cliente_id = true →
     ∃ v st',
       cargar_cliente cliente_id st = (Ok v, st')
       ∧ (v = JNull ∨ archivos st !! archivo_de cliente_id = Some (Json v))
       ∧ (archivos st !! archivo_de cliente_id = None → v = JNull ∧ st' = st)
       ∧ (∀ s, archivos st !! archivo_de cliente_id = Some (NoJson s) → v = JNull))
  ∧ (∀ i, nombre_valido (archivo_de cliente_id) = true →
          archivos st !! archivo_de cliente_id = Some (Ilegible i) →
          cargar_cliente cliente_id st = (Raise (excepcion_de i), st)).
Proof.
  assert (∀ i, nombre_valido (archivo_de cliente_id) = true →
               archivos st !! archivo_de cliente_id = Some (Ilegible i) →
               cargar_cliente cliente_id st = (Raise (excepcion_de i), st)) as Hraise.
  { intros i Hv Hi.
    destruct (cargar_cliente_ilegible cliente_id st) as (j & Hj & Hrun).
    - unfold cargable. by rewrite Hi, Hv.
    - rewrite Hi in Hj. by injection Hj as ->. }
  split_and!; [| |exact Hraise].
  - destruct (cargable (archivos st) cliente_id) eqn:Hcarga.
    + rewrite cargar_cliente_run by done. apply salvo_bitacora_tras_cargar.
    + apply cargar_cliente_ilegible in Hcarga as (i & _ & ->). apply salvo_bitacora_refl.
  - intros Hcarga. eexists _, _. split; [by apply cargar_cliente_run|].
    unfold cargado, tras_cargar, existe.
    destruct (nombre_valido (archivo_de cliente_id)); simpl.
    + destruct (archivos st !! archivo_de cliente_id) as [[v|s|i]|] eqn:Hf.
      * rewrite bool_decide_eq_true_2 by (by eexists). split_and!; [by right|done..].
      * rewrite bool_decide_eq_true_2 by (by eexists). split_and!; [by left|done..].
      * rewrite bool_decide_eq_true_2 by (by eexists). split_and!; [by left|done..].
      * rewrite bool_decide_eq_false_2 by (by intros [? ?]). split_and!; [by left|done..].
    + split_and!; [by left|done..].
Qed.

(** ** What holds through every operation *)

(** X21. Through each of the five operations and through a whole session
    of the menu, whatever the input and the directory hold and whether the
    operation returns or raises: the counter does not go down, and if the
    counter file held its numeral before it does so afterwards; lines are
    only taken from the input and only added to the output and to the log;
    the clock is not touched; and a file that is neither the counter file
    nor a client file stays as it is. *)
Theorem operaciones_avanzan op st f :
  op ∈ operaciones ++ [menu] →
  let st' := (op st).2 in
  CONTADOR_CLIENTE st ≤ CONTADOR_CLIENTE st'
  ∧ (contador_al_dia st → contador_al_dia st')
  ∧ entrada st' `suffix_of` entrada st
  ∧ salida st `prefix_of` salida st'
  ∧ bitacora st `prefix_of` bitacora st'
  ∧ ahora st' = ahora st
  ∧ (f ≠ CONTADOR_FILE → es_archivo_cliente f = false →
     archivos st' !! f = archivos st !! f).
Proof.
  intros [Hop|Hop]%elem_of_app st'.
  - destruct (respeta_operaciones op Hop st) as [(H1 & H2 & H3 & H4 & H5 & H6 & H7) _].
    split_and!; try done. apply H7.
  - apply list_elem_of_singleton in Hop as ->.
    destruct (avanza_menu st) as [(H1 & H2 & H3 & H4 & H5 & H6 & H7) _].
    split_and!; try done. apply H7.
Qed.

Lemma operaciones_avanzan_witness :
  let st := con_entrada ["Juan"; "Perez"; "Persona"; "5512345678"] estado_inicial in
  crear_cliente ∈ operaciones ++ [menu]
  ∧ contador_al_dia st
  ∧ CONTADOR_CLIENTE st ≤ CONTADOR_CLIENTE (crear_cliente st).2
  ∧ contador_al_dia (crear_cliente st).2.
Proof.
  intros st.
  assert (crear_cliente ∈ operaciones ++ [menu]) as Hop by left.
  assert (contador_al_dia st) as Hdia by (by vm_compute).
  split; [exact Hop|]. split; [exact Hdia|].
  destruct (operaciones_avanzan crear_cliente st "" Hop) as (H1 & H2 & _).
  split; [exact H1|exact (H2 Hdia)].
Defined.

(** X22. A read, a list, a search and a load never change the directory,
    the dictionary or the counter, whatever the input and the directory hold
    and whether they return or raise; they only take lines from the input
    and add lines to the output and to the log. *)
Theorem consultas_solo_leen st criterio valor cliente_id :
  solo_lee st (leer_cliente st).2
  ∧ solo_lee st (listar_clientes st).2
  ∧ solo_lee st (buscar_clientes criterio valor st).2
  ∧ solo_lee st (cargar_cliente cliente_id st).2.
Proof.
  split_and!.
  - apply solo_lee_leer_cliente.
  - apply solo_lee_listar_clientes.
  - apply solo_lee_buscar_clientes.
  - apply solo_lee_cargar_cliente.
Qed.

(** X23. On a directory in order (no client file is beyond [json.load],
    and every client file that holds a JSON document which a search does not
    skip holds a client record), each of the five operations returns
    normally or stops at the end of the input with [EOFError], and never
    with another exception; it leaves the directory in order. *)
Theorem operaciones_en_orden op st :
  op ∈ operaciones →
  sano (archivos st) →
  sano (archivos (op st).2)
  ∧ ((op st).1 = Ok () ∨ (op st).1 = Raise EOFError).
Proof.
  intros Hop Hst. destruct (seguro_operaciones op Hop st Hst) as [Hst' Hr].
  split; [done|]. destruct (op st).1 as [[]|e]; [by left|right; by rewrite Hr].
Qed.

Lemma operaciones_en_orden_witness :
  let st := con_entrada ["3"; "ana"; " telefonia "] estado_ejemplo in
  modificar_cliente ∈ operaciones
  ∧ sano (archivos st)
  ∧ sano (archivos (modificar_cliente st).2)
  ∧ ((modificar_cliente st).1 = Ok () ∨ (modificar_cliente st).1 = Raise EOFError).
Proof.
  intros st.
  assert (modificar_cliente ∈ operaciones) as Hop by (right; right; left).
  split; [exact Hop|]. split; [exact sano_estado_ejemplo|].
  exact (operaciones_en_orden modificar_cliente st Hop sano_estado_ejemplo).
Defined.

(** ** The menu and the program *)

Lemma menu_despedida st :
  (menu st).1 = Ok () →
  ∃ antes, salida (menu st).2 = antes ++ [Linea "Saliendo del sistema..."].
Proof.
  destruct (menu st) as [r st'] eqn:Hrun. simpl. intros ->.
  unfold menu in Hrun. rewrite (bind_Ok _ _ _ st st) in Hrun by done.
  by eapply menu_bucle_despedida.
Qed.

Lemma menu_en_orden st :
  sano (archivos st) →
  sano (archivos (menu st).2)
  ∧ ((menu st).1 = Ok () ∨ (menu st).1 = Raise EOFError).
Proof.
  intros Hst. destruct (seguro_menu st Hst) as [Hst' Hr].
  split; [done|]. destruct (menu st).1 as [[]|e]; [by left|right; by rewrite Hr].
Qed.

(** X24. A session of the menu always ends: the loop of the model never
    runs out of fuel.  When it returns, the last line printed is the
    farewell of option 6.  On a directory in order it returns, or stops at
    the end of the input with [EOFError], and leaves the directory in
    order. *)
Theorem menu_termina st :
  (menu st).1 ≠ Raise SinCombustible
  ∧ ((menu st).1 = Ok () →
     ∃ antes, salida (menu st).2 = antes ++ [Linea "Saliendo del sistema..."])
  ∧ (sano (archivos st) →
     sano (archivos (menu st).2)
     ∧ ((menu st).1 = Ok () ∨ (menu st).1 = Raise EOFError)).
Proof.
  split_and!.
  - apply avanza_menu.
  - apply menu_despedida.
  - apply menu_en_orden.
Qed.

Lemma menu_termina_witness :
  let st := con_entrada ["5"; "6"] estado_ejemplo in
  sano (archivos st)
  ∧ (menu st).1 = Ok ()
  ∧ ∃ antes, salida (menu st).2 = antes ++ [Linea "Saliendo del sistema..."].
Proof.
  intros st.
  assert ((menu st).1 = Ok ()) as Hrun by (by vm_compute).
  split; [exact sano_estado_ejemplo|]. split; [exact Hrun|].
  exact (proj1 (proj2 (menu_termina st)) Hrun).
Defined.

(** X25. The program run as a script on a directory in order ends
    normally, or with [EOFError] at the end of the input, or with
    [ValueError] or [UnicodeDecodeError] raised by the start-up code; once
    the start-up code has returned only the first two are left.  When the
    program ends normally the last line printed is the farewell, and in
    every case the directory is left in order. *)
Theorem principal_en_orden st :
  sano (archivos st) →
  let r := principal st in
  sano (archivos r.2)
  ∧ (r.1 = Ok () ∨ r.1 = Raise EOFError ∨ r.1 = Raise ValueError
     ∨ r.1 = Raise UnicodeDecodeError)
  ∧ ((inicio st).1 = Ok () → r.1 = Ok () ∨ r.1 = Raise EOFError)
  ∧ (r.1 = Ok () →
     ∃ antes, salida r.2 = antes ++ [Linea "Saliendo del sistema..."]).
Proof.
  intros Hst r. unfold r. clear r.
  destruct (seguro_principal st Hst) as [Hst' Hr]. split; [done|].
  split.
  { destruct (principal st).1 as [[]|e]; [by left|].
    destruct Hr as [->|[->| ->]];
      [by right; right; left|by right; right; right|by right; left]. }
  unfold principal.
  destruct (seguro_inicio (λ e, e = ValueError ∨ e = UnicodeDecodeError)
              (or_introl eq_refl) (or_intror eq_refl) st Hst) as [Hst1 _].
  destruct (inicio st) as [[[]|e] st1] eqn:Hinicio; simpl in *.
  2:{ rewrite (bind_Raise _ _ _ _ _ Hinicio). simpl. by split. }
  rewrite (bind_Ok _ _ _ _ _ Hinicio).
  match goal with |- context [mbind _ (info ?s) _] =>
    rewrite (bind_Ok _ _ _ () (con_bitacora (bitacora st1 ++ [Info s]) st1)) by done end.
  split; [intros _; by apply menu_en_orden|apply menu_despedida].
Qed.

Lemma principal_en_orden_witness :
  let st := con_entrada ["2"; "AB_20250602"; "6"] estado_sin_contador in
  sano (archivos st)
  ∧ sano (archivos (principal st).2)
  ∧ (principal st).1 = Ok ()
  ∧ CONTADOR_CLIENTE (principal st).2 = 2
  ∧ ∃ antes, salida (principal st).2 = antes ++ [Linea "Saliendo del sistema..."].
Proof.
  intros st.
  assert ((principal st).1 = Ok ()) as Hrun by (by vm_compute).
  assert (CONTADOR_CLIENTE (principal st).2 = 2) as Hn by (by vm_compute).
  split; [exact sano_estado_sin_contador|].
  destruct (principal_en_orden st sano_estado_sin_contador) as (H1 & _ & _ & H4).
  split; [exact H1|]. split; [exact Hrun|]. split; [exact Hn|exact (H4 Hrun)].
Defined.

(** ** What an update and a delete never do *)

Global Instance solo_guarda_preorden : PreOrder solo_guarda.
Proof.
  split.
  - intros st. by split_and!.
  - intros st1 st2 st3 (H1 & H2 & H3) (G1 & G2 & G3).
    split_and!; [congruence..|auto].
Qed.

Global Instance solo_quita_preorden : PreOrder solo_quita.
Proof.
  split.
  - intros st. by split_and!.
  - intros st1 st2 st3 (H1 & H2 & H3) (G1 & G2 & G3).
    split_and!; [congruence|by etrans..].
Qed.

Lemma respeta_incluida {A : Type} (R R' : relation estado) (m : M A) :
  (∀ st st', R st st' → R' st st') → respeta R m → respeta R' m.
Proof. intros HR Hm st. destruct (Hm st). split; [by apply HR|done]. Qed.

Lemma solo_lee_solo_guarda st st' : solo_lee st st' → solo_guarda st st'.
Proof. intros (H1 & H2 & H3 & _). split_and!; [done..|]. by rewrite H1. Qed.

Lemma solo_lee_solo_quita st st' : solo_lee st st' → solo_quita st st'.
Proof. intros (H1 & H2 & H3 & _). split_and!; [done|by rewrite H1|by rewrite H2]. Qed.

Lemma solo_guarda_guardar_cliente cliente_id datos :
  respeta solo_guarda (guardar_cliente cliente_id datos).
Proof.
  intros st. unfold guardar_cliente, intentar, escribir.
  unfold mbind at 2, M_bind at 2.
  destruct (nombre_valido (archivo_de cliente_id)).
  - split; [|done]. simpl. split_and!; [done..|].
    intros f Hf. simpl.
    destruct (decide (f = archivo_de cliente_id)) as [->|Hne].
    + rewrite lookup_insert_eq. by eexists.
    + by rewrite lookup_insert_ne.
  - unfold error_de_nombre.
    destruct (PyStr.contiene NUL (archivo_de cliente_id)); by split.
Qed.

Lemma solo_guarda_input prompt : respeta solo_guarda (input prompt).
Proof. intros st. unfold input. by destruct (entrada st). Qed.

Lemma solo_guarda_print l : respeta solo_guarda (print l).
Proof. by intros st. Qed.

Lemma solo_guarda_modificar_cliente : respeta solo_guarda modificar_cliente.
Proof.
  unfold modificar_cliente.
  descender_r ltac:(first
    [ apply (respeta_incluida _ _ _ solo_lee_solo_guarda), solo_lee_buscar_por
    | apply (respeta_incluida _ _ _ solo_lee_solo_guarda), solo_lee_campo
    | apply (respeta_incluida _ _ _ solo_lee_solo_guarda), solo_lee_linea_candidato
    | apply solo_guarda_guardar_cliente
    | apply solo_guarda_input | apply solo_guarda_print
    | apply respeta_por_cada; [apply _|]
    | apply respeta_bind; [apply _| |] ]).
Qed.

Lemma solo_quita_input prompt : respeta solo_quita (input prompt).
Proof. intros st. unfold input. by destruct (entrada st). Qed.

Lemma solo_quita_print l : respeta solo_quita (print l).
Proof. by intros st. Qed.

Lemma solo_quita_info s : respeta solo_quita (info s).
Proof. by intros st. Qed.

Lemma solo_quita_error prefijo e : respeta solo_quita (error prefijo e).
Proof. by intros st. Qed.

Lemma solo_quita_remove nombre : respeta solo_quita (remove nombre).
Proof.
  intros st. unfold remove, error_de_nombre.
  destruct (nombre_valido nombre); [|by case_match].
  destruct (archivos st !! nombre); [|done].
  split; [|done]. simpl. split_and!; [done| |done]. apply delete_subseteq.
Qed.

Lemma respeta_leer_estado (R : relation estado) {A : Type} (k : estado → M A) :
  (∀ st, R st (k st st).2 ∧ (k st st).1 ≠ Raise SinCombustible) →
  respeta R (leer_estado ≫= k).
Proof. intros H st. apply H. Qed.

Lemma solo_quita_eliminar_cliente : respeta solo_quita eliminar_cliente.
Proof.
  unfold eliminar_cliente.
  apply respeta_bind; [apply _|apply solo_quita_input|]. intros l.
  apply respeta_bind;
    [apply _
    |apply (respeta_incluida _ _ _ solo_lee_solo_quita), solo_lee_buscar_por|].
  intros [encontrados|]; [|apply solo_quita_print].
  destruct encontrados as [|[cliente_id cliente] [|p resto]];
    [apply solo_quita_print| |].
  2:{ apply respeta_bind; [apply _|apply solo_quita_print|]. intros _.
      apply respeta_por_cada; [apply _|]. intros q.
      apply (respeta_incluida _ _ _ solo_lee_solo_quita), solo_lee_linea_candidato. }
  cbv zeta. apply respeta_bind; [apply _|respeta_hoja|].
  intros []; [|apply solo_quita_print].
  apply respeta_intentar; [apply _| |].
  2:{ intros e k He. destruct e; try discriminate He. injection He as <-.
      apply respeta_bind; [apply _|apply solo_quita_error|]. intros _.
      apply solo_quita_print. }
  apply respeta_bind; [apply _|apply solo_quita_remove|]. intros _.
  apply respeta_leer_estado. intros st.
  assert (respeta solo_quita
            (st0 ← leer_estado;
             info ("Cliente " +:+ cliente_id
                   +:+ " eliminado exitosamente. Contador actualizado a "
                   +:+ PyStr.str_int (CONTADOR_CLIENTE st0));;
             numero ← campo "numero_cliente" cliente;
             print (Linea ("Cliente " +:+ cliente_id +:+ " (Número: " +:+ numero
                           +:+ ") eliminado.")))) as Hresto.
  { descender_r ltac:(first
      [ apply (respeta_incluida _ _ _ solo_lee_solo_quita), solo_lee_campo
      | apply solo_quita_info | apply solo_quita_print
      | apply respeta_bind; [apply _| |] ]). }
  unfold mbind at 1, M_bind at 1.
  case_bool_decide.
  - unfold modificar_estado at 1.
    destruct (Hresto (con_clientes (delete cliente_id (clientes st)) st)) as [HR Hsc].
    split; [|done]. etrans; [|exact HR].
    split_and!; [done..|]. simpl. apply delete_subseteq.
  - unfold mret at 1, M_ret at 1. apply Hresto.
Qed.

Lemma solo_lee_archivos {A : Type} (m : M A) st :
  respeta solo_lee m → archivos (m st).2 = archivos st.
Proof. intros H. by destruct (H st) as [(Hfs & _) _]. Qed.

Lemma buscar_por_inv criterio p1 p2 p3 st encontrados st' :
  buscar_por criterio p1 p2 p3 st = (Ok (Some encontrados), st') →
  ∀ p, p ∈ encontrados → p ∈ registros_cargados (archivos st).
Proof.
  unfold buscar_por. intros Hrun.
  assert (∀ prompt c,
            (l ← input prompt; r ← buscar_clientes c (PyStr.strip l); mret (Some r)) st
            = (Ok (Some encontrados), st') →
            ∀ p, p ∈ encontrados → p ∈ registros_cargados (archivos st)) as Hcaso.
  { intros prompt c H. rewrite input_casos in H.
    destruct (entrada st) as [|l resto]; [done|].
    unfold mbind, M_bind in H.
    destruct (buscar_clientes c (PyStr.strip l) (con_entrada resto st))
      as [[r|e] st1] eqn:Hb; [|done].
    injection H as -> <-. by apply buscar_clientes_inv in Hb as [_ Hb]. }
  repeat case_decide; first [by apply (Hcaso _ _ Hrun) | done].
Qed.

Lemma modificar_cliente_un_archivo st :
  reescribe_uno st (modificar_cliente st).2.
Proof.
  unfold modificar_cliente. rewrite input_casos.
  destruct (entrada st) as [|sel r1]; [by left|]. cbv beta iota.
  match goal with |- context [mbind _ (buscar_por ?c ?p1 ?p2 ?p3) ?s] =>
    pose proof (solo_lee_archivos (buscar_por c p1 p2 p3) s
                  (solo_lee_buscar_por c p1 p2 p3)) as Hfs;
    pose proof (buscar_por_inv c p1 p2 p3 s) as Hinv;
    unfold mbind at 1, M_bind at 1;
    destruct (buscar_por c p1 p2 p3 s) as [[o|e] st2]
  end; simpl in Hfs; [|by left].
  destruct o as [[|[cliente_id cliente] [|q resto]]|]; cbv beta iota;
    try (by left).
  - specialize (Hinv _ _ eq_refl (cliente_id, cliente) ltac:(left)). simpl in Hinv.
    apply registros_cargados_archivo in Hinv as (Hf & Hv & _).
    rewrite input_casos. destruct (entrada st2) as [|l r2]; [by left|].
    cbv beta iota zeta. case_decide; [by left|].
    unfold mbind at 1, M_bind at 1, lift at 1.
    destruct (Py.append_en _ _ cliente) as [nuevo|e]; [|by left].
    rewrite (bind_Ok _ _ _ _ _ (guardar_cliente_run _ _ _ Hv)).
    right. exists cliente_id, nuevo. split; [by eexists|].
    match goal with |- context [mbind ?k (campo ?a ?b) ?s] =>
      rewrite (solo_lee_archivos (mbind k (campo a b)) s)
    end; [simpl; by rewrite Hfs|].
    descender_r ltac:(first
      [ apply solo_lee_campo | apply solo_lee_print
      | apply respeta_bind; [apply _| |] ]).
  - left. match goal with |- context [mbind ?k (print ?l) ?s] =>
      rewrite (solo_lee_archivos (mbind k (print l)) s)
    end; [done|].
    apply respeta_bind; [apply _|apply solo_lee_print|]. intros _.
    apply respeta_por_cada; [apply _|]. apply solo_lee_linea_candidato.
Qed.

(** X26. An update never changes the counter or the dictionary, and of the
    files it either leaves all as they are or rewrites one client file that
    was there before: it adds no file and removes none.  A delete never
    changes the counter, and writes nothing: every file and every
    dictionary entry it leaves was there before, unchanged.  Both hold
    whatever the input and the directory hold, and whether the operation
    returns or raises. *)
Theorem modificar_eliminar_limites st :
  (solo_guarda st (modificar_cliente st).2
   ∧ reescribe_uno st (modificar_cliente st).2)
  ∧ solo_quita st (eliminar_cliente st).2.
Proof.
  split_and!.
  - apply solo_guarda_modificar_cliente.
  - apply modificar_cliente_un_archivo.
  - apply solo_quita_eliminar_cliente.
Qed.

(** ** The end of the input *)

(** X27. With no line left on the input, a create catches the [EOFError],
    logs and prints it and returns normally; a read, an update and a delete
    raise it and leave the state as it is; and a session of the menu raises
    it after printing the seven lines of the menu. *)
Theorem sin_entrada st :
  entrada st = [] →
  crear_cliente st
  = (Ok (),
     con_salida (salida st ++ [LineaError "Error al crear el cliente: " EOFError])
       (con_bitacora (bitacora st ++ [Error "Error al crear cliente: " EOFError]) st))
  ∧ leer_cliente st = (Raise EOFError, st)
  ∧ modificar_cliente st = (Raise EOFError, st)
  ∧ eliminar_cliente st = (Raise EOFError, st)
  ∧ (menu st).1 = Raise EOFError
  ∧ length (salida (menu st).2) = (length (salida st) + 7)%nat.
Proof.
  intros Hent.
  unfold crear_cliente, leer_cliente, modificar_cliente, eliminar_cliente, menu, intentar.
  rewrite !input_casos, Hent.
  split_and!; try reflexivity.
  - rewrite (bind_Ok _ _ _ st st) by done. rewrite Hent. simpl menu_bucle.
    do 7 (rewrite (bind_Ok _ _ _ _ _ (print_run _ _))).
    rewrite input_casos. simpl entrada. by rewrite Hent.
  - rewrite (bind_Ok _ _ _ st st) by done. rewrite Hent. simpl menu_bucle.
    do 7 (rewrite (bind_Ok _ _ _ _ _ (print_run _ _))).
    rewrite input_casos. simpl entrada. rewrite Hent. simpl.
    rewrite !length_app. simpl. lia.
Qed.

Lemma sin_entrada_witness :
  entrada estado_ejemplo = []
  ∧ leer_cliente estado_ejemplo = (Raise EOFError, estado_ejemplo)
  ∧ (menu estado_ejemplo).1 = Raise EOFError.
Proof.
  split; [reflexivity|].
  destruct (sin_entrada estado_ejemplo eq_refl) as (_ & Hleer & _ & _ & Hmenu & _).
  split; [exact Hleer|exact Hmenu].
Defined.

(** ** Identifiers and file names *)

Lemma omap_a_lo_mas_uno {A B : Type} (g : A → option B) (l : list A) :
  NoDup l →
  (∀ x y, x ∈ l → y ∈ l → is_Some (g x) → is_Some (g y) → x = y) →
  (length (omap g l) ≤ 1)%nat.
Proof.
  induction l as [|x l IH]; intros Hnd Hg; [simpl; lia|].
  apply NoDup_cons in Hnd as [Hx Hnd].
  change (omap g (x :: l))
    with (match g x with Some b => b :: omap g l | None => omap g l end).
  destruct (g x) as [b|] eqn:Hgx.
  - assert (omap g l = []) as ->; [|simpl; lia].
    destruct (omap g l) as [|c r] eqn:E; [done|]. exfalso.
    assert (c ∈ omap g l) as Hc by (rewrite E; left).
    apply list_elem_of_omap in Hc as (y & Hy & Hgy).
    assert (x = y) as ->; [|done].
    apply Hg; [left|by right|by rewrite Hgx|by rewrite Hgy].
  - apply IH; [done|]. intros y z Hy Hz. apply Hg; by right.
Qed.

(** X28. On a directory whose client files have the names that their
    identifiers give back, and none of which is beyond [json.load], a search
    by identifier returns, and finds at most one client. *)
Theorem buscar_clientes_id_unico valor st :
  canonico (archivos st) →
  legible (archivos st) →
  ∃ encontrados st',
    buscar_clientes "id" valor st = (Ok encontrados, st')
    ∧ (length encontrados ≤ 1)%nat.
Proof.
  intros Hcan Hleg.
  destruct (buscar_clientes_id_run valor st Hleg) as (st' & Hrun & _).
  eexists _, st'. split; [exact Hrun|].
  unfold find, registros_cargados.
  set (g := λ f, p ← registro_de (archivos st) f;
                 if cumple "id" valor p then Some p else None).
  assert (∀ l, List.filter (cumple "id" valor) (omap (registro_de (archivos st)) l)
               = omap g l) as ->.
  { induction l as [|f l IH]; [done|].
    change (omap (registro_de (archivos st)) (f :: l))
      with (match registro_de (archivos st) f with
            | Some p => p :: omap (registro_de (archivos st)) l
            | None => omap (registro_de (archivos st)) l
            end).
    change (omap g (f :: l))
      with (match g f with Some b => b :: omap g l | None => omap g l end).
    unfold g at 1.
    destruct (registro_de (archivos st) f) as [p|]; [|exact IH].
    cbn [List.filter mbind option_bind].
    destruct (cumple "id" valor p); by rewrite IH. }
  apply omap_a_lo_mas_uno.
  { apply NoDup_fst_map_to_list. }
  assert (∀ f, f ∈ (map_to_list (archivos st)).*1 → is_Some (g f) →
               f = archivo_de valor) as Hf.
  { intros f Hin [p Hp]. unfold g in Hp.
    destruct (registro_de (archivos st) f) as [q|] eqn:Hq; [|done]. simpl in Hp.
    destruct (cumple "id" valor q) eqn:Hc; [|done].
    unfold registro_de in Hq. destruct (es_archivo_cliente f) eqn:Hes; [|done].
    destruct (Py.truth _); [|done]. injection Hq as <-.
    unfold cumple in Hc. simpl in Hc. apply bool_decide_eq_true in Hc as <-.
    symmetry. apply Hcan; [|done].
    apply list_elem_of_fmap in Hin as ([f' c] & -> & Hin).
    apply elem_of_map_to_list in Hin. by eexists. }
  intros x y Hx Hy Hgx Hgy. by rewrite (Hf x), (Hf y).
Qed.

Lemma canonico_estado_ejemplo : canonico (archivos estado_ejemplo).
Proof.
  intros f [c Hc]. revert f c Hc.
  change (map_Forall (λ f _, es_archivo_cliente f = true →
                             archivo_de (id_de_archivo f) = f)
            (archivos estado_ejemplo)).
  unfold estado_ejemplo. simpl.
  repeat (apply map_Forall_insert_2; [by vm_compute|]). apply map_Forall_empty.
Qed.

Lemma buscar_clientes_id_unico_witness :
  canonico (archivos estado_ejemplo)
  ∧ legible (archivos estado_ejemplo)
  ∧ ∃ encontrados st',
      buscar_clientes "id" "AB_20250602" estado_ejemplo = (Ok encontrados, st')
      ∧ (length encontrados ≤ 1)%nat.
Proof.
  split; [exact canonico_estado_ejemplo|]. split; [exact legible_estado_ejemplo|].
  exact (buscar_clientes_id_unico "AB_20250602" estado_ejemplo canonico_estado_ejemplo
           legible_estado_ejemplo).
Defined.

(** ** The names of the client files through a session *)

Lemma canonico_insert fs cliente_id c :
  id_de_archivo (archivo_de cliente_id) = cliente_id →
  canonico fs → canonico (<[archivo_de cliente_id := c]> fs).
Proof.
  intros Hid Hfs f Hf Hc.
  destruct (decide (f = archivo_de cliente_id)) as [->|Hne]; [by rewrite Hid|].
  rewrite lookup_insert_ne in Hf by done. by apply Hfs.
Qed.

Lemma canonico_contador fs c : canonico fs → canonico (<[CONTADOR_FILE := c]> fs).
Proof.
  intros Hfs f Hf Hc.
  destruct (decide (f = CONTADOR_FILE)) as [->|Hne]; [done|].
  rewrite lookup_insert_ne in Hf by done. by apply Hfs.
Qed.

Lemma canonico_crear_cliente st :
  canonico (archivos st) → canonico (archivos (crear_cliente st).2).
Proof.
  intros Hst. destruct (crear_cliente_casos st) as (st' & -> & Hcasos). simpl.
  destruct Hcasos as [(-> & _)|(n & a & t & c & resto & id0 & _ & _ & Hid & ->)]; [done|].
  rewrite archivos_tras_crear. cbv zeta.
  apply generate_unique_id_sin_minusculas, id_de_archivo_de in Hid.
  destruct (nombre_valido (archivo_de id0)).
  - by apply canonico_insert, canonico_contador.
  - by apply canonico_contador.
Qed.

Lemma canonico_modificar_cliente st :
  canonico (archivos st) → canonico (archivos (modificar_cliente st).2).
Proof.
  intros Hst.
  destruct (modificar_cliente_un_archivo st) as [->|(id0 & datos & Hesta & ->)]; [done|].
  intros f Hf Hc. apply Hst; [|done].
  destruct (decide (f = archivo_de id0)) as [->|Hne]; [done|].
  by rewrite lookup_insert_ne in Hf.
Qed.

Lemma canonico_eliminar_cliente st :
  canonico (archivos st) → canonico (archivos (eliminar_cliente st).2).
Proof.
  intros Hst. destruct (solo_quita_eliminar_cliente st) as [(_ & Hsub & _) _].
  intros f [c Hf] Hc. apply Hst; [|done].
  exists c. by eapply lookup_weaken.
Qed.

Lemma canonico_operaciones op st :
  op ∈ operaciones → canonico (archivos st) → canonico (archivos (op st).2).
Proof.
  unfold operaciones. intros H Hst.
  repeat (apply elem_of_cons in H as [->|H]).
  - by apply canonico_crear_cliente.
  - by rewrite (solo_lee_archivos _ _ solo_lee_leer_cliente).
  - by apply canonico_modificar_cliente.
  - by apply canonico_eliminar_cliente.
  - by rewrite (solo_lee_archivos _ _ solo_lee_listar_clientes).
  - by apply elem_of_nil in H.
Qed.

Lemma canonico_y_sigue (op sigue : M unit) (n : nat) st :
  op ∈ operaciones →
  canonico (archivos st) →
  (length (entrada st) ≤ n)%nat →
  (∀ st1, (length (entrada st1) ≤ n)%nat → canonico (archivos st1) →
          canonico (archivos (sigue st1).2)) →
  canonico (archivos ((op;; sigue) st).2).
Proof.
  intros Hop Hst Hn Hsigue. unfold mbind, M_bind.
  destruct (respeta_operaciones op Hop st) as [Hav _].
  pose proof (canonico_operaciones op st Hop Hst) as Hst1.
  destruct (op st) as [[[]|e] st1]; simpl in *; [|done].
  apply Hsigue; [|done]. apply avanza_entrada_length in Hav. lia.
Qed.

Lemma menu_bucle_canonico fuel : ∀ st,
  (length (entrada st) < fuel)%nat →
  canonico (archivos st) → canonico (archivos (menu_bucle fuel st).2).
Proof.
  induction fuel as [|fuel IH]; intros st Hfuel Hst; [lia|].
  simpl menu_bucle.
  do 7 (rewrite (bind_Ok _ _ _ _ _ (print_run _ _))).
  match goal with |- context [mbind _ _ ?s] => set (st7 := s) end.
  assert (entrada st7 = entrada st) as Hent7 by reflexivity.
  destruct (entrada st) as [|l resto] eqn:Hent.
  { rewrite (bind_Raise _ _ _ EOFError st7) by (unfold input; by rewrite Hent7).
    done. }
  rewrite (bind_Ok _ _ _ _ _ (input_run _ _ _ _ Hent7)).
  assert (∀ st1, (length (entrada st1) ≤ length resto)%nat →
                 canonico (archivos st1) →
                 canonico (archivos (menu_bucle fuel st1).2)) as Hsigue.
  { intros st1 H1. apply IH. simpl in Hfuel. lia. }
  cbv zeta.
  repeat case_decide;
    try (apply (canonico_y_sigue _ _ (length resto));
         [unfold operaciones; solve [repeat (first [by left | right])]
         |done|done|done]).
  - done.
  - rewrite (bind_Ok _ _ _ _ _ (print_run _ _)). by apply Hsigue.
Qed.

(** X29. The client files keep names that read back to their identifier:
    when every client file of the directory is named after the very
    identifier that a search, a read or a list takes from its name, the same
    holds after each of the five operations and after a whole session of the
    menu, whatever the input holds and however the session ends. *)
Theorem nombres_se_conservan st :
  canonico (archivos st) →
  (∀ op, op ∈ operaciones → canonico (archivos (op st).2))
  ∧ canonico (archivos (menu st).2).
Proof.
  intros Hst. split.
  - intros op Hop. by apply canonico_operaciones.
  - unfold menu. rewrite (bind_Ok _ _ _ st st) by done.
    apply menu_bucle_canonico; [lia|done].
Qed.

Lemma nombres_se_conservan_witness :
  let st := con_entrada ["1"; "Juan"; "Perez"; "Persona"; "5512345678";
                         "4"; "2"; "CD_20250602"; "6"] estado_ejemplo in
  canonico (archivos st)
  ∧ is_Some (archivos (menu st).2 !! archivo_de "JP_20250602")
  ∧ archivos (menu st).2 !! archivo_de "CD_20250602" = None
  ∧ canonico (archivos (menu st).2).
Proof.
  intros st.
  assert (archivos (menu st).2 !! archivo_de "JP_20250602"
          = Some (Json (registro_nuevo "Juan" "Perez" "Persona" "5512345678"
                          "2025-06-02 10:30:05" "C003"))) as Hcreado
    by (by vm_compute).
  assert (archivos (menu st).2 !! archivo_de "CD_20250602" = None) as Hborrado
    by (by vm_compute).
  split; [exact canonico_estado_ejemplo|].
  split; [rewrite Hcreado; by eexists|]. split; [exact Hborrado|].
  exact (proj2 (nombres_se_conservan st canonico_estado_ejemplo)).
Defined.
